(** * naver-maps-mcp: the coordinate classifier, the provider gateway and
      the four tool handlers of [src/index.ts]

    The development embeds the latest revision of [src/index.ts] (the one
    whose gateway takes an [expectBinary] flag and whose classifier checks
    the longitude/latitude ranges) and, beside it, what the earlier
    revisions do differently.  The file is organised as follows.

    - [Str]: the JavaScript string primitives the program calls
      ([split], [trim], template concatenation), over UTF-8 bytes.
    - [Num]: the JavaScript Number type (IEEE 754 binary64, here the
      standard library's [spec_float]) with [parseFloat], [toFixed],
      [Math.round], [toString] and [toLocaleString].
    - [Js]: JSON values with property access, optional chaining,
      truthiness and the [ToString] / [ToNumber] coercions.
    - [Base64]: the RFC 4648 encoding behind [Buffer.toString("base64")].
    - [Server]: the program itself; a handler is a computation over the
      log of the exchanges with the provider.
    - [Spec]: the vocabulary of the statements (what a well-formed
      response is, what the spec says a handler does with it).
    - [Examples]: sample providers.
    - [Url]: the query strings of the URL standard.
    - [Legacy]: the earlier revisions of the server, where they differ
      from the latest one, and the functions they declare beside the
      tools.
    - [Props], [Samples]: the vocabulary and the sample providers of the
      further properties.
    - Then the lemmas, the claims C1 to C10 with their witnesses, and
      the further properties X1 to X25 of the code. *)

From Stdlib Require Import ZArith List String Ascii Bool Lia.
From Stdlib Require Import Floats.SpecFloat.
From Stdlib Require Import DecimalString.
Import ListNotations.

Local Open Scope string_scope.
Local Open Scope Z_scope.

(* ================================================================== *)
(** ** Strings *)
(* ================================================================== *)

Module Str.

(** A JavaScript string is modelled by its UTF-8 bytes.  Every separator
    and every digit the program inspects is ASCII, and no UTF-8
    continuation byte is ASCII, so splitting and scanning by byte agrees
    with splitting and scanning by UTF-16 code unit. *)

Definition bytes (l : list nat) : string :=
  fold_right (fun n s => String (ascii_of_nat n) s) EmptyString l.

(** The line feed of the template literals. *)
Definition nl : string := bytes [10%nat].

Definition comma : ascii := ","%char.

(** [String.prototype.split] with a one-character separator: the result
    is never empty, and an empty string splits into one empty part. *)
Fixpoint split (sep : ascii) (s : string) : list string :=
  match s with
  | EmptyString => [EmptyString]
  | String c rest =>
      if Ascii.eqb c sep then EmptyString :: split sep rest
      else match split sep rest with
           | [] => [String c EmptyString]
           | p :: ps => String c p :: ps
           end
  end.

(** No character of [s] is [sep]. *)
Definition free (sep : ascii) (s : string) : Prop :=
  Forall (fun c => c <> sep) (list_ascii_of_string s).

Fixpoint rev_append (s acc : string) : string :=
  match s with
  | EmptyString => acc
  | String c rest => rev_append rest (String c acc)
  end.

Definition rev (s : string) : string := rev_append s EmptyString.

(** [strip_prefix p s] is the rest of [s] after its prefix [p]. *)
Fixpoint strip_prefix (p s : string) : option string :=
  match p with
  | EmptyString => Some s
  | String a p' =>
      match s with
      | EmptyString => None
      | String b s' => if Ascii.eqb a b then strip_prefix p' s' else None
      end
  end.

Definition starts_with (p s : string) : bool :=
  match strip_prefix p s with Some _ => true | None => false end.

(** [contains p s]: [p] occurs in [s] ([String.prototype.includes]). *)
Fixpoint contains (p s : string) : bool :=
  starts_with p s
  || match s with
     | EmptyString => false
     | String _ s' => contains p s'
     end.

(** The code points ECMAScript calls WhiteSpace or LineTerminator, in
    UTF-8: TAB, LF, VT, FF, CR, SP, U+00A0, U+1680, U+2000..U+200A,
    U+2028, U+2029, U+202F, U+205F, U+3000 and U+FEFF. *)
Definition white_space : list string :=
  map bytes
    ([[9]; [10]; [11]; [12]; [13]; [32]; [194; 160]; [225; 154; 128]]
     ++ map (fun k => [226; 128; k]) (seq 128 11)
     ++ [[226; 128; 168]; [226; 128; 169]; [226; 128; 175];
         [226; 129; 159]; [227; 128; 128]; [239; 187; 191]])%nat%list.

Fixpoint strip_any (tokens : list string) (s : string) : option string :=
  match tokens with
  | [] => None
  | t :: ts =>
      match strip_prefix t s with
      | Some r => Some r
      | None => strip_any ts s
      end
  end.

Fixpoint strip_all (tokens : list string) (fuel : nat) (s : string) : string :=
  match fuel with
  | O => s
  | S fuel' =>
      match strip_any tokens s with
      | Some r => strip_all tokens fuel' r
      | None => s
      end
  end.

(** [String.prototype.trimStart], [trimEnd] and [trim]. *)
Definition trimStart (s : string) : string :=
  strip_all white_space (String.length s) s.

Definition trimEnd (s : string) : string :=
  rev (strip_all (map rev white_space) (String.length s) (rev s)).

Definition trim (s : string) : string := trimEnd (trimStart s).

(** [Array.prototype.join]. *)
Fixpoint join (sep : string) (l : list string) : string :=
  match l with
  | [] => ""
  | [x] => x
  | x :: xs => x ++ sep ++ join sep xs
  end.

(** Decimal digits of a non-negative integer. *)
Definition of_N (n : N) : string := NilZero.string_of_uint (N.to_uint n).

Definition of_Z (z : Z) : string :=
  match z with
  | Zneg p => "-" ++ of_N (Npos p)
  | _ => of_N (Z.to_N z)
  end.

Fixpoint repeat0 (n : nat) : string :=
  match n with
  | O => ""
  | S n' => String "0" (repeat0 n')
  end.

(** [take n s] and [drop n s]: the two halves of [s] at byte [n]. *)
Fixpoint take (n : nat) (s : string) : string :=
  match n, s with
  | S n', String c s' => String c (take n' s')
  | _, _ => ""
  end.

Fixpoint drop (n : nat) (s : string) : string :=
  match n, s with
  | S n', String _ s' => drop n' s'
  | _, _ => s
  end.

End Str.

(* ================================================================== *)
(** ** Numbers *)
(* ================================================================== *)

Module Num.

(** A JavaScript Number is an IEEE 754 binary64 value: the standard
    library's [spec_float] at precision 53 and maximal exponent 1024,
    with its correctly rounded operations. *)
Definition number : Type := spec_float.

Definition prec : Z := 53.
Definition emax : Z := 1024.

Definition NaN : number := S754_nan.

(** The Number nearest to an integer (exact below 2^53). *)
Definition of_Z (z : Z) : number := binary_normalize prec emax z 0 false.

(** The Number nearest to [m * 10^e10], ties to even: the value that
    ECMAScript gives to a decimal literal with digits [m] and decimal
    exponent [e10]. *)
Definition of_decimal (neg : bool) (m e10 : Z) : number :=
  match m with
  | Zpos p =>
      if 0 <=? e10
      then binary_round prec emax neg (Z.to_pos (m * 10 ^ e10)) 0
      else SFdiv prec emax (S754_finite neg p 0)
                           (S754_finite false (Z.to_pos (10 ^ (- e10))) 0)
  | _ => S754_zero neg
  end.

Definition isNaN (x : number) : bool :=
  match x with S754_nan => true | _ => false end.

Definition leb (x y : number) : bool := SFleb x y.
Definition div (x y : number) : number := SFdiv prec emax x y.

(** Falsy numbers are [+0], [-0] and [NaN]. *)
Definition truthy (x : number) : bool :=
  match x with
  | S754_zero _ | S754_nan => false
  | _ => true
  end.

Definition same (x y : number) : bool :=
  match x, y with
  | S754_finite s1 m1 e1, S754_finite s2 m2 e2 =>
      Bool.eqb s1 s2 && Pos.eqb m1 m2 && (e1 =? e2)
  | S754_zero s1, S754_zero s2 => Bool.eqb s1 s2
  | S754_infinity s1, S754_infinity s2 => Bool.eqb s1 s2
  | S754_nan, S754_nan => true
  | _, _ => false
  end.

(** The exact value [m * 2^e] of a finite Number, as a fraction. *)
Definition frac (m : positive) (e : Z) : Z * Z :=
  if 0 <=? e then (Zpos m * 2 ^ e, 1) else (Zpos m, 2 ^ (- e)).

(** [floor (n / d + 1/2)] for [0 <= n] and [0 < d]. *)
Definition round_half_up (n d : Z) : Z := (2 * n + d) / (2 * d).

(** *** Number::toString *)

Fixpoint pow10_ge (fuel : nat) (j n d : Z) : Z :=
  match fuel with
  | O => j
  | S fuel' => if d <=? n * 10 ^ j then j else pow10_ge fuel' (j + 1) n d
  end.

(** The decimal exponent [n] of [v = N / D > 0]: [10^(n-1) <= v < 10^n]. *)
Definition dec_exponent (N D : Z) : Z :=
  if D <=? N then Z.of_nat (String.length (Str.of_Z (N / D)))
  else 1 - pow10_ge 400 1 N D.

(** [v * 10^j] as a fraction. *)
Definition scale10 (N D j : Z) : Z * Z :=
  if 0 <=? j then (N * 10 ^ j, D) else (N, D * 10 ^ (- j)).

(** The shortest decimal that reads back as [x = m * 2^e]: the digits
    [s], their number [k] and the exponent [n] of Number::toString, with
    [10^(k-1) <= s < 10^k] and [s * 10^(n-k)] rounding to [x]; among two
    candidates the one nearer to [x], the even one on a tie. *)
Fixpoint shortest (fuel : nat) (k n : Z) (m : positive) (e : Z) : Z * Z * Z :=
  let x := S754_finite false m e in
  let '(N, D) := frac m e in
  let '(num, den) := scale10 N D (k - n) in
  let lo := num / den in
  let '(hi, nhi) := if lo + 1 =? 10 ^ k then (10 ^ (k - 1), n + 1)
                    else (lo + 1, n) in
  let ok_lo := same (of_decimal false lo (n - k)) x in
  let ok_hi := same (of_decimal false hi (nhi - k)) x in
  let twice_rem := 2 * (num - lo * den) in
  let lo_wins := (twice_rem <? den) || ((twice_rem =? den) && Z.even lo) in
  match fuel with
  | O => if lo_wins then (lo, k, n) else (hi, k, nhi)
  | S fuel' =>
      if ok_lo && (lo_wins || negb ok_hi) then (lo, k, n)
      else if ok_hi then (hi, k, nhi)
      else shortest fuel' (k + 1) n m e
  end.

Definition format_digits (s k n : Z) : string :=
  let digits := Str.of_Z s in
  if (k <=? n) && (n <=? 21) then digits ++ Str.repeat0 (Z.to_nat (n - k))
  else if (0 <? n) && (n <=? 21)
  then Str.take (Z.to_nat n) digits ++ "." ++ Str.drop (Z.to_nat n) digits
  else if (-6 <? n) && (n <=? 0)
  then "0." ++ Str.repeat0 (Z.to_nat (- n)) ++ digits
  else
    let e := n - 1 in
    let es := (if e <? 0 then "-" else "+") ++ Str.of_Z (Z.abs e) in
    if k =? 1 then digits ++ "e" ++ es
    else Str.take 1 digits ++ "." ++ Str.drop 1 digits ++ "e" ++ es.

Definition toString (x : number) : string :=
  match x with
  | S754_nan => "NaN"
  | S754_zero _ => "0"
  | S754_infinity s => (if s then "-" else "") ++ "Infinity"
  | S754_finite s m e =>
      let '(N, D) := frac m e in
      let '(d, k, n) := shortest 16 1 (dec_exponent N D) m e in
      (if s then "-" else "") ++ format_digits d k n
  end.

(** *** Number.prototype.toFixed *)

(** The digits of [n] with a point before the last [fd] of them, padded
    with zeros on the left so that at least one digit precedes the point. *)
Definition fixed_digits (fd : nat) (n : Z) : string :=
  let m := Str.of_Z n in
  let k := String.length m in
  let m := if (k <=? fd)%nat then Str.repeat0 (fd + 1 - k) ++ m else m in
  let k := String.length m in
  match fd with
  | O => m
  | _ => Str.take (k - fd) m ++ "." ++ Str.drop (k - fd) m
  end.

Definition toFixed (fd : nat) (x : number) : string :=
  match x with
  | S754_finite s m e =>
      let '(N, D) := frac m e in
      if 10 ^ 21 * D <=? N then toString x
      else (if s then "-" else "")
           ++ fixed_digits fd (round_half_up (N * 10 ^ Z.of_nat fd) D)
  | S754_zero _ => fixed_digits fd 0
  | _ => toString x
  end.

(** *** Math.round: the nearest integer, ties towards +Infinity *)

Definition Math_round (x : number) : number :=
  match x with
  | S754_finite s m e =>
      if 0 <=? e then x
      else
        let d := 2 ^ (- e) in
        let r := (2 * (if s then Zneg m else Zpos m) + d) / (2 * d) in
        if r =? 0 then S754_zero s else of_Z r
  | _ => x
  end.

(** *** Number.prototype.toLocaleString *)

Fixpoint group_rev (s : string) (count : nat) : string :=
  match s with
  | EmptyString => EmptyString
  | String c rest =>
      match count with
      | 3%nat => String "," (String c (group_rev rest 1))
      | _ => String c (group_rev rest (S count))
      end
  end.

(** Integer digits grouped by three with [","]. *)
Definition group3 (digits : string) : string :=
  Str.rev (group_rev (Str.rev digits) 0).

Fixpoint strip_zeros_rev (s : string) : string :=
  match s with
  | String "0" rest => strip_zeros_rev rest
  | _ => s
  end.

(** Three digits, with zeros on the left. *)
Definition pad3 (n : Z) : string :=
  let d := Str.of_Z n in
  Str.repeat0 (3 - String.length d) ++ d.

(** Modelled from the spec: the host's locale data is not part of the
    repository; the spec says the amounts are "formatted with thousands
    separators".  This is ECMA-402 number formatting for the locales
    en-US and ko-KR: groups of three separated by [","], at most three
    fraction digits (rounded half away from zero), no trailing zeros.
    The digits are those of the exact value of the Number, as ECMA-402
    words it; a host that formats from the shortest decimal of the
    Number differs on fractions and above 2^53 and agrees on the whole
    numbers below 2^53, and the statements on amounts are about
    these. *)
Definition toLocaleString (x : number) : string :=
  match x with
  | S754_nan => "NaN"
  | S754_infinity s => (if s then "-" else "") ++ Str.bytes [226; 136; 158]%nat
  | S754_zero s => (if s then "-" else "") ++ "0"
  | S754_finite s m e =>
      let '(N, D) := frac m e in
      let r := round_half_up (N * 1000) D in
      let fr := Str.rev (strip_zeros_rev (Str.rev (pad3 (r mod 1000)))) in
      (if s then "-" else "") ++ group3 (Str.of_Z (r / 1000))
      ++ (if r mod 1000 =? 0 then "" else "." ++ fr)
  end.

(** *** parseFloat *)

Definition digit_val (c : ascii) : option Z :=
  let n := Z.of_nat (nat_of_ascii c) in
  if (48 <=? n) && (n <=? 57) then Some (n - 48) else None.

(** The longest run of decimal digits at the head of [s]: its value
    after the digits accumulated in [acc], how many there are, the rest. *)
Fixpoint take_digits (s : string) (acc : Z) (count : Z) : Z * Z * string :=
  match s with
  | EmptyString => (acc, count, s)
  | String c rest =>
      match digit_val c with
      | Some d => take_digits rest (10 * acc + d) (count + 1)
      | None => (acc, count, s)
      end
  end.

(** ExponentPart: [e] or [E], an optional sign, at least one digit.
    Returns the exponent and the rest, or [None] when there is no
    complete exponent part (then nothing of it is consumed). *)
Definition scan_exponent (s : string) : option (Z * string) :=
  match s with
  | String c rest =>
      if Ascii.eqb c "e" || Ascii.eqb c "E" then
        let '(neg, rest') :=
          match rest with
          | String "-" r => (true, r)
          | String "+" r => (false, r)
          | _ => (false, rest)
          end in
        let '(v, count, r) := take_digits rest' 0 0 in
        if count =? 0 then None else Some (if neg then - v else v, r)
      else None
  | EmptyString => None
  end.

(** The longest prefix of [s] that is a StrUnsignedDecimalLiteral
    ([Infinity], digits with an optional fraction, or a fraction alone,
    then an optional exponent part), as a Number of sign [neg], with the
    rest of [s]; [None] when no prefix is one. *)
Definition scan_unsigned (neg : bool) (s : string) : option (number * string) :=
  match Str.strip_prefix "Infinity" s with
  | Some r => Some (S754_infinity neg, r)
  | None =>
      let '(ip, ic, r1) := take_digits s 0 0 in
      let '(m, fc, r2) :=
        match r1 with
        | String "." r =>
            let '(m', fc', r') := take_digits r ip 0 in
            if (ic =? 0) && (fc' =? 0) then (ip, 0, r1) else (m', fc', r')
        | _ => (ip, 0, r1)
        end in
      if (ic =? 0) && (fc =? 0) then None
      else
        match scan_exponent r2 with
        | Some (ex, r3) => Some (of_decimal neg m (ex - fc), r3)
        | None => Some (of_decimal neg m (- fc), r2)
        end
  end.

Definition scan_sign (s : string) : bool * string :=
  match s with
  | String "-" r => (true, r)
  | String "+" r => (false, r)
  | _ => (false, s)
  end.

(** The global [parseFloat]: leading white space is skipped, the longest
    prefix that is a StrDecimalLiteral is read, anything after it is
    ignored; [NaN] when there is no such prefix. *)
Definition parseFloat (s : string) : number :=
  let '(neg, u) := scan_sign (Str.trimStart s) in
  match scan_unsigned neg u with
  | Some (x, _) => x
  | None => NaN
  end.

(** *** StringToNumber, the ToNumber coercion of a string *)

Definition radix_val (radix : Z) (c : ascii) : option Z :=
  let n := Z.of_nat (nat_of_ascii c) in
  let v := if (48 <=? n) && (n <=? 57) then n - 48
           else if (97 <=? n) && (n <=? 102) then n - 87
           else if (65 <=? n) && (n <=? 70) then n - 55
           else 16 in
  if v <? radix then Some v else None.

Fixpoint take_radix (radix : Z) (s : string) (acc count : Z) : Z * Z * string :=
  match s with
  | EmptyString => (acc, count, s)
  | String c rest =>
      match radix_val radix c with
      | Some d => take_radix radix rest (radix * acc + d) (count + 1)
      | None => (acc, count, s)
      end
  end.

Definition non_decimal (s : string) : option number :=
  let radix :=
    match s with
    | String "0" (String c _) =>
        if Ascii.eqb c "x" || Ascii.eqb c "X" then 16
        else if Ascii.eqb c "o" || Ascii.eqb c "O" then 8
        else if Ascii.eqb c "b" || Ascii.eqb c "B" then 2
        else 0
    | _ => 0
    end in
  if radix =? 0 then None
  else
    let '(v, count, r) := take_radix radix (Str.drop 2 s) 0 0 in
    match r with
    | EmptyString => if count =? 0 then Some NaN else Some (of_Z v)
    | _ => Some NaN
    end.

Definition StringToNumber (s : string) : number :=
  let t := Str.trim s in
  match t with
  | EmptyString => S754_zero false
  | _ =>
      match non_decimal t with
      | Some x => x
      | None =>
          let '(neg, u) := scan_sign t in
          match scan_unsigned neg u with
          | Some (x, EmptyString) => x
          | _ => NaN
          end
      end
  end.

End Num.

(* ================================================================== *)
(** ** JSON values and the coercions the program applies to them *)
(* ================================================================== *)

Module Js.

(** What [response.json()] produces, and [undefined], which reading a
    missing property produces. *)
#[local] Set Warnings "-register-all".
Inductive value : Type :=
| VUndef
| VNull
| VBool (b : bool)
| VNum (x : Num.number)
| VStr (s : string)
| VArr (items : list value)
| VObj (fields : list (string * value)).

(** The exceptions the program can see; only [message] is ever read. *)
Inductive exn : Type :=
| Error (message : string)
| TypeError (message : string)
| SyntaxError (message : string).

Definition message (e : exn) : string :=
  match e with
  | Error m | TypeError m | SyntaxError m => m
  end.

(** A computation that returns or throws. *)
Inductive result (A : Type) : Type :=
| Ok (a : A)
| Throw (e : exn).
Arguments Ok {A} a.
Arguments Throw {A} e.

Definition truthy (v : value) : bool :=
  match v with
  | VUndef | VNull => false
  | VBool b => b
  | VNum x => Num.truthy x
  | VStr s => negb (String.eqb s "")
  | VArr _ | VObj _ => true
  end.

Definition nullish (v : value) : bool :=
  match v with
  | VUndef | VNull => true
  | _ => false
  end.

(** [a || b] for operands whose evaluation has no effect. *)
Definition or (a b : value) : value := if truthy a then a else b.

(** The own property [k] of a parsed JSON object: the last occurrence of
    a repeated key wins, as in [JSON.parse]. *)
Fixpoint assoc (k : string) (fields : list (string * value)) : option value :=
  match fields with
  | [] => None
  | (k', v) :: rest =>
      match assoc k rest with
      | Some w => Some w
      | None => if String.eqb k' k then Some v else None
      end
  end.

(** The length of a string in UTF-16 code units, from its UTF-8 bytes. *)
Fixpoint utf16_length (s : string) : Z :=
  match s with
  | EmptyString => 0
  | String c rest =>
      let n := Z.of_nat (nat_of_ascii c) in
      (if (128 <=? n) && (n <? 192) then 0 else if 240 <=? n then 2 else 1)
      + utf16_length rest
  end.

(** The code points of a string, each as a string. *)
Fixpoint code_points (fuel : nat) (s : string) : list string :=
  match fuel, s with
  | S fuel', String c _ =>
      let n := Z.of_nat (nat_of_ascii c) in
      let k := if n <? 192 then 1 else if n <? 224 then 2
               else if n <? 240 then 3 else 4 in
      Str.take (Z.to_nat k) s :: code_points fuel' (Str.drop (Z.to_nat k) s)
  | _, _ => []
  end.

(** The array index a property name denotes: a decimal numeral without
    a leading zero. *)
Definition array_index (k : string) : Datatypes.option nat :=
  match k with
  | EmptyString => None
  | String "0" EmptyString => Some O
  | String "0" _ => None
  | _ =>
      match Num.take_digits k 0 0 with
      | (v, _, EmptyString) => Some (Z.to_nat v)
      | _ => None
      end
  end.

Definition describe (v : value) : string :=
  match v with VNull => "null" | _ => "undefined" end.

(** [v.k] and [v[k]]: own properties of objects, [length] and the
    elements of arrays and strings.  Reading a property of [undefined]
    or [null] throws (the text is V8's).  The methods values inherit are
    not properties here; the program reads none of them with [get].  A
    string is indexed by code point, which is JavaScript's indexing by
    code unit up to the first code point above U+FFFF. *)
Definition get (v : value) (k : string) : result value :=
  match v with
  | VUndef | VNull =>
      Throw (TypeError ("Cannot read properties of " ++ describe v
                        ++ " (reading '" ++ k ++ "')"))
  | VObj fields =>
      Ok (match assoc k fields with Some w => w | None => VUndef end)
  | VArr items =>
      Ok (if String.eqb k "length"
          then VNum (Num.of_Z (Z.of_nat (List.length items)))
          else match array_index k with
               | Some i => nth i items VUndef
               | None => VUndef
               end)
  | VStr s =>
      Ok (if String.eqb k "length" then VNum (Num.of_Z (utf16_length s))
          else match array_index k with
               | Some i =>
                   match nth_error (code_points (String.length s) s) i with
                   | Some c => VStr c
                   | None => VUndef
                   end
               | None => VUndef
               end)
  | VBool _ | VNum _ => Ok VUndef
  end.

(** [v[0]]. *)
Definition get0 (v : value) : result value := get v "0".

(** Optional chaining: [v?.k] and [v?.[0]]. *)
Definition opt_get (v : value) (k : string) : value :=
  match get v k with Ok w => w | Throw _ => VUndef end.

Definition opt_get0 (v : value) : value :=
  match get0 v with Ok w => w | Throw _ => VUndef end.

(** [const { k } = v], where [expr] is the source text of the right-hand
    side (V8 quotes it in the message). *)
Definition destructure (expr : string) (v : value) (k : string) : result value :=
  if nullish v
  then Throw (TypeError ("Cannot destructure property '" ++ k ++ "' of '"
                         ++ expr ++ "' as it is " ++ describe v ++ "."))
  else get v k.

(** ToString, as applied by template literals and by [String(v)].  An
    object is given the "[object Object]" of the method it inherits:
    this is the conversion on the values [Spec.printable] accepts, in
    which no own property [toString] hides that method (the conversion
    of the others throws, and the statements leave them out). *)
Fixpoint ToString (v : value) : string :=
  match v with
  | VUndef => "undefined"
  | VNull => "null"
  | VBool b => if b then "true" else "false"
  | VNum x => Num.toString x
  | VStr s => s
  | VArr items =>
      Str.join "," (map (fun w => match w with
                                  | VUndef | VNull => ""
                                  | _ => ToString w
                                  end) items)
  | VObj _ => "[object Object]"
  end.

(** ToNumber, as applied by the arithmetic operators: for an array or an
    object the Number of its string, so again the conversion on the
    values [Spec.printable] accepts. *)
Definition ToNumber (v : value) : Num.number :=
  match v with
  | VUndef => Num.NaN
  | VNull => S754_zero false
  | VBool b => if b then Num.of_Z 1 else S754_zero false
  | VNum x => x
  | VStr s => Num.StringToNumber s
  | VArr _ | VObj _ => Num.StringToNumber (ToString v)
  end.

(** The global [isNaN], and the relational operators on numbers. *)
Definition isNaN (v : value) : bool := Num.isNaN (ToNumber v).
Definition ge (v : value) (x : Num.number) : bool := Num.leb x (ToNumber v).
Definition le (v : value) (x : Num.number) : bool := Num.leb (ToNumber v) x.

(** [v.toLocaleString()]: the method of Number, and the inherited ones
    of the other truthy values (elements of an array are formatted in
    turn, [undefined] and [null] elements as the empty string).  An
    object is given the inherited method also when an own property
    [toLocaleString] hides it; the statements on amounts are about
    Numbers. *)
Fixpoint toLocaleString (v : value) : result string :=
  match v with
  | VUndef | VNull =>
      Throw (TypeError ("Cannot read properties of " ++ describe v
                        ++ " (reading 'toLocaleString')"))
  | VNum x => Ok (Num.toLocaleString x)
  | VArr items =>
      Ok (Str.join "," (map (fun w => match toLocaleString w with
                                      | Ok s => s
                                      | Throw _ => ""
                                      end) items))
  | VBool _ | VStr _ | VObj _ => Ok (ToString v)
  end.

End Js.

(* ================================================================== *)
(** ** Base64 *)
(* ================================================================== *)

Module Base64.

(** [Buffer.prototype.toString("base64")] is the base64 encoding of
    RFC 4648 with padding; [decode] is the decoder of the same RFC.
    A byte is a [Byte.byte]; [Byte.to_bits] lists its bits from the
    least significant one, a sextet lists its bits from the most
    significant one. *)

Definition sextet : Type := (bool * bool * bool * bool * bool * bool)%type.

Definition alphabet : string :=
  "ABCDEFGHIJKLMNOPQRSTUVWXYZabcdefghijklmnopqrstuvwxyz0123456789+/".

Definition pad : ascii := "="%char.

Definition index (s : sextet) : nat :=
  let '(b5, b4, b3, b2, b1, b0) := s in
  let bit (b : bool) (w : nat) := if b then w else O in
  (bit b5 32 + bit b4 16 + bit b3 8 + bit b2 4 + bit b1 2 + bit b0 1)%nat.

Definition char_of_sextet (s : sextet) : ascii :=
  match String.get (index s) alphabet with
  | Some c => c
  | None => pad
  end.

Definition sextet_of_index (n : nat) : sextet :=
  let bit k := Nat.testbit n k in
  (bit 5%nat, bit 4%nat, bit 3%nat, bit 2%nat, bit 1%nat, bit 0%nat).

Definition index_of_char (c : ascii) : option nat :=
  let n := nat_of_ascii c in
  if ((65 <=? n) && (n <=? 90))%nat then Some (n - 65)%nat
  else if ((97 <=? n) && (n <=? 122))%nat then Some (n - 71)%nat
  else if ((48 <=? n) && (n <=? 57))%nat then Some (n + 4)%nat
  else if (n =? 43)%nat then Some 62%nat
  else if (n =? 47)%nat then Some 63%nat
  else None.

Definition sextet_of_char (c : ascii) : option sextet :=
  option_map sextet_of_index (index_of_char c).

(** The four sextets of three bytes. *)
Definition sextets3 (a b c : Byte.byte) : sextet * sextet * sextet * sextet :=
  let '(a0, (a1, (a2, (a3, (a4, (a5, (a6, a7))))))) := Byte.to_bits a in
  let '(b0, (b1, (b2, (b3, (b4, (b5, (b6, b7))))))) := Byte.to_bits b in
  let '(c0, (c1, (c2, (c3, (c4, (c5, (c6, c7))))))) := Byte.to_bits c in
  ((a7, a6, a5, a4, a3, a2), (a1, a0, b7, b6, b5, b4),
   (b3, b2, b1, b0, c7, c6), (c5, c4, c3, c2, c1, c0)).

(** The three bytes of four sextets. *)
Definition bytes3 (s1 s2 s3 s4 : sextet) : Byte.byte * Byte.byte * Byte.byte :=
  let '(a7, a6, a5, a4, a3, a2) := s1 in
  let '(a1, a0, b7, b6, b5, b4) := s2 in
  let '(b3, b2, b1, b0, c7, c6) := s3 in
  let '(c5, c4, c3, c2, c1, c0) := s4 in
  (Byte.of_bits (a0, (a1, (a2, (a3, (a4, (a5, (a6, a7))))))),
   Byte.of_bits (b0, (b1, (b2, (b3, (b4, (b5, (b6, b7))))))),
   Byte.of_bits (c0, (c1, (c2, (c3, (c4, (c5, (c6, c7)))))))).

Definition str4 (c1 c2 c3 c4 : ascii) (rest : string) : string :=
  String c1 (String c2 (String c3 (String c4 rest))).

Fixpoint encode (data : list Byte.byte) : string :=
  match data with
  | [] => ""
  | [a] =>
      let '(s1, s2, _, _) := sextets3 a Byte.x00 Byte.x00 in
      str4 (char_of_sextet s1) (char_of_sextet s2) pad pad ""
  | [a; b] =>
      let '(s1, s2, s3, _) := sextets3 a b Byte.x00 in
      str4 (char_of_sextet s1) (char_of_sextet s2) (char_of_sextet s3) pad ""
  | a :: b :: c :: rest =>
      let '(s1, s2, s3, s4) := sextets3 a b c in
      str4 (char_of_sextet s1) (char_of_sextet s2)
           (char_of_sextet s3) (char_of_sextet s4) (encode rest)
  end.

Definition zero6 : sextet := (false, false, false, false, false, false).

Fixpoint decode (s : string) : option (list Byte.byte) :=
  match s with
  | EmptyString => Some []
  | String c1 (String c2 (String c3 (String c4 rest))) =>
      match sextet_of_char c1, sextet_of_char c2 with
      | Some s1, Some s2 =>
          if Ascii.eqb c4 pad then
            match rest with
            | EmptyString =>
                if Ascii.eqb c3 pad
                then let '(a, _, _) := bytes3 s1 s2 zero6 zero6 in Some [a]
                else match sextet_of_char c3 with
                     | Some s3 =>
                         let '(a, b, _) := bytes3 s1 s2 s3 zero6 in Some [a; b]
                     | None => None
                     end
            | _ => None
            end
          else
            match sextet_of_char c3, sextet_of_char c4, decode rest with
            | Some s3, Some s4, Some tail =>
                let '(a, b, c) := bytes3 s1 s2 s3 s4 in Some (a :: b :: c :: tail)
            | _, _, _ => None
            end
      | _, _ => None
      end
  | _ => None
  end.

End Base64.

(* ================================================================== *)
(** ** The server *)
(* ================================================================== *)

Module Server.

Import Js.

(** [configSchema]. *)
Record Config : Type := {
  NAVER_CLIENT_ID : string;
  NAVER_CLIENT_SECRET : string;
  debug : bool
}.

(** What [fetch] is called with: the URL as [new URL(endpoint, baseUrl)]
    and the calls of [url.searchParams.append] build it, the method and
    the headers. *)
Record Request : Type := {
  base : string;
  endpoint : string;
  searchParams : list (string * string);
  method : string;
  headers : list (string * string)
}.

(** What [fetch] resolves to: the status line, what [response.json()]
    gives for the body (a value, or a [SyntaxError] when the body is not
    JSON) and what [response.arrayBuffer()] gives for it. *)
Record Response : Type := {
  status : Z;
  statusText : string;
  json : result value;
  arrayBuffer : list Byte.byte
}.

(** [response.ok]: the status is in the range 200-299. *)
Definition ok (r : Response) : bool :=
  (200 <=? status r) && (status r <=? 299).

(** The provider is outside the program.  It is a function from the
    requests made so far (with their outcomes) and the next request to
    the outcome of that request: a response, or the exception [fetch]
    rejects with when there is none. *)
Definition Exchange : Type := (Request * result Response)%type.
Definition Log : Type := list Exchange.
Definition Network : Type := Log -> Request -> result Response.

(** An asynchronous computation of the program: it extends the log of
    exchanges and returns or throws. *)
Definition M (A : Type) : Type := Log -> result A * Log.

Definition ret {A : Type} (a : A) : M A := fun log => (Ok a, log).

Definition throw {A : Type} (e : exn) : M A := fun log => (Throw e, log).

Definition bind {A B : Type} (c : M A) (k : A -> M B) : M B :=
  fun log =>
    match c log with
    | (Ok a, log') => k a log'
    | (Throw e, log') => (Throw e, log')
    end.

Definition lift {A : Type} (r : result A) : M A := fun log => (r, log).

(** [try { body } catch (err) { handler }]. *)
Definition try_catch {A : Type} (body : M A) (handler : exn -> M A) : M A :=
  fun log =>
    match body log with
    | (Ok a, log') => (Ok a, log')
    | (Throw e, log') => handler e log'
    end.

Notation "x <- c ;; k" := (bind c (fun x => k))
  (at level 61, c at next level, right associativity).

(** The result of a tool call: [{ content: [...] }]. *)
Inductive Content : Type :=
| Text (text : string)
| Image (image_url : string).

Definition CallToolResult : Type := list Content.

(** The [option] enum of [naver_directions] and the [format] enum of
    [naver_static_map]. *)
Inductive RouteOption : Type := trafast | tracomfort | traoptimal | trainormal.

Definition option_name (o : RouteOption) : string :=
  match o with
  | trafast => "trafast"
  | tracomfort => "tracomfort"
  | traoptimal => "traoptimal"
  | trainormal => "trainormal"
  end.

Inductive ImageFormat : Type := png | jpeg.

Definition format_name (f : ImageFormat) : string :=
  match f with png => "png" | jpeg => "jpeg" end.

Definition baseUrl : string := "https://maps.apigw.ntruss.com".

(** [Object.entries(params).forEach(...)]: every entry whose value is not
    [undefined] is appended, as a string. *)
Definition append_params (params : list (string * value)) : list (string * string) :=
  flat_map (fun '(key, v) =>
              match v with
              | VUndef => []
              | _ => [(key, ToString v)]
              end) params.

(** The type of what the gateway returns, by its [expectBinary] flag. *)
Definition payload (expectBinary : bool) : Type :=
  if expectBinary then list Byte.byte else value.

(** [function isCoordinate(str)]. *)
Definition isCoordinate (str : string) : bool :=
  let parts := map (fun s => VNum (Num.parseFloat (Str.trim s)))
                   (Str.split Str.comma str) in
  let lng := nth 0 parts VUndef in
  let lat := nth 1 parts VUndef in
  negb (isNaN lng)
  && negb (isNaN lat)
  && ge lng (Num.of_Z (-180))
  && le lng (Num.of_Z 180)
  && ge lat (Num.of_Z (-90))
  && le lat (Num.of_Z 90).

(** [isCoordinate] as the earlier revisions of [src/index.ts] have it:
    exactly two parts, both read as a number by [parseFloat], no range. *)
Definition isCoordinate_unhardened (str : string) : bool :=
  let parts := Str.split Str.comma str in
  (List.length parts =? 2)%nat
  && negb (Num.isNaN (Num.parseFloat (nth 0 parts "")))
  && negb (Num.isNaN (Num.parseFloat (nth 1 parts ""))).

(** [const x = e; ...] where evaluating [e] may throw. *)
Notation "'let?' x ':=' r 'in' k" :=
  (match r with Ok x => k | Throw e => Throw e end)
  (at level 10, x name, r at level 100, k at level 200).

(** *** The parts of the handlers that make no request *)

(** [const { x, y } = geo.addresses[0]; `${x},${y}`]. *)
Definition first_xy (addresses : value) : result string :=
  let? first := get0 addresses in
  let? x := destructure "geo.addresses[0]" first "x" in
  let? y := destructure "geo.addresses[0]" first "y" in
  Ok (ToString x ++ "," ++ ToString y).

(** [if (geo.addresses?.length) { const { x, y } = geo.addresses[0];
    startCoords = `${x},${y}`; }], as the new value of [startCoords],
    which was [input] ([naver_directions], for [start] and for [goal]). *)
Definition resolved (input : string) (geo : value) : result string :=
  let? addresses := get geo "addresses" in
  if truthy (opt_get addresses "length")
  then first_xy addresses
  else Ok input.

(** [if (!geo.addresses?.length) { throw new Error(...); }
    const { x, y } = geo.addresses[0]; centerCoords = `${x},${y}`]
    ([naver_static_map]). *)
Definition resolved_or_fail (geo : value) : result string :=
  let? addresses := get geo "addresses" in
  if negb (truthy (opt_get addresses "length"))
  then Throw (Error "지오코딩 결과가 없습니다.")
  else first_xy addresses.

(** [route.<profile>?.[0]]. *)
Definition route_head (route : value) (profile : string) : result value :=
  let? list := get route profile in
  Ok (opt_get0 list).

(** [a || b] where reading [a] or [b] may throw; [b] is read only when
    [a] is falsy. *)
Definition or_else (a b : result value) : result value :=
  let? v := a in
  if truthy v then Ok v else b.

(** [route.trafast?.[0] || route.traoptimal?.[0] ||
    route.tracomfort?.[0] || route.trainormal?.[0]]. *)
Definition best_route (route : value) : result value :=
  or_else (or_else (or_else (route_head route "trafast")
                            (route_head route "traoptimal"))
                   (route_head route "tracomfort"))
          (route_head route "trainormal").

(** [summary.<field> ? `${summary.<field>.toLocaleString()}원` : "0원"]. *)
Definition fare (summary : value) (field : string) : result string :=
  let? amount := get summary field in
  if truthy amount
  then let? s := toLocaleString amount in Ok (s ++ "원")
  else Ok "0원".

(** [`${(summary.distance / 1000).toFixed(1)}km`]. *)
Definition kilometres (distance : value) : string :=
  Num.toFixed 1 (Num.div (ToNumber distance) (Num.of_Z 1000)) ++ "km".

(** [`${Math.round(summary.duration / 60000)}분`]. *)
Definition minutes (duration : value) : string :=
  Num.toString (Num.Math_round (Num.div (ToNumber duration) (Num.of_Z 60000)))
  ++ "분".

(** The text of a found route, from the six fields of [result]. *)
Definition route_template (start goal distance duration tollFare fuelPrice : string)
  : string :=
  "🚗 길찾기 결과" ++ Str.nl ++ Str.nl
  ++ "📍 출발: " ++ start ++ Str.nl
  ++ "📍 도착: " ++ goal ++ Str.nl ++ Str.nl
  ++ "📏 거리: " ++ distance ++ Str.nl
  ++ "⏱️ 소요시간: " ++ duration ++ Str.nl
  ++ "💰 통행료: " ++ tollFare ++ Str.nl
  ++ "⛽ 예상 연료비: " ++ fuelPrice.

(** [const { summary } = best; const result = { distance: ..., ...,
    goal: summary.goal.location }] and the text built from [result]. *)
Definition route_text (best : value) : result string :=
  let? summary := destructure "best" best "summary" in
  let? summary_distance := get summary "distance" in
  let distance := kilometres summary_distance in
  let? summary_duration := get summary "duration" in
  let duration := minutes summary_duration in
  let? tollFare := fare summary "tollFare" in
  let? fuelPrice := fare summary "fuelPrice" in
  let? summary_start := get summary "start" in
  let? start := get summary_start "location" in
  let? summary_goal := get summary "goal" in
  let? goal := get summary_goal "location" in
  Ok (route_template (ToString start) (ToString goal)
                     distance duration tollFare fuelPrice).

Definition route_not_found : string := "경로를 찾을 수 없습니다.".
Definition address_not_found : string := "주소를 찾을 수 없습니다.".
Definition coordinate_not_found : string := "해당 좌표의 주소를 찾을 수 없습니다.".

(** [naver_directions] after the directions call returned [data]. *)
Definition directions_result (data : value) : result CallToolResult :=
  let? data_route := get data "route" in
  let route := or data_route (VObj []) in
  let? best := best_route route in
  if negb (truthy best)
  then Ok [Text route_not_found]
  else let? text := route_text best in Ok [Text text].

(** [naver_geocode] after the geocode call returned [data]. *)
Definition geocode_result (data : value) : result CallToolResult :=
  let? addresses := get data "addresses" in
  if negb (truthy (opt_get addresses "length"))
  then Ok [Text address_not_found]
  else
    let? first := get0 addresses in
    let? y := destructure "data.addresses[0]" first "y" in
    let? x := destructure "data.addresses[0]" first "x" in
    let? roadAddress := destructure "data.addresses[0]" first "roadAddress" in
    let? jibunAddress := destructure "data.addresses[0]" first "jibunAddress" in
    Ok [Text ("📍 주소: " ++ ToString (or roadAddress jibunAddress) ++ Str.nl
              ++ "🌐 좌표: " ++ ToString y ++ ", " ++ ToString x
              ++ " (위도, 경도)")].

(** [naver_reverse_geocode] after the call returned [data]. *)
Definition reverse_result (lat lng : Num.number) (data : value)
  : result CallToolResult :=
  let? results := get data "results" in
  if negb (truthy (opt_get results "length"))
  then Ok [Text coordinate_not_found]
  else
    let? first := get0 results in
    let? text := destructure "data.results[0]" first "text" in
    Ok [Text ("🌐 좌표: " ++ Num.toString lat ++ ", " ++ Num.toString lng
              ++ Str.nl ++ "📍 주소: " ++ ToString text)].

(** [naver_static_map] after the raster call returned [buffer]. *)
Definition static_result (centerCoords : string) (level w h : Num.number)
    (format : ImageFormat) (buffer : list Byte.byte) : CallToolResult :=
  let base64 := Base64.encode buffer in
  let dataUri := "data:image/" ++ format_name format ++ ";base64," ++ base64 in
  [Image dataUri;
   Text ("🗺️ 정적 지도 (center: " ++ centerCoords
         ++ ", level: " ++ Num.toString level
         ++ ", size: " ++ Num.toString w ++ "x" ++ Num.toString h ++ ")")].

Definition geocode_endpoint : string := "/map-geocode/v2/geocode".
Definition directions_endpoint : string := "/map-direction/v1/driving".
Definition reverse_endpoint : string := "/map-reversegeocode/v2/gc".
Definition static_endpoint : string := "/map-static/v2/raster".

(** [const params = { start: startCoords, goal: goalCoords, option };
    if (waypoints) params.waypoints = waypoints]. *)
Definition directions_params (startCoords goalCoords : string)
    (option : RouteOption) (waypoints : Datatypes.option string)
  : list (string * value) :=
  ([("start", VStr startCoords);
    ("goal", VStr goalCoords);
    ("option", VStr (option_name option))]
   ++ match waypoints with
      | Some w => if truthy (VStr w) then [("waypoints", VStr w)] else []
      | None => []
      end)%list.

(** *** The gateway and the four tools *)

Section Handlers.

Variable config : Config.
Variable net : Network.

(** The request [makeNaverAPIRequest] builds. *)
Definition request (endpoint : string) (params : list (string * value)) : Request :=
  {| base := baseUrl;
     endpoint := endpoint;
     searchParams := append_params params;
     method := "GET";
     headers := [("X-NCP-APIGW-API-KEY-ID", NAVER_CLIENT_ID config);
                 ("X-NCP-APIGW-API-KEY", NAVER_CLIENT_SECRET config)] |}.

(** [await fetch(url, init)]. *)
Definition fetch (req : Request) : M Response :=
  fun log => let r := net log req in (r, (log ++ [(req, r)])%list).

(** [async function makeNaverAPIRequest(endpoint, params, expectBinary)]. *)
Definition makeNaverAPIRequest (endpoint : string)
    (params : list (string * value)) (expectBinary : bool)
  : M (payload expectBinary) :=
  response <- fetch (request endpoint params) ;;
  if negb (ok response)
  then throw (Error ("네이버 API 오류: " ++ Str.of_Z (status response)
                     ++ " " ++ statusText response))
  else
    match expectBinary return M (payload expectBinary) with
    | true => ret (arrayBuffer response)
    | false => lift (json response)
    end.

(** The block [naver_directions] runs for [start] and then again for
    [goal]: [if (!isCoordinate(input)) { const geo = await
    makeNaverAPIRequest(...); if (geo.addresses?.length) { ... } }]. *)
Definition geocode_if_not_coordinate (input : string) : M string :=
  if negb (isCoordinate input) then
    geo <- makeNaverAPIRequest geocode_endpoint [("query", VStr input)] false ;;
    lift (resolved input geo)
  else ret input.

(** The [catch (err)] block every handler ends with. *)
Definition report (err : exn) : M CallToolResult :=
  ret [Text ("오류 발생: " ++ message err)].

(** The tool [naver_directions]. *)
Definition naver_directions (start goal : string) (option : RouteOption)
    (waypoints : Datatypes.option string) : M CallToolResult :=
  try_catch
    (startCoords <- geocode_if_not_coordinate start ;;
     goalCoords <- geocode_if_not_coordinate goal ;;
     data <- makeNaverAPIRequest directions_endpoint
               (directions_params startCoords goalCoords option waypoints)
               false ;;
     lift (directions_result data))
    report.

(** The tool [naver_geocode]. *)
Definition naver_geocode (address : string) : M CallToolResult :=
  try_catch
    (data <- makeNaverAPIRequest geocode_endpoint
               [("query", VStr address)] false ;;
     lift (geocode_result data))
    report.

(** The tool [naver_reverse_geocode]. *)
Definition naver_reverse_geocode (lat lng : Num.number) : M CallToolResult :=
  try_catch
    (data <- makeNaverAPIRequest reverse_endpoint
               [("coords", VStr (Num.toString lng ++ "," ++ Num.toString lat));
                ("output", VStr "json")] false ;;
     lift (reverse_result lat lng data))
    report.

(** The tool [naver_static_map]. *)
Definition naver_static_map (center : string) (level w h : Num.number)
    (format : ImageFormat) : M CallToolResult :=
  try_catch
    (centerCoords <-
       (if negb (isCoordinate center) then
          geo <- makeNaverAPIRequest geocode_endpoint
                   [("query", VStr center)] false ;;
          lift (resolved_or_fail geo)
        else ret center) ;;
     buffer <- makeNaverAPIRequest static_endpoint
                 [("center", VStr centerCoords);
                  ("level", VNum level);
                  ("w", VNum w);
                  ("h", VNum h);
                  ("format", VStr (format_name format))] true ;;
     ret (static_result centerCoords level w h format buffer))
    report.

(** A call of one of the four registered tools. *)
Inductive ToolCall : Type :=
| Directions (start goal : string) (option : RouteOption)
             (waypoints : Datatypes.option string)
| Geocode (address : string)
| ReverseGeocode (lat lng : Num.number)
| StaticMap (center : string) (level w h : Num.number) (format : ImageFormat).

Definition call (c : ToolCall) : M CallToolResult :=
  match c with
  | Directions start goal option waypoints =>
      naver_directions start goal option waypoints
  | Geocode address => naver_geocode address
  | ReverseGeocode lat lng => naver_reverse_geocode lat lng
  | StaticMap center level w h format =>
      naver_static_map center level w h format
  end.

End Handlers.

(** Running a handler from the empty log. *)
Definition run {A : Type} (c : M A) : result A * Log := c [].

End Server.

(* ================================================================== *)
(** ** The vocabulary of the statements *)
(* ================================================================== *)

Module Spec.

Import Js Server.

(** [r] followed by [f], when [r] returned. *)
Definition and_then {A B : Type} (r : result A) (f : A -> result B) : result B :=
  match r with
  | Ok a => f a
  | Throw e => Throw e
  end.

(** The message of the exception the gateway throws for a response whose
    status is not a success. *)
Definition api_error (response : Response) : string :=
  "네이버 API 오류: " ++ Str.of_Z (status response) ++ " " ++ statusText response.

(** What the gateway returns or throws for an outcome of [fetch]. *)
Definition settle (expectBinary : bool) (outcome : result Response)
  : result (payload expectBinary) :=
  match outcome with
  | Throw e => Throw e
  | Ok response =>
      if negb (ok response) then Throw (Error (api_error response))
      else match expectBinary return result (payload expectBinary) with
           | true => Ok (arrayBuffer response)
           | false => json response
           end
  end.

(** The text a handler returns for an exception, and the result of a
    handler whose body returned or threw [r]. *)
Definition error_text (e : exn) : string := "오류 발생: " ++ message e.

Definition reported (r : result CallToolResult) : CallToolResult :=
  match r with
  | Ok content => content
  | Throw e => [Text (error_text e)]
  end.

(** The provider answered with a success status and the JSON [data]. *)
Definition answered (outcome : result Response) (data : value) : Prop :=
  exists response,
    outcome = Ok response /\ ok response = true /\ json response = Ok data.

(** The provider answered with a success status and the bytes [buffer]. *)
Definition answered_bytes (outcome : result Response) (buffer : list Byte.byte) : Prop :=
  exists response,
    outcome = Ok response /\ ok response = true /\ arrayBuffer response = buffer.

Definition is_object (v : value) : Prop := exists fields, v = VObj fields.

(** The items of a list-valued field [k] of a response: none when the
    field is missing or [null]. *)
Definition items (data : value) (k : string) : list value :=
  match data with
  | VObj fields =>
      match assoc k fields with
      | Some (VArr l) => l
      | _ => []
      end
  | _ => []
  end.

(** A response object whose field [k] is missing, [null], or a list of
    objects. *)
Definition list_field (data : value) (k : string) : Prop :=
  exists fields,
    data = VObj fields
    /\ (assoc k fields = None \/ assoc k fields = Some VNull
        \/ exists l, assoc k fields = Some (VArr l) /\ Forall is_object l).

(** A field of an object, [undefined] when missing. *)
Definition field (v : value) (k : string) : value := opt_get v k.

(** The values of which the program can make a string or a number.  A
    template literal, [String(v)] and the arithmetic operators first
    turn an array or an object into a primitive by the method it
    inherits: the join of its elements for an array, "[object Object]"
    for an object.  An object of JSON data whose own property [toString]
    hides the inherited method has nothing there to call, and the
    conversion of it, or of an array it is an element of, throws a
    TypeError.  On every other value the conversions are [Js.ToString]
    and [Js.ToNumber]. *)
Fixpoint printable (v : value) : bool :=
  match v with
  | VArr items => forallb printable items
  | VObj fields =>
      match assoc "toString" fields with
      | Some _ => false
      | None => true
      end
  | _ => true
  end.

(** ["<lon>,<lat>"] of a geocoding candidate. *)
Definition lon_lat (candidate : value) : string :=
  ToString (field candidate "x") ++ "," ++ ToString (field candidate "y").

(** The value the spec gives to a geocoded input: ["<lon>,<lat>"] of the
    first candidate, the input itself when there is no candidate. *)
Definition geocoded (input : string) (data : value) : string :=
  match items data "addresses" with
  | candidate :: _ => lon_lat candidate
  | [] => input
  end.

(** The response of the geocoding endpoint is well formed: its
    [addresses] are missing, [null] or a list of objects, and the
    coordinates [x] and [y] of the first candidate can be printed. *)
Definition geocoding_response (data : value) : Prop :=
  list_field data "addresses"
  /\ match items data "addresses" with
     | candidate :: _ =>
         printable (field candidate "x") = true
         /\ printable (field candidate "y") = true
     | [] => True
     end.

(** The priority of the four routing profiles, and the spec's selection:
    the first route of the first profile whose list is not empty. *)
Definition profile_priority : list string :=
  ["trafast"; "traoptimal"; "tracomfort"; "trainormal"].

Fixpoint first_of_first_nonempty (lists : list (list value)) : Datatypes.option value :=
  match lists with
  | [] => None
  | [] :: rest => first_of_first_nonempty rest
  | (r :: _) :: _ => Some r
  end.

Definition selected_route (route : value) : Datatypes.option value :=
  first_of_first_nonempty (map (items route) profile_priority).

(** The response of the directions endpoint is well formed: an object
    whose [route] is missing, [null], or an object with four list
    fields. *)
Definition directions_response (data : value) : Prop :=
  is_object data
  /\ (nullish (field data "route") = true
      \/ Forall (list_field (field data "route")) profile_priority).

(** *** The classifier *)

(** The range check on the two numbers: neither is [NaN], the first is
    a longitude and the second a latitude. *)
Definition in_range (lng lat : Num.number) : bool :=
  negb (Num.isNaN lng)
  && negb (Num.isNaN lat)
  && Num.leb (Num.of_Z (-180)) lng
  && Num.leb lng (Num.of_Z 180)
  && Num.leb (Num.of_Z (-90)) lat
  && Num.leb lat (Num.of_Z 90).

(** The classifier as the spec words it: exactly two comma-separated
    parts, both read as numbers after trimming, within the ranges. *)
Definition classifier (str : string) : bool :=
  match Str.split Str.comma str with
  | [a; b] => in_range (Num.parseFloat (Str.trim a)) (Num.parseFloat (Str.trim b))
  | _ => false
  end.

(** *** The fields of a found route *)

(** [text] is [digits] with thousands separators: cut at its commas it
    is a first group of one to three characters and then groups of
    exactly three, and the groups together are [digits]. *)
Definition thousands_separated (digits text : string) : Prop :=
  exists first rest,
    Str.split Str.comma text = first :: rest
    /\ Str.join "" (first :: rest) = digits
    /\ (1 <= String.length first <= 3)%nat
    /\ Forall (fun group => String.length group = 3%nat) rest.

(** An amount the provider may leave out: [None] when it is missing,
    [Some n] when it is the Number of the whole amount [n], below 2^53
    as the whole numbers that a Number holds without rounding. *)
Definition fare_amount (v : value) (amount : Datatypes.option Z) : Prop :=
  match amount with
  | Some n => v = VNum (Num.of_Z n) /\ 0 <= n < 2 ^ 53
  | None => v = VUndef
  end.

(** [text] is the amount with thousands separators and the currency
    suffix, the formatted zero when the amount is missing. *)
Definition amount_text (amount : Datatypes.option Z) (text : string) : Prop :=
  match amount with
  | Some n =>
      exists grouped,
        text = grouped ++ "원" /\ thousands_separated (Str.of_Z n) grouped
  | None => text = "0원"
  end.

(** A route whose summary has the fields the handler reads: a distance
    [metres] and a duration [milliseconds], the two amounts, and the
    resolved start and goal, whose [location] labels can be printed. *)
Definition route_summary (best summary : value)
    (metres milliseconds : Num.number) (toll fuel : Datatypes.option Z) : Prop :=
  is_object best
  /\ field best "summary" = summary
  /\ is_object summary
  /\ field summary "distance" = VNum metres
  /\ field summary "duration" = VNum milliseconds
  /\ fare_amount (field summary "tollFare") toll
  /\ fare_amount (field summary "fuelPrice") fuel
  /\ is_object (field summary "start")
  /\ is_object (field summary "goal")
  /\ printable (field (field summary "start") "location") = true
  /\ printable (field (field summary "goal") "location") = true.

(** *** Empty results *)

(** The provider's answer [data] to the request [req] of a tool call has
    no candidate (geocoding) or no route (directions); [text] is the
    message of that case. *)
Inductive empty_result : ToolCall -> Request -> value -> string -> Prop :=
| no_candidate address req data :
    list_field data "addresses" ->
    items data "addresses" = [] ->
    empty_result (Geocode address) req data address_not_found
| no_route start goal option waypoints req data :
    endpoint req = directions_endpoint ->
    directions_response data ->
    selected_route (field data "route") = None ->
    empty_result (Directions start goal option waypoints) req data route_not_found.

(** The answer [data] to the request [req] has no candidate (at the
    geocoding endpoint) or no route (at the directions endpoint). *)
Definition empty_answer (req : Request) (data : value) : Prop :=
  (endpoint req = geocode_endpoint
   /\ list_field data "addresses" /\ items data "addresses" = [])
  \/ (endpoint req = directions_endpoint
      /\ directions_response data
      /\ selected_route (field data "route") = None).

(** The spec's sentence on empty results, read of every provider call
    of a tool call: whenever a call of the run was answered without a
    candidate or without a route, the result is a text that is not an
    error message. *)
Definition not_found_whenever_empty (config : Config) (net : Network)
    (c : ToolCall) : Prop :=
  forall res log req outcome data,
    run (call config net c) = (res, log) ->
    In (req, outcome) log ->
    answered outcome data ->
    empty_answer req data ->
    exists text,
      res = Ok [Text text] /\ forall e, text <> error_text e.

(** *** Requests and runs *)

Section Requests.

Variable config : Config.
Variable net : Network.

(** The requests of the four endpoints, as the handlers build them. *)
Definition geocode_request (query : string) : Request :=
  request config geocode_endpoint [("query", VStr query)].

Definition directions_request (startCoords goalCoords : string)
    (option : RouteOption) (waypoints : Datatypes.option string) : Request :=
  request config directions_endpoint
          (directions_params startCoords goalCoords option waypoints).

Definition reverse_request (lat lng : Num.number) : Request :=
  request config reverse_endpoint
          [("coords", VStr (Num.toString lng ++ "," ++ Num.toString lat));
           ("output", VStr "json")].

Definition static_request (centerCoords : string) (level w h : Num.number)
    (format : ImageFormat) : Request :=
  request config static_endpoint
          [("center", VStr centerCoords); ("level", VNum level);
           ("w", VNum w); ("h", VNum h);
           ("format", VStr (format_name format))].

(** The run of a handler, once its body is read as a sequence of calls:
    a last call whose payload [finish] turns into the result ... *)
Definition last_call (expectBinary : bool) (req : Request)
    (finish : payload expectBinary -> result CallToolResult)
  : M CallToolResult :=
  fun log =>
    let outcome := net log req in
    (Ok (reported (and_then (settle expectBinary outcome) finish)),
     (log ++ [(req, outcome)])%list).

(** ... possibly after a geocoding call for an input that is not a
    coordinate, whose payload [resolve] turns into the value passed on. *)
Definition after_geocode (input : string) (resolve : value -> result string)
    (next : string -> M CallToolResult) : M CallToolResult :=
  fun log =>
    if isCoordinate input then next input log
    else
      let outcome := net log (geocode_request input) in
      let log' := (log ++ [(geocode_request input, outcome)])%list in
      match and_then (settle false outcome) resolve with
      | Ok coords => next coords log'
      | Throw e => (Ok [Text (error_text e)], log')
      end.

(** The geocoding exchange a handler makes for [input] after [log]:
    none when [input] is a coordinate. *)
Definition geocode_calls (input : string) (log : Log) : Log :=
  if isCoordinate input then []
  else [(geocode_request input, net log (geocode_request input))].

(** The last step of [naver_static_map]: the raster call for the
    resolved [centerCoords] and the image made of its bytes. *)
Definition fetch_map (centerCoords : string) (level w h : Num.number)
    (format : ImageFormat) : M CallToolResult :=
  last_call true (static_request centerCoords level w h format)
            (fun buffer => Ok (static_result centerCoords level w h format buffer)).

(** A run reports transport errors: the exchanges it adds to the log are
    made through the gateway, and when one of them is answered with a
    status that is not a success, it is the last one and the result is
    the report of the gateway's exception. *)
Definition reports_transport_errors (run : M CallToolResult) : Prop :=
  forall log res log',
    run log = (res, log') ->
    exists new,
      log' = (log ++ new)%list
      /\ forall before req response after,
           new = (before ++ (req, Ok response) :: after)%list ->
           ok response = false ->
           after = []
           /\ net (log ++ before)%list req = Ok response
           /\ (exists endpoint params, req = request config endpoint params)
           /\ res = Ok [Text (error_text (Error (api_error response)))].

End Requests.

End Spec.

(* ================================================================== *)
(** ** Sample providers *)
(* ================================================================== *)

Module Examples.

Import Js Server.

Definition config : Config :=
  {| NAVER_CLIENT_ID := "client-id";
     NAVER_CLIENT_SECRET := "client-secret";
     debug := false |}.

(** The Number a JSON numeric literal denotes. *)
Definition number (literal : string) : value := VNum (Num.parseFloat literal).

(** A provider that answers every request with the same status line, and
    with a body chosen by the endpoint. *)
Definition provider (status : Z) (statusText : string)
    (geocode directions reverse : value) (raster : list Byte.byte) : Network :=
  fun _ req =>
    let body :=
      if String.eqb (endpoint req) geocode_endpoint then geocode
      else if String.eqb (endpoint req) directions_endpoint then directions
      else reverse in
    Ok {| status := status; statusText := statusText;
          json := Ok body; arrayBuffer := raster |}.

Definition candidate : value :=
  VObj [("roadAddress", VStr "Teheran-ro");
        ("x", number "127.0"); ("y", number "37.5")].

Definition one_candidate : value := VObj [("addresses", VArr [candidate])].
Definition no_candidates : value := VObj [("addresses", VArr [])].

Definition place (lng lat : string) : value :=
  VObj [("location", VArr [number lng; number lat])].

(** A route of 12345 m and 1234567 ms, with a toll fare of 1200. *)
Definition summary_fields : list (string * value) :=
  [("start", place "127.0" "37.5");
   ("goal", place "129.0" "35.1");
   ("distance", number "12345");
   ("duration", number "1234567");
   ("tollFare", number "1200")].

Definition summary_base : list (string * value) :=
  [("start", place "127.0" "37.5");
   ("goal", place "129.0" "35.1");
   ("distance", number "12345");
   ("duration", number "1234567")].

Definition route_with (summary : list (string * value)) : value :=
  VObj [("summary", VObj summary)].

(** A directions response in which only [tracomfort] has a route. *)
Definition comfort_only (summary : list (string * value)) : value :=
  VObj [("code", number "0");
        ("route", VObj [("trafast", VArr []);
                        ("tracomfort", VArr [route_with summary])])].

Definition no_routes : value :=
  VObj [("code", number "1"); ("route", VObj [("trafast", VArr [])])].

Definition one_result : value :=
  VObj [("results", VArr [VObj [("text", VStr "Bundang-gu")]])].

Definition image : list Byte.byte :=
  [Byte.x89; Byte.x50; Byte.x4e; Byte.x47; Byte.x0d].

(** A provider that answers 200 OK. *)
Definition healthy (geocode directions : value) : Network :=
  provider 200 "OK" geocode directions one_result image.

(** A provider that knows no address and no route. *)
Definition silent : Network := healthy no_candidates no_routes.

(** A provider that refuses every request. *)
Definition forbidden : Network :=
  provider 403 "Forbidden" VNull VNull VNull [].

Definition six : Num.number := Num.of_Z 6.
Definition four_hundred : Num.number := Num.of_Z 400.

End Examples.

(** Closes the goals that say a sample response has the expected shape. *)
Ltac shape :=
  repeat first
    [ reflexivity
    | split
    | eexists
    | apply Forall_nil
    | apply Forall_cons
    | (left; reflexivity)
    | (right; left; reflexivity)
    | (right; right; eexists; split; [reflexivity|]) ].

(* ================================================================== *)
(** ** Query strings *)
(* ================================================================== *)

Module Url.

(** [url.searchParams.append] and [url.toString()] write the query of a
    URL with the application/x-www-form-urlencoded serializer of the URL
    standard: the bytes of the UTF-8 encoding that are ASCII letters or
    digits or one of [* - . _] stand for themselves, a space is written
    [+], any other byte [%XX] with two upper-case hexadecimal digits;
    a name and its value are joined by [=], the pairs by [&]. *)

Definition unreserved (c : ascii) : bool :=
  let n := nat_of_ascii c in
  (((48 <=? n) && (n <=? 57)) || ((65 <=? n) && (n <=? 90))
   || ((97 <=? n) && (n <=? 122))
   || (n =? 42) || (n =? 45) || (n =? 46) || (n =? 95))%nat.

Definition hex_digit (n : nat) : ascii :=
  match String.get n "0123456789ABCDEF" with
  | Some c => c
  | None => "0"%char
  end.

Definition percent (c : ascii) (rest : string) : string :=
  let n := nat_of_ascii c in
  String "%" (String (hex_digit (n / 16)) (String (hex_digit (n mod 16)) rest)).

Fixpoint encode (s : string) : string :=
  match s with
  | EmptyString => EmptyString
  | String c rest =>
      if unreserved c then String c (encode rest)
      else if Ascii.eqb c " " then String "+" (encode rest)
      else percent c (encode rest)
  end.

Definition serialize (params : list (string * string)) : string :=
  Str.join "&" (map (fun '(name, v) => encode name ++ "=" ++ encode v) params).

(** The parser of the same standard, which [new URLSearchParams(query)]
    runs on the receiving side: the pieces between [&] that are not
    empty, each cut at its first [=], with [+] read as a space and [%XX]
    as the byte it names. *)

Definition hex_val (c : ascii) : option nat :=
  let n := nat_of_ascii c in
  if ((48 <=? n) && (n <=? 57))%nat then Some (n - 48)%nat
  else if ((65 <=? n) && (n <=? 70))%nat then Some (n - 55)%nat
  else if ((97 <=? n) && (n <=? 102))%nat then Some (n - 87)%nat
  else None.

Fixpoint decode (s : string) : string :=
  match s with
  | EmptyString => EmptyString
  | String c rest =>
      if Ascii.eqb c "+" then String " " (decode rest)
      else if Ascii.eqb c "%" then
        match rest with
        | String h (String l rest') =>
            match hex_val h, hex_val l with
            | Some a, Some b => String (ascii_of_nat (16 * a + b)) (decode rest')
            | _, _ => String c (decode rest)
            end
        | _ => String c (decode rest)
        end
      else String c (decode rest)
  end.

(** [cut sep s]: [s] before and after its first [sep]; the second half
    is empty when there is none. *)
Fixpoint cut (sep : ascii) (s : string) : string * string :=
  match s with
  | EmptyString => (EmptyString, EmptyString)
  | String c rest =>
      if Ascii.eqb c sep then (EmptyString, rest)
      else let '(a, b) := cut sep rest in (String c a, b)
  end.

Definition parse (query : string) : list (string * string) :=
  flat_map (fun piece =>
              match piece with
              | EmptyString => []
              | _ => let '(name, v) := cut "=" piece in [(decode name, decode v)]
              end)
           (Str.split "&" query).

End Url.

(* ================================================================== *)
(** ** The earlier revisions of the server *)
(* ================================================================== *)

Module Legacy.

Import Js Server.

(** The revisions of [src/index.ts] before the gateway took an
    [expectBinary] flag.  Their classifier is
    [Server.isCoordinate_unhardened]; their gateway names the host of the
    page in its error message; they test a list with [&&] and a
    comparison where the latest revision uses optional chaining; and
    they have three other versions of the static-map tool. *)

(** [v > 0] and [v === 0]. *)
Definition gt_zero (v : value) : bool := SFltb (S754_zero false) (ToNumber v).

Definition is_zero (v : value) : bool :=
  match v with
  | VNum (S754_zero _) => true
  | _ => false
  end.

(** [list && list.length > 0]. *)
Definition has_items (list : value) : result bool :=
  if truthy list
  then let? n := get list "length" in Ok (gt_zero n)
  else Ok false.

(** [!list || list.length === 0]. *)
Definition no_items (list : value) : result bool :=
  if negb (truthy list) then Ok true
  else let? n := get list "length" in Ok (is_zero n).

(** [const addr = geocodeResult.addresses[0]; `${addr.x},${addr.y}`]. *)
Definition first_xy (addresses : value) : result string :=
  let? addr := get0 addresses in
  let? x := get addr "x" in
  let? y := get addr "y" in
  Ok (ToString x ++ "," ++ ToString y).

(** [if (geocodeResult.addresses && geocodeResult.addresses.length > 0)
    { const addr = geocodeResult.addresses[0];
      startCoords = `${addr.x},${addr.y}`; }], as the new value of
    [startCoords], which was [input]. *)
Definition resolved (input : string) (geocodeResult : value) : result string :=
  let? addresses := get geocodeResult "addresses" in
  let? found := has_items addresses in
  if found then first_xy addresses else Ok input.

(** [const summary = bestRoute.summary; const result = {...}] and the
    text built from [result]. *)
Definition route_text (bestRoute : value) : result string :=
  let? summary := get bestRoute "summary" in
  let? summary_distance := get summary "distance" in
  let distance := kilometres summary_distance in
  let? summary_duration := get summary "duration" in
  let duration := minutes summary_duration in
  let? tollFare := fare summary "tollFare" in
  let? fuelPrice := fare summary "fuelPrice" in
  let? summary_start := get summary "start" in
  let? start := get summary_start "location" in
  let? summary_goal := get summary "goal" in
  let? goal := get summary_goal "location" in
  Ok (route_template (ToString start) (ToString goal)
                     distance duration tollFare fuelPrice).

(** [naver_directions] after the directions call returned [data]. *)
Definition directions_result (data : value) : result CallToolResult :=
  let? data_route := get data "route" in
  let route := or data_route (VObj []) in
  let? bestRoute := best_route route in
  if negb (truthy bestRoute)
  then Ok [Text route_not_found]
  else let? text := route_text bestRoute in Ok [Text text].

(** [naver_geocode] after the geocode call returned [data]. *)
Definition geocode_result (data : value) : result CallToolResult :=
  let? addresses := get data "addresses" in
  let? none := no_items addresses in
  if none then Ok [Text address_not_found]
  else
    let? addr := get0 addresses in
    let? roadAddress := get addr "roadAddress" in
    let? shown := (if truthy roadAddress then Ok roadAddress
                   else get addr "jibunAddress") in
    let? y := get addr "y" in
    let? x := get addr "x" in
    Ok [Text ("📍 주소: " ++ ToString shown ++ Str.nl
              ++ "🌐 좌표: " ++ ToString y ++ ", " ++ ToString x
              ++ " (위도, 경도)")].

(** [naver_reverse_geocode] after the call returned [data]. *)
Definition reverse_result (lat lng : Num.number) (data : value)
  : result CallToolResult :=
  let? results := get data "results" in
  let? none := no_items results in
  if none then Ok [Text coordinate_not_found]
  else
    let? first := get0 results in
    let? text := get first "text" in
    Ok [Text ("🌐 좌표: " ++ Num.toString lat ++ ", " ++ Num.toString lng
              ++ Str.nl ++ "📍 주소: " ++ ToString text)].

(** The five query parameters of the raster endpoint, as the calls of
    [url.searchParams.append] list them; the format is always [png]. *)
Definition raster_params (centerCoords : string) (level w h : Num.number)
  : list (string * string) :=
  [("center", centerCoords);
   ("level", Num.toString level);
   ("w", Num.toString w);
   ("h", Num.toString h);
   ("format", "png")].

(** [url.toString()] of [new URL("/map-static/v2/raster", baseUrl)]
    after these calls: the origin, the path (none of its characters is
    escaped in a path) and the serialized query. *)
Definition raster_url (centerCoords : string) (level w h : Num.number) : string :=
  baseUrl ++ static_endpoint ++ "?"
  ++ Url.serialize (raster_params centerCoords level w h).

(** The result of the static-map tool that returns the image as base64:
    [{ type: "text", text }] and [{ type: "image", data, mimeType }]. *)
Inductive ImageContent : Type :=
| Caption (text : string)
| Picture (data mimeType : string).

Section Handlers.

Variable config : Config.
Variable net : Network.

(** What evaluating [window.location.hostname] gives where the server
    runs: the name of the host of the page, or the exception the
    evaluation throws when there is no [window] or no [location]. *)
Variable hostname : result string.

(** The request [makeNaverAPIRequest] builds. *)
Definition request (endpoint : string) (params : list (string * value)) : Request :=
  {| base := baseUrl;
     endpoint := endpoint;
     searchParams := append_params params;
     method := "GET";
     headers := [("x-ncp-apigw-api-key-id", NAVER_CLIENT_ID config);
                 ("x-ncp-apigw-api-key", NAVER_CLIENT_SECRET config)] |}.

(** [async function makeNaverAPIRequest(endpoint, params)]. *)
Definition makeNaverAPIRequest (endpoint : string)
    (params : list (string * value)) : M value :=
  response <- fetch net (request endpoint params) ;;
  if negb (ok response)
  then
    host <- lift hostname ;;
    throw (Error ("네이버 API 오류: " ++ Str.of_Z (status response)
                  ++ " " ++ statusText response ++ " " ++ host))
  else lift (json response).

(** [if (!isCoordinate(input)) { const geocodeResult = await
    makeNaverAPIRequest(...); if (...) { ... } }]. *)
Definition geocode_if_not_coordinate (input : string) : M string :=
  if negb (isCoordinate_unhardened input) then
    geocodeResult <- makeNaverAPIRequest geocode_endpoint [("query", VStr input)] ;;
    lift (resolved input geocodeResult)
  else ret input.

(** The tool [naver_directions]. *)
Definition naver_directions (start goal : string) (option : RouteOption)
    (waypoints : Datatypes.option string) : M CallToolResult :=
  try_catch
    (startCoords <- geocode_if_not_coordinate start ;;
     goalCoords <- geocode_if_not_coordinate goal ;;
     data <- makeNaverAPIRequest directions_endpoint
               (directions_params startCoords goalCoords option waypoints) ;;
     lift (directions_result data))
    report.

(** The tool [naver_geocode]. *)
Definition naver_geocode (address : string) : M CallToolResult :=
  try_catch
    (data <- makeNaverAPIRequest geocode_endpoint [("query", VStr address)] ;;
     lift (geocode_result data))
    report.

(** The tool [naver_reverse_geocode]. *)
Definition naver_reverse_geocode (lat lng : Num.number) : M CallToolResult :=
  try_catch
    (data <- makeNaverAPIRequest reverse_endpoint
               [("coords", VStr (Num.toString lng ++ "," ++ Num.toString lat));
                ("output", VStr "json")] ;;
     lift (reverse_result lat lng data))
    report.

(** The request for the image that the static-map tools make themselves,
    without the gateway. *)
Definition raster_request (centerCoords : string) (level w h : Num.number)
  : Request :=
  {| base := baseUrl;
     endpoint := static_endpoint;
     searchParams := raster_params centerCoords level w h;
     method := "GET";
     headers := [("x-ncp-apigw-api-key-id", NAVER_CLIENT_ID config);
                 ("x-ncp-apigw-api-key", NAVER_CLIENT_SECRET config)] |}.

(** The [catch] block of the tool that returns the image as base64. *)
Definition report_image (err : exn) : M (list ImageContent) :=
  ret [Caption ("오류 발생: " ++ message err)].

End Handlers.

(** The static-map tool that makes the URL of the image and does not
    request it. *)
Module Link.

Section Handlers.

Variable config : Config.
Variable net : Network.
Variable hostname : result string.

Definition naver_static_map (center : string) (level w h : Num.number)
  : M CallToolResult :=
  try_catch
    (centerCoords <- geocode_if_not_coordinate config net hostname center ;;
     let imageUrl := raster_url centerCoords level w h in
     ret [Text ("🗺️ 정적 지도 이미지 URL이 생성되었습니다." ++ Str.nl ++ Str.nl
                ++ "📍 중심 좌표: " ++ centerCoords ++ Str.nl
                ++ "📏 크기: " ++ Num.toString w ++ "x" ++ Num.toString h
                ++ "px" ++ Str.nl
                ++ "🔍 레벨: " ++ Num.toString level ++ Str.nl ++ Str.nl
                ++ "🔗 이미지 URL:" ++ Str.nl ++ imageUrl ++ Str.nl ++ Str.nl
                ++ "* 이 URL에 적절한 API 키 헤더를 포함하여 요청하면 지도 이미지를 받을 수 있습니다.")])
    report.

End Handlers.

End Link.

(** The static-map tool that requests the image and returns it as
    base64. *)
Module Inline.

Section Handlers.

Variable config : Config.
Variable net : Network.
Variable hostname : result string.

Definition naver_static_map (center : string) (level w h : Num.number)
  : M (list ImageContent) :=
  try_catch
    (centerCoords <- geocode_if_not_coordinate config net hostname center ;;
     response <- fetch net (raster_request config centerCoords level w h) ;;
     if negb (ok response)
     then throw (Error ("네이버 지도 이미지 API 오류: " ++ Str.of_Z (status response)
                        ++ " " ++ statusText response))
     else
       let base64Image := Base64.encode (arrayBuffer response) in
       ret [Caption ("🗺️ 정적 지도 이미지가 생성되었습니다." ++ Str.nl ++ Str.nl
                     ++ "📍 중심 좌표: " ++ centerCoords ++ Str.nl
                     ++ "📏 크기: " ++ Num.toString w ++ "x" ++ Num.toString h
                     ++ "px" ++ Str.nl
                     ++ "🔍 레벨: " ++ Num.toString level ++ Str.nl ++ Str.nl
                     ++ "이미지가 Base64 형식으로 반환되었습니다.");
            Picture base64Image "image/png"])
    report_image.

End Handlers.

End Inline.

(** The static-map tool that requests the image and returns a URL the
    host makes for its bytes. *)
Module Blob.

Section Handlers.

Variable config : Config.
Variable net : Network.
Variable hostname : result string.

(** [URL.createObjectURL(blob)]: the URL the host makes for the bytes
    of the blob, or the exception of the call where the host has no
    such function. *)
Variable createObjectURL : list Byte.byte -> result string.

Definition naver_static_map_url (center : string) (level w h : Num.number)
  : M CallToolResult :=
  try_catch
    (centerCoords <- geocode_if_not_coordinate config net hostname center ;;
     response <- fetch net (raster_request config centerCoords level w h) ;;
     if negb (ok response)
     then throw (Error ("네이버 지도 이미지 API 오류: " ++ Str.of_Z (status response)
                        ++ " " ++ statusText response))
     else
       let blob := arrayBuffer response in
       imageUrl <- lift (createObjectURL blob) ;;
       ret [Text ("🗺️ 정적 지도 이미지가 생성되었습니다." ++ Str.nl ++ Str.nl
                  ++ "📍 중심 좌표: " ++ centerCoords ++ Str.nl
                  ++ "📏 크기: " ++ Num.toString w ++ "x" ++ Num.toString h
                  ++ "px" ++ Str.nl
                  ++ "🔍 레벨: " ++ Num.toString level ++ Str.nl ++ Str.nl
                  ++ "🔗 임시 이미지 URL:" ++ Str.nl ++ imageUrl ++ Str.nl ++ Str.nl
                  ++ "* 이 URL은 현재 세션에서만 유효합니다.")])
    report.

End Handlers.

End Blob.

(** The two functions one revision declares beside the tools,
    [getNaverMapImage] and [saveMapImageToFile].  Their parameters have
    no types, so they are values; besides the exchanges with the
    provider they write to the console and to a file. *)
Module Standalone.

(** [console.log(text)] and [console.error(label, error)]. *)
Inductive Line : Type :=
| Logged (text : string)
| Errored (label : string) (error : exn).

(** What the functions change: the exchanges with the provider, the
    lines of the console and the calls of [fs.writeFile]. *)
Record World : Type := {
  exchanges : Log;
  console : list Line;
  writes : list (value * list Byte.byte)
}.

Definition W (A : Type) : Type := World -> result A * World.

Definition wret {A : Type} (a : A) : W A := fun world => (Ok a, world).

Definition wthrow {A : Type} (e : exn) : W A := fun world => (Throw e, world).

Definition wlift {A : Type} (r : result A) : W A := fun world => (r, world).

Definition wbind {A B : Type} (c : W A) (k : A -> W B) : W B :=
  fun world =>
    match c world with
    | (Ok a, world') => k a world'
    | (Throw e, world') => (Throw e, world')
    end.

Definition wtry {A : Type} (body : W A) (handler : exn -> W A) : W A :=
  fun world =>
    match body world with
    | (Ok a, world') => (Ok a, world')
    | (Throw e, world') => handler e world'
    end.

Notation "x <~ c ;; k" := (wbind c (fun x => k))
  (at level 61, c at next level, right associativity).

Definition wfetch (net : Network) (req : Request) : W Response :=
  fun world =>
    let r := net (exchanges world) req in
    (r, {| exchanges := (exchanges world ++ [(req, r)])%list;
           console := console world;
           writes := writes world |}).

Definition console_line (line : Line) : W unit :=
  fun world =>
    (Ok tt, {| exchanges := exchanges world;
               console := (console world ++ [line])%list;
               writes := writes world |}).


(** [v.toString()], where [expr] is the source text of [v] (V8 quotes
    it in the message).  [undefined] and [null] have no property to
    read; an object of JSON data whose own property [toString] hides
    the inherited method has nothing to call there; every other value
    has the method of its kind, which gives what [ToString] gives. *)
Definition toString_method (expr : string) (v : value) : result string :=
  match v with
  | VUndef | VNull =>
      Throw (TypeError ("Cannot read properties of " ++ describe v
                        ++ " (reading 'toString')"))
  | VObj fields =>
      match assoc "toString" fields with
      | Some _ => Throw (TypeError (expr ++ ".toString is not a function"))
      | None => Ok (ToString v)
      end
  | _ => Ok (ToString v)
  end.

(** The request both functions build: the five parameters of the query
    and the two keys, which are arguments here. *)
Definition raster_request (centerCoords level w h apiKeyId apiKey : value)
  : result Request :=
  let? level_text := toString_method "level" level in
  let? w_text := toString_method "w" w in
  let? h_text := toString_method "h" h in
  Ok {| base := baseUrl;
        endpoint := static_endpoint;
        searchParams := [("center", ToString centerCoords);
                         ("level", level_text);
                         ("w", w_text);
                         ("h", h_text);
                         ("format", "png")];
        method := "GET";
        headers := [("x-ncp-apigw-api-key-id", ToString apiKeyId);
                    ("x-ncp-apigw-api-key", ToString apiKey)] |}.

(** [{ success: true, imageUrl, blob }] or [{ success: false, error }]. *)
Inductive ImageResult : Type :=
| ImageOk (imageUrl : string) (blob : list Byte.byte)
| ImageError (error : string).


Section Functions.

Variable net : Network.

(** [URL.createObjectURL], as in [Blob]. *)
Variable createObjectURL : list Byte.byte -> result string.

(** [require('fs').promises]: the [writeFile] of the host, or the
    exception of [require] where there is none. *)
Variable fs : result (value -> list Byte.byte -> result unit).

(** [async function getNaverMapImage(centerCoords, level, w, h,
    apiKeyId, apiKey)]. *)
Definition getNaverMapImage (centerCoords level w h apiKeyId apiKey : value)
  : W ImageResult :=
  wtry
    (req <~ wlift (raster_request centerCoords level w h apiKeyId apiKey) ;;
     response <~ wfetch net req ;;
     if negb (ok response)
     then wthrow (Error ("HTTP error! status: " ++ Str.of_Z (status response)))
     else
       let imageBlob := arrayBuffer response in
       imageUrl <~ wlift (createObjectURL imageBlob) ;;
       wret (ImageOk imageUrl imageBlob))
    (fun error =>
       _ <~ console_line (Errored "지도 이미지 요청 실패:" error) ;;
       wret (ImageError (message error))).


End Functions.

End Standalone.

End Legacy.

(* ================================================================== *)
(** ** The vocabulary of the further properties *)
(* ================================================================== *)

Module Props.

Import Js Server Spec.

(** *** Reading a number *)

(** The characters a StrDecimalLiteral is made of: the digits, the
    signs, the point, the exponent marks and the letters of
    [Infinity]. *)
Definition literal_char (c : ascii) : bool :=
  match Num.digit_val c with
  | Some _ => true
  | None => existsb (Ascii.eqb c) (list_ascii_of_string "+-.eEInfity")
  end.

(** [w] is empty or starts with a character that is in no literal. *)
Definition stops (w : string) : bool :=
  match w with
  | EmptyString => true
  | String c _ => negb (literal_char c)
  end.

(** The fraction that [scan_unsigned] reads after the integer digits
    [ip] ([ic] of them) at the head of [r1]. *)
Definition fraction_part (ip ic : Z) (r1 : string) : Z * Z * string :=
  match r1 with
  | String "." r =>
      let '(m', fc', r') := Num.take_digits r ip 0 in
      if (ic =? 0) && (fc' =? 0) then (ip, 0, r1) else (m', fc', r')
  | _ => (ip, 0, r1)
  end.

(** What [parseFloat] reads in a string without leading white space. *)
Definition literal_value (u : string) : Num.number :=
  let '(neg, u') := Num.scan_sign u in
  match Num.scan_unsigned neg u' with
  | Some (x, _) => x
  | None => Num.NaN
  end.

(** *** Numerals *)

(** Every character of [s] is a decimal digit. *)
Definition all_digits (s : string) : bool :=
  forallb (fun c => match Num.digit_val c with Some _ => true | None => false end)
          (list_ascii_of_string s).

(** *** Runs *)

(** The endpoints a tool may call. *)
Definition endpoints_of (c : ToolCall) : list string :=
  match c with
  | Directions _ _ _ _ => [geocode_endpoint; directions_endpoint]
  | Geocode _ => [geocode_endpoint]
  | ReverseGeocode _ _ => [reverse_endpoint]
  | StaticMap _ _ _ _ _ => [geocode_endpoint; static_endpoint]
  end.

(** The handlers read the answer of the raster endpoint as bytes and
    the answers of the other endpoints as JSON. *)
Definition reads_bytes (req : Request) : bool :=
  String.eqb (endpoint req) static_endpoint.

(** The exception a gateway call ends with, if any, by the request and
    the outcome of its exchange. *)
Definition failure (req : Request) (outcome : result Response)
  : Datatypes.option exn :=
  match settle (reads_bytes req) outcome with
  | Throw e => Some e
  | Ok _ => None
  end.

(** A run returns, after at least [lo] and at most [hi] exchanges. *)
Definition returns_within {A : Type} (lo hi : nat) (run : M A) : Prop :=
  forall log,
    exists content new,
      run log = (Ok content, (log ++ new)%list)
      /\ (lo <= List.length new <= hi)%nat.

(** A run returns, after at least one and at most [hi] exchanges, all
    made through the gateway with one of the endpoints [allowed]. *)
Definition calls_gateway (config : Config) (allowed : list string) (hi : nat)
    (run : M CallToolResult) : Prop :=
  forall log,
    exists content new,
      run log = (Ok content, (log ++ new)%list)
      /\ (1 <= List.length new <= hi)%nat
      /\ Forall (fun ex : Exchange =>
                   exists endpoint params,
                     In endpoint allowed
                     /\ fst ex = request config endpoint params) new.

(** A run reports the failure of a gateway call: the failed exchange is
    the last one and the result is the text of the exception. *)
Definition reports_failures (run : M CallToolResult) : Prop :=
  forall log res log',
    run log = (res, log') ->
    exists new,
      log' = (log ++ new)%list
      /\ forall before req outcome after e,
           new = (before ++ (req, outcome) :: after)%list ->
           failure req outcome = Some e ->
           after = [] /\ res = Ok [Text (error_text e)].

(** *** Routes *)

(** A route whose summary has the fields the handler reads, with any
    distance and duration of which a number can be made. *)
Definition route_shape (best summary : value)
    (toll fuel : Datatypes.option Z) : Prop :=
  is_object best
  /\ field best "summary" = summary
  /\ is_object summary
  /\ printable (field summary "distance") = true
  /\ printable (field summary "duration") = true
  /\ fare_amount (field summary "tollFare") toll
  /\ fare_amount (field summary "fuelPrice") fuel
  /\ is_object (field summary "start")
  /\ is_object (field summary "goal")
  /\ printable (field (field summary "start") "location") = true
  /\ printable (field (field summary "goal") "location") = true.

End Props.

(* ================================================================== *)
(** ** More sample providers *)
(* ================================================================== *)

Module Samples.

Import Js Server.

(** A provider that cannot be reached: [fetch] rejects. *)
Definition offline : Network :=
  fun _ _ => Throw (TypeError "fetch failed").

(** A provider that answers 200 OK with a body that is not JSON. *)
Definition garbled : Network :=
  fun _ _ =>
    Ok {| status := 200; statusText := "OK";
          json := Throw (SyntaxError "Unexpected token < in JSON at position 0");
          arrayBuffer := [] |}.

(** A geocoding candidate as the provider sends it: the coordinates are
    strings. *)
Definition jibun_only : value :=
  VObj [("roadAddress", VStr ""); ("jibunAddress", VStr "Yeoksam-dong 737");
        ("x", VStr "127.0365"); ("y", VStr "37.5000")].

Definition one_jibun : value := VObj [("addresses", VArr [jibun_only])].

(** A reverse-geocoding answer without results. *)
Definition no_results : value := VObj [("results", VArr [])].

(** A provider that answers 200 OK, with the body [reverse] at the
    reverse-geocoding endpoint. *)
Definition healthy (geocode directions reverse : value) : Network :=
  Examples.provider 200 "OK" geocode directions reverse Examples.image.

(** Where there is no [window], evaluating [window.location.hostname]
    throws a ReferenceError, of which only the message is read. *)
Definition no_window : result string := Throw (Error "window is not defined").

(** A host that makes the same URL for every blob. *)
Definition minted : list Byte.byte -> result string :=
  fun _ => Ok "blob:nodedata:1".


(** The world before a call: no exchange, no line, no file. *)
Definition untouched : Legacy.Standalone.World :=
  {| Legacy.Standalone.exchanges := [];
     Legacy.Standalone.console := [];
     Legacy.Standalone.writes := [] |}.

(** A route whose summary has no distance and no duration. *)
Definition bare_summary : list (string * value) :=
  [("start", Examples.place "127.0" "37.5");
   ("goal", Examples.place "129.0" "35.1")].

End Samples.

(* ================================================================== *)
(** ** Lemmas on strings *)
(* ================================================================== *)

Section StringLemmas.

Lemma strip_prefix_app (p s : string) : Str.strip_prefix p (p ++ s) = Some s.
Proof.
  induction p as [|c p IH]; simpl.
  - reflexivity.
  - rewrite Ascii.eqb_refl. exact IH.
Qed.

Lemma starts_with_app (p s : string) : Str.starts_with p (p ++ s) = true.
Proof. unfold Str.starts_with. now rewrite strip_prefix_app. Qed.

Lemma contains_prefix (p s : string) :
  Str.starts_with p s = true -> Str.contains p s = true.
Proof. intros H. destruct s; simpl; rewrite H; reflexivity. Qed.

(** A string contains each of its infixes. *)
Lemma contains_app (a p b : string) : Str.contains p (a ++ p ++ b) = true.
Proof.
  induction a as [|c a IH].
  - simpl. apply contains_prefix. apply starts_with_app.
  - simpl. rewrite IH. apply orb_true_r.
Qed.

(** A split is never empty. *)
Lemma split_nonempty (sep : ascii) (s : string) : Str.split sep s <> [].
Proof.
  induction s as [|c s IH]; simpl.
  - discriminate.
  - destruct (Ascii.eqb c sep); [discriminate|].
    destruct (Str.split sep s); [contradiction|discriminate].
Qed.

Lemma append_empty_r (s : string) : s ++ "" = s.
Proof. induction s as [|c s IH]; simpl; [reflexivity|now rewrite IH]. Qed.

Lemma length_append (a b : string) :
  String.length (a ++ b) = (String.length a + String.length b)%nat.
Proof. induction a as [|c a IH]; simpl; [reflexivity|now rewrite IH]. Qed.

Lemma length_repeat0 (n : nat) : String.length (Str.repeat0 n) = n.
Proof. induction n as [|n IH]; simpl; [reflexivity|now rewrite IH]. Qed.

Lemma length_take (n : nat) (s : string) :
  (n <= String.length s)%nat -> String.length (Str.take n s) = n.
Proof.
  revert s. induction n as [|n IH]; intros [|c s] H; simpl in *; try lia.
  now rewrite IH by lia.
Qed.

Lemma length_drop (n : nat) (s : string) :
  String.length (Str.drop n s) = (String.length s - n)%nat.
Proof.
  revert s. induction n as [|n IH]; intros [|c s]; simpl; try reflexivity.
  apply IH.
Qed.

(** *** Reversal, splitting and joining *)

Lemma append_assoc (a b c : string) : (a ++ b) ++ c = a ++ b ++ c.
Proof. induction a as [|x a IH]; simpl; [reflexivity|now rewrite IH]. Qed.

Lemma rev_append_app (s acc : string) :
  Str.rev_append s acc = Str.rev s ++ acc.
Proof.
  unfold Str.rev. revert acc.
  induction s as [|c s IH]; intros acc; simpl; [reflexivity|].
  rewrite IH, (IH (String c "")), append_assoc. reflexivity.
Qed.

Lemma rev_cons (c : ascii) (s : string) :
  Str.rev (String c s) = Str.rev s ++ String c "".
Proof. unfold Str.rev at 1. simpl. apply rev_append_app. Qed.

Lemma rev_app (a b : string) : Str.rev (a ++ b) = Str.rev b ++ Str.rev a.
Proof.
  induction a as [|c a IH]; simpl.
  - now rewrite append_empty_r.
  - rewrite !rev_cons, IH. now rewrite append_assoc.
Qed.

Lemma rev_involutive (s : string) : Str.rev (Str.rev s) = s.
Proof.
  induction s as [|c s IH]; [reflexivity|].
  rewrite rev_cons, rev_app, IH. reflexivity.
Qed.

Lemma free_app (sep : ascii) (a b : string) :
  Str.free sep a -> Str.free sep b -> Str.free sep (a ++ b).
Proof.
  unfold Str.free. induction a as [|c a IH]; simpl; [auto|].
  intros Ha Hb. inversion Ha; subst. constructor; auto.
Qed.

Lemma split_free (sep : ascii) (s : string) :
  Str.free sep s -> Str.split sep s = [s].
Proof.
  unfold Str.free. induction s as [|c s IH]; [reflexivity|].
  simpl. intros H. inversion H as [|? ? Hc Hs]; subst.
  destruct (Ascii.eqb_spec c sep); [contradiction|].
  now rewrite (IH Hs).
Qed.

Lemma split_app_sep (sep : ascii) (a b : string) :
  Str.split sep (a ++ String sep b) = (Str.split sep a ++ Str.split sep b)%list.
Proof.
  induction a as [|c a IH].
  - cbn [append Str.split app]. now rewrite Ascii.eqb_refl.
  - cbn [append Str.split]. rewrite IH.
    destruct (Ascii.eqb c sep); [reflexivity|].
    pose proof (split_nonempty sep a) as Hne.
    destruct (Str.split sep a); [contradiction|reflexivity].
Qed.

Lemma split_join (sep : ascii) (pieces : list string) :
  pieces <> [] -> Forall (Str.free sep) pieces ->
  Str.split sep (Str.join (String sep "") pieces) = pieces.
Proof.
  induction pieces as [|x [|y rest] IH]; intros Hne Hfree.
  - contradiction.
  - inversion Hfree; subst. now apply split_free.
  - inversion Hfree as [|? ? Hx Hrest]; subst.
    change (Str.join (String sep "") (x :: y :: rest))
      with (x ++ String sep (Str.join (String sep "") (y :: rest))).
    rewrite split_app_sep, (split_free _ _ Hx), IH; [reflexivity|discriminate|exact Hrest].
Qed.

Lemma split_sep (sep : ascii) (s : string) :
  Str.split sep (String sep s) = "" :: Str.split sep s.
Proof. cbn [Str.split]. now rewrite Ascii.eqb_refl. Qed.

(** A character that is not the separator, put at the end, joins the
    last part. *)
Lemma split_snoc (sep c : ascii) (s : string) :
  c <> sep ->
  exists init l, Str.split sep s = (init ++ [l])%list
                 /\ Str.split sep (s ++ String c "")
                    = (init ++ [(l ++ String c "")%string])%list.
Proof.
  intros Hc. induction s as [|d s (init & l & E & E')].
  - exists [], "". split; [reflexivity|]. cbn.
    destruct (Ascii.eqb_spec c sep); [contradiction|reflexivity].
  - cbn [append Str.split]. rewrite E, E'.
    destruct (Ascii.eqb d sep).
    + exists ("" :: init), l. split; reflexivity.
    + destruct init as [|i init]; cbn [app].
      * exists [], (String d l). split; reflexivity.
      * exists (String d i :: init), l. split; reflexivity.
Qed.

(** The parts of a reversed string are the reversed parts, from the
    last one to the first. *)
Lemma split_rev (sep : ascii) (s : string) :
  Str.split sep (Str.rev s) = List.rev (map Str.rev (Str.split sep s)).
Proof.
  induction s as [|c s IH]; [reflexivity|].
  rewrite rev_cons. cbn [Str.split].
  destruct (Ascii.eqb_spec c sep) as [->|Hc].
  - rewrite split_app_sep, IH. reflexivity.
  - destruct (split_snoc sep c (Str.rev s) Hc) as (init & l & E & E').
    rewrite E'. rewrite IH in E.
    pose proof (split_nonempty sep s) as Hne.
    destruct (Str.split sep s) as [|p ps]; [contradiction|].
    cbn [map List.rev] in *. apply app_inj_tail in E. destruct E as [<- <-].
    now rewrite rev_cons.
Qed.

(** Joining with the empty separator is concatenation. *)
Lemma join_empty_cons (x : string) (l : list string) :
  Str.join "" (x :: l) = x ++ Str.join "" l.
Proof.
  destruct l; cbn [Str.join append]; [now rewrite append_empty_r|reflexivity].
Qed.

Lemma join_empty_app (a b : list string) :
  Str.join "" (a ++ b) = Str.join "" a ++ Str.join "" b.
Proof.
  induction a as [|x a IH]; [reflexivity|].
  cbn [app]. now rewrite !join_empty_cons, IH, append_assoc.
Qed.

Lemma join_empty_rev (l : list string) :
  Str.join "" (List.rev (map Str.rev l)) = Str.rev (Str.join "" l).
Proof.
  induction l as [|x l IH]; [reflexivity|].
  cbn [map List.rev]. rewrite join_empty_app, IH, (join_empty_cons x l), rev_app.
  reflexivity.
Qed.

Lemma length_rev (s : string) : String.length (Str.rev s) = String.length s.
Proof.
  induction s as [|c s IH]; [reflexivity|].
  rewrite rev_cons, length_append, IH. simpl. lia.
Qed.

Lemma free_rev (sep : ascii) (s : string) : Str.free sep s -> Str.free sep (Str.rev s).
Proof.
  induction s as [|c s IH]; [trivial|].
  intros H. unfold Str.free in H. inversion H; subst. rewrite rev_cons.
  apply free_app; [now apply IH|]. constructor; [assumption|constructor].
Qed.

End StringLemmas.

(* ================================================================== *)
(** ** Lemmas on numbers *)
(* ================================================================== *)

Section NumberLemmas.

(** Shifting a rounding record right divides its mantissa. *)
Lemma shr_1_m (r : shr_record) : 0 <= shr_m r -> shr_m (shr_1 r) = shr_m r / 2.
Proof.
  destruct r as [m b s]. cbn [shr_m]. intros Hm.
  destruct m as [|p|p]; [reflexivity| |lia].
  destruct p as [p|p|]; cbn [shr_1 shr_m].
  - rewrite Pos2Z.inj_xI. apply (Z.div_unique _ 2 _ 1); lia.
  - rewrite Pos2Z.inj_xO. apply (Z.div_unique _ 2 _ 0); lia.
  - reflexivity.
Qed.

Lemma shr_1_nonneg (r : shr_record) : 0 <= shr_m r -> 0 <= shr_m (shr_1 r).
Proof. intros H. rewrite shr_1_m by exact H. apply Z.div_pos; lia. Qed.

Lemma pow2_xI (p : positive) : 2 ^ Zpos p~1 = 2 * 2 ^ Zpos p * 2 ^ Zpos p.
Proof.
  replace (Zpos p~1) with (1 + Zpos p + Zpos p) by lia.
  rewrite !Z.pow_add_r by lia. reflexivity.
Qed.

Lemma pow2_xO (p : positive) : 2 ^ Zpos p~0 = 2 ^ Zpos p * 2 ^ Zpos p.
Proof.
  replace (Zpos p~0) with (Zpos p + Zpos p) by lia.
  rewrite !Z.pow_add_r by lia. reflexivity.
Qed.

(** Shifting [p] times divides by [2^p]. *)
Lemma iter_shr_1_m (p : positive) :
  forall r, 0 <= shr_m r ->
            shr_m (iter_pos shr_1 p r) = shr_m r / 2 ^ Zpos p
            /\ 0 <= shr_m (iter_pos shr_1 p r).
Proof.
  induction p as [p IH|p IH|]; intros r Hr; cbn [iter_pos].
  - destruct (IH (shr_1 r) (shr_1_nonneg r Hr)) as [E1 P1].
    destruct (IH _ P1) as [E2 P2]. split; [|exact P2].
    assert (Hp : 0 < 2 ^ Zpos p) by (apply Z.pow_pos_nonneg; lia).
    rewrite E2, E1, shr_1_m by exact Hr.
    rewrite !Z.div_div by lia.
    rewrite pow2_xI. f_equal; lia.
  - destruct (IH r Hr) as [E1 P1].
    destruct (IH _ P1) as [E2 P2]. split; [|exact P2].
    assert (Hp : 0 < 2 ^ Zpos p) by (apply Z.pow_pos_nonneg; lia).
    rewrite E2, E1.
    rewrite !Z.div_div by lia.
    rewrite pow2_xO. f_equal; lia.
  - split; [|apply shr_1_nonneg, Hr].
    rewrite shr_1_m by exact Hr. reflexivity.
Qed.

(** A positive number with [d] binary digits is at least [2^(d-1)]. *)
Lemma digits2_pos_lower (p : positive) : 2 ^ (Zpos (digits2_pos p) - 1) <= Zpos p.
Proof.
  assert (Hstep : forall q, 2 ^ (Zpos (Pos.succ q) - 1) = 2 * 2 ^ (Zpos q - 1)).
  { intros q. rewrite Pos2Z.inj_succ.
    replace (Z.succ (Zpos q) - 1) with (Z.succ (Zpos q - 1)) by lia.
    apply Z.pow_succ_r. lia. }
  induction p as [p IH|p IH|]; cbn [digits2_pos].
  - rewrite Hstep. lia.
  - rewrite Hstep. lia.
  - simpl. lia.
Qed.

(** Rounding to the format keeps a positive mantissa positive, as long
    as the number is not below the smallest subnormal. *)
Lemma shr_fexp_pos (m : positive) (e : Z) (l : location) :
  emin Num.prec Num.emax < Zpos (digits2_pos m) + e ->
  let '(r, e') := shr_fexp Num.prec Num.emax (Zpos m) e l in
  0 < shr_m r /\ (emin Num.prec Num.emax <= e -> emin Num.prec Num.emax <= e').
Proof.
  intros Hd. unfold shr_fexp, shr. cbn [Zdigits2].
  set (d := Zpos (digits2_pos m)) in *.
  assert (Hlow := digits2_pos_lower m). fold d in Hlow.
  assert (Hm : shr_m (shr_record_of_loc (Zpos m) l) = Zpos m)
    by (destruct l as [|[]]; reflexivity).
  destruct (fexp Num.prec Num.emax (d + e) - e) as [|n|n] eqn:Hn.
  - rewrite Hm. split; lia.
  - assert (H0 : 0 <= shr_m (shr_record_of_loc (Zpos m) l)) by (rewrite Hm; lia).
    destruct (iter_shr_1_m n _ H0) as [E _]. rewrite E, Hm.
    assert (Hle : Zpos n <= d - 1)
      by (unfold fexp, emin, Num.prec, Num.emax in *; lia).
    split; [|lia].
    apply Z.div_str_pos. split; [apply Z.pow_pos_nonneg; lia|].
    eapply Z.le_trans; [|exact Hlow].
    apply Z.pow_le_mono_r; lia.
  - rewrite Hm. split; lia.
Qed.

(** Rounding a positive mantissa that is not below the smallest
    subnormal gives a finite nonzero Number or an infinity. *)
Lemma binary_round_aux_truthy (s : bool) (m : positive) (e : Z) (l : location) :
  emin Num.prec Num.emax <= e ->
  Num.truthy (binary_round_aux Num.prec Num.emax s (Zpos m) e l) = true.
Proof.
  intros He. unfold binary_round_aux.
  assert (H1 := shr_fexp_pos m e l).
  destruct (shr_fexp Num.prec Num.emax (Zpos m) e l) as [r1 e1].
  destruct H1 as [P1 E1]; [pose proof (Pos2Z.is_pos (digits2_pos m)); lia|].
  specialize (E1 He).
  set (m1 := round_nearest_even (shr_m r1) (loc_of_shr_record r1)).
  assert (Hm1 : 0 < m1).
  { unfold m1, round_nearest_even.
    destruct (loc_of_shr_record r1) as [|[]]; try lia.
    destruct (Z.even (shr_m r1)); lia. }
  destruct m1 as [|p1|p1]; try lia.
  assert (H2 := shr_fexp_pos p1 e1 loc_Exact).
  destruct (shr_fexp Num.prec Num.emax (Zpos p1) e1 loc_Exact) as [r2 e2].
  destruct H2 as [P2 _]; [pose proof (Pos2Z.is_pos (digits2_pos p1)); lia|].
  destruct (shr_m r2); try lia.
  destruct (e2 <=? Num.emax - Num.prec); reflexivity.
Qed.

(** An integer Number is truthy exactly when the integer is not 0. *)
Lemma of_Z_truthy (z : Z) : Num.truthy (Num.of_Z z) = negb (z =? 0).
Proof.
  unfold Num.of_Z, binary_normalize.
  destruct z as [|p|p]; [reflexivity| |]; cbn [Z.eqb negb];
    unfold binary_round;
    destruct (shl_align p 0 (fexp Num.prec Num.emax (Zpos (digits2_pos p) + 0)))
      as [mz ez] eqn:Hs;
    apply binary_round_aux_truthy;
    unfold shl_align in Hs;
    destruct (fexp Num.prec Num.emax (Zpos (digits2_pos p) + 0) - 0) eqn:Hf;
    inversion Hs; subst;
    unfold fexp, emin, Num.prec, Num.emax in *; lia.
Qed.

Lemma frac_pos (m : positive) (e : Z) :
  0 < fst (Num.frac m e) /\ 0 < snd (Num.frac m e).
Proof.
  unfold Num.frac. destruct (0 <=? e) eqn:He; cbn [fst snd].
  - apply Z.leb_le in He. split; [|lia].
    assert (0 < 2 ^ e) by (apply Z.pow_pos_nonneg; lia). lia.
  - apply Z.leb_gt in He. split; [lia|].
    apply Z.pow_pos_nonneg; lia.
Qed.

(** [Math.round] gives the integer [r] with [r - 1/2 <= x < r + 1/2]:
    the nearest integer, the larger one on a tie. *)
Lemma Math_round_nearest (s : bool) (m : positive) (e : Z) :
  e < 0 ->
  exists r : Z,
    Num.Math_round (S754_finite s m e)
    = (if r =? 0 then S754_zero s else Num.of_Z r)
    /\ (2 * r - 1) * 2 ^ (- e) <= 2 * (if s then Zneg m else Zpos m)
       < (2 * r + 1) * 2 ^ (- e).
Proof.
  intros He. unfold Num.Math_round.
  replace (0 <=? e) with false by (symmetry; apply Z.leb_gt; lia).
  set (d := 2 ^ (- e)). set (v := if s then Zneg m else Zpos m).
  assert (Hd : 0 < d) by (apply Z.pow_pos_nonneg; lia).
  exists ((2 * v + d) / (2 * d)). split; [reflexivity|].
  pose proof (Z.div_mod (2 * v + d) (2 * d) ltac:(lia)) as Hdiv.
  pose proof (Z.mod_pos_bound (2 * v + d) (2 * d) ltac:(lia)) as Hmod.
  nia.
Qed.

(** A number printed with one fraction digit has one digit after the
    point and at least one before it. *)
Lemma fixed_digits_one (n : Z) :
  exists ip fp,
    Num.fixed_digits 1 n = ip ++ "." ++ fp
    /\ String.length fp = 1%nat /\ ip <> "".
Proof.
  unfold Num.fixed_digits.
  set (m := if (String.length (Str.of_Z n) <=? 1)%nat
            then Str.repeat0 (1 + 1 - String.length (Str.of_Z n)) ++ Str.of_Z n
            else Str.of_Z n).
  assert (Hm : (2 <= String.length m)%nat).
  { unfold m. destruct (Nat.leb_spec (String.length (Str.of_Z n)) 1).
    - rewrite length_append, length_repeat0. lia.
    - lia. }
  exists (Str.take (String.length m - 1) m), (Str.drop (String.length m - 1) m).
  split; [reflexivity|]. split.
  - rewrite length_drop. lia.
  - intros H. apply (f_equal String.length) in H.
    rewrite length_take in H by lia. simpl in H. lia.
Qed.

(** [toFixed(1)] of a finite Number below 10^21 is a decimal numeral
    with one fraction digit. *)
Lemma toFixed_one_decimal (s : bool) (m : positive) (e : Z) :
  (10 ^ 21 * snd (Num.frac m e) <=? fst (Num.frac m e)) = false ->
  exists ip fp,
    Num.toFixed 1 (S754_finite s m e)
    = (if s then "-" else "") ++ ip ++ "." ++ fp
    /\ String.length fp = 1%nat /\ ip <> "".
Proof.
  intros H. unfold Num.toFixed.
  destruct (Num.frac m e) as [N D]. cbn [fst snd] in H. rewrite H.
  destruct (fixed_digits_one (Num.round_half_up (N * 10 ^ Z.of_nat 1) D))
    as (ip & fp & E & Hfp & Hip).
  exists ip, fp. rewrite E. split; [reflexivity|]. split; assumption.
Qed.

(** [toLocaleString] of an integer is its digits in groups of three. *)
Lemma toLocaleString_integer (s : bool) (m : positive) (e : Z) (k : Z) :
  fst (Num.frac m e) = k * snd (Num.frac m e) ->
  Num.toLocaleString (S754_finite s m e)
  = (if s then "-" else "") ++ Num.group3 (Str.of_Z k).
Proof.
  intros H. unfold Num.toLocaleString.
  destruct (frac_pos m e) as [_ HD].
  destruct (Num.frac m e) as [N D]. cbn [fst snd] in *. subst N.
  assert (Hr : Num.round_half_up (k * D * 1000) D = 1000 * k).
  { unfold Num.round_half_up. symmetry.
    apply (Z.div_unique _ _ _ D); lia. }
  rewrite Hr.
  replace (1000 * k mod 1000) with 0
    by (symmetry; rewrite Z.mul_comm; apply Z.mod_mul; lia).
  replace (1000 * k / 1000) with k
    by (symmetry; rewrite Z.mul_comm; apply Z.div_mul; lia).
  cbn [Z.eqb]. now rewrite append_empty_r.
Qed.

(** *** Whole numbers *)

Lemma digits2_pos_shift (p d : positive) :
  digits2_pos (Pos.iter xO p d) = (digits2_pos p + d)%positive.
Proof.
  induction d as [|d IH] using Pos.peano_ind.
  - cbn [Pos.iter digits2_pos]. lia.
  - rewrite Pos.iter_succ. cbn [digits2_pos]. rewrite IH. lia.
Qed.

Lemma shift_value (p d : positive) : Zpos (Pos.iter xO p d) = Zpos p * 2 ^ Zpos d.
Proof.
  change (Pos.iter xO p d) with (shift_pos d p).
  rewrite shift_pos_correct, Z.pow_pos_fold. lia.
Qed.

(** Rounding a mantissa of exactly 53 digits changes nothing. *)
Lemma binary_round_aux_exact (s : bool) (m : positive) (e : Z) :
  Zpos (digits2_pos m) = Num.prec -> -52 <= e <= 0 ->
  binary_round_aux Num.prec Num.emax s (Zpos m) e loc_Exact = S754_finite s m e.
Proof.
  intros Hd He. unfold binary_round_aux, shr_fexp. cbn [Zdigits2].
  rewrite Hd.
  replace (fexp Num.prec Num.emax (Num.prec + e) - e) with 0
    by (unfold fexp, emin, Num.prec, Num.emax; lia).
  cbn [shr shr_record_of_loc shr_m loc_of_shr_record round_nearest_even Zdigits2].
  rewrite Hd.
  replace (fexp Num.prec Num.emax (Num.prec + e) - e) with 0
    by (unfold fexp, emin, Num.prec, Num.emax; lia).
  cbn [shr shr_m].
  replace (e <=? Num.emax - Num.prec) with true
    by (symmetry; apply Z.leb_le; unfold Num.prec, Num.emax; lia).
  reflexivity.
Qed.

(** The Number of a whole number below 2^53 is that number: its
    mantissa is the number shifted to 53 digits. *)
Lemma of_Z_exact (p : positive) :
  Zpos p < 2 ^ 53 ->
  exists m e,
    Num.of_Z (Zpos p) = S754_finite false m e
    /\ fst (Num.frac m e) = Zpos p * snd (Num.frac m e).
Proof.
  intros Hp.
  pose proof (digits2_pos_lower p) as Hlow.
  assert (Hd : Zpos (digits2_pos p) <= 53).
  { destruct (Z.le_gt_cases (Zpos (digits2_pos p)) 53) as [H|H]; [exact H|].
    assert (2 ^ 53 <= 2 ^ (Zpos (digits2_pos p) - 1))
      by (apply Z.pow_le_mono_r; lia).
    lia. }
  unfold Num.of_Z, binary_normalize, binary_round, shl_align.
  replace (fexp Num.prec Num.emax (Zpos (digits2_pos p) + 0) - 0)
    with (Zpos (digits2_pos p) - 53)
    by (unfold fexp, emin, Num.prec, Num.emax; lia).
  destruct (Zpos (digits2_pos p) - 53) as [|d|d] eqn:E; try lia.
  - exists p, 0. split.
    + apply binary_round_aux_exact; [unfold Num.prec|]; lia.
    + unfold Num.frac. cbn. lia.
  - replace (fexp Num.prec Num.emax (Zpos (digits2_pos p) + 0)) with (Zneg d)
      by (unfold fexp, emin, Num.prec, Num.emax; lia).
    exists (Pos.iter xO p d), (Zneg d). split.
    + apply binary_round_aux_exact.
      * rewrite digits2_pos_shift. unfold Num.prec. lia.
      * pose proof (Pos2Z.is_pos (digits2_pos p)). lia.
    + unfold Num.frac. cbn [Z.leb Z.compare fst snd Z.opp].
      now rewrite shift_value.
Qed.

(** *** Thousands separators *)

(** The groups that [group_rev] makes of a string without a comma, when
    it starts at the [count]-th character of a group: cut at the commas,
    the text is the string; every group but the last has three
    characters (the first one with the [count] before it), and the last
    has one to three. *)
Lemma group_rev_groups (r : string) :
  Str.free Str.comma r ->
  forall count, (count <= 3)%nat ->
    exists g gs,
      Str.split Str.comma (Num.group_rev r count) = g :: gs
      /\ Str.join "" (g :: gs) = r
      /\ (String.length g + count <= 3)%nat
      /\ (gs = []
          \/ ((String.length g + count)%nat = 3%nat
              /\ exists init last,
                   gs = (init ++ [last])%list
                   /\ Forall (fun group => String.length group = 3%nat) init
                   /\ (1 <= String.length last <= 3)%nat)).
Proof.
  unfold Str.free. induction r as [|c r IH]; intros Hfree count Hcount.
  - exists "", []. repeat split; [cbn; lia|now left].
  - inversion Hfree as [|? ? Hc Hr]; subst.
    assert (Hstep : forall k, (k <= 3)%nat ->
              exists g gs,
                Str.split Str.comma (String c (Num.group_rev r k)) = String c g :: gs
                /\ Str.join "" (String c g :: gs) = String c r
                /\ (String.length g + k <= 3)%nat
                /\ (gs = []
                    \/ ((String.length g + k)%nat = 3%nat
                        /\ exists init last,
                             gs = (init ++ [last])%list
                             /\ Forall (fun group => String.length group = 3%nat) init
                             /\ (1 <= String.length last <= 3)%nat))).
    { intros k Hk. destruct (IH Hr k Hk) as (g & gs & E & J & L & T).
      exists g, gs. split; [|split; [|split; [exact L|exact T]]].
      - cbn [Str.split]. destruct (Ascii.eqb_spec c Str.comma); [contradiction|].
        now rewrite E.
      - rewrite join_empty_cons in *. cbn [append]. now rewrite J. }
    destruct count as [|[|[|[|count]]]]; try lia; cbn [Num.group_rev].
    + destruct (Hstep 1%nat) as (g & gs & E & J & L & T); [lia|].
      exists (String c g), gs. repeat split; try assumption; cbn [String.length]; try lia.
      destruct T as [->|[T1 T2]]; [now left|right]. split; [lia|exact T2].
    + destruct (Hstep 2%nat) as (g & gs & E & J & L & T); [lia|].
      exists (String c g), gs. repeat split; try assumption; cbn [String.length]; try lia.
      destruct T as [->|[T1 T2]]; [now left|right]. split; [lia|exact T2].
    + destruct (Hstep 3%nat) as (g & gs & E & J & L & T); [lia|].
      exists (String c g), gs. repeat split; try assumption; cbn [String.length]; try lia.
      destruct T as [->|[T1 T2]]; [now left|right]. split; [lia|exact T2].
    + destruct (Hstep 1%nat) as (g & gs & E & J & L & T); [lia|].
      exists "", (String c g :: gs).
      split; [|split; [|split; [cbn; lia|]]].
      * change ","%char with Str.comma. now rewrite split_sep, E.
      * now rewrite join_empty_cons, J.
      * right. split; [reflexivity|].
        destruct T as [->|(T1 & init & last & -> & Hinit & Hlast)].
        -- exists [], (String c g). repeat split; cbn [String.length]; try lia.
           constructor.
        -- exists (String c g :: init), last. split; [reflexivity|].
           split; [|exact Hlast]. constructor; [cbn [String.length]; lia|exact Hinit].
Qed.

(** [group3] puts thousands separators into a string of digits. *)
Lemma group3_separated (digits : string) :
  digits <> "" -> Str.free Str.comma digits ->
  Spec.thousands_separated digits (Num.group3 digits).
Proof.
  intros Hne Hfree. unfold Num.group3, Spec.thousands_separated.
  destruct (group_rev_groups (Str.rev digits) (free_rev _ _ Hfree) 0%nat)
    as (g & gs & E & J & L & T); [lia|].
  assert (Hg : exists init last,
             g :: gs = (init ++ [last])%list
             /\ Forall (fun group => String.length group = 3%nat) init
             /\ (1 <= String.length last <= 3)%nat).
  { destruct T as [->|(T1 & init & last & -> & Hinit & Hlast)].
    - exists [], g. split; [reflexivity|]. split; [constructor|].
      split; [|lia]. destruct g; [|cbn; lia].
      cbn [Str.join] in J. apply (f_equal Str.rev) in J.
      rewrite rev_involutive in J. now contradiction Hne.
    - exists (g :: init), last. split; [reflexivity|].
      split; [|exact Hlast]. constructor; [lia|exact Hinit]. }
  destruct Hg as (init & last & Eg & Hinit & Hlast).
  exists (Str.rev last), (List.rev (map Str.rev init)).
  rewrite split_rev, E, Eg, map_app, rev_app_distr. split; [reflexivity|].
  split; [|split].
  - change (Str.rev last :: List.rev (map Str.rev init))
      with (List.rev (map Str.rev [last]) ++ List.rev (map Str.rev init))%list.
    rewrite <- rev_app_distr, <- map_app, <- Eg, join_empty_rev, J.
    apply rev_involutive.
  - now rewrite length_rev.
  - apply Forall_rev, Forall_map.
    eapply Forall_impl; [|exact Hinit]. intros group H. now rewrite length_rev.
Qed.

(** The digits of a whole number have no comma. *)
Lemma of_uint_free (d : Decimal.uint) :
  Str.free Str.comma (NilEmpty.string_of_uint d).
Proof.
  unfold Str.free. induction d; cbn; try constructor; try assumption; discriminate.
Qed.

Lemma of_Z_digits (z : Z) :
  0 <= z -> Str.of_Z z <> "" /\ Str.free Str.comma (Str.of_Z z).
Proof.
  intros Hz. unfold Str.of_Z, Str.of_N, NilZero.string_of_uint.
  destruct z as [|p|p]; try lia.
  - split; [discriminate|]. repeat constructor. discriminate.
  - destruct (N.to_uint (Z.to_N (Zpos p))) eqn:E;
      try (split; [discriminate|rewrite <- E; apply of_uint_free]).
    split; [discriminate|]. repeat constructor. discriminate.
Qed.

(** [toLocaleString] of a whole number below 2^53 is its digits with
    thousands separators. *)
Lemma toLocaleString_whole (n : Z) :
  0 < n < 2 ^ 53 ->
  Spec.thousands_separated (Str.of_Z n) (Num.toLocaleString (Num.of_Z n)).
Proof.
  intros Hn. destruct n as [|p|p]; try lia.
  destruct (of_Z_exact p) as (m & e & -> & Hfrac); [lia|].
  rewrite (toLocaleString_integer false m e (Zpos p) Hfrac).
  destruct (of_Z_digits (Zpos p)) as [Hne Hfree]; [lia|].
  now apply group3_separated.
Qed.

End NumberLemmas.

(* ================================================================== *)
(** ** Base64: decoding undoes encoding *)
(* ================================================================== *)

Section Base64Lemmas.

Import Base64.

(** The alphabet is read back, and none of its characters is the pad. *)
Lemma sextet_roundtrip (s : sextet) : sextet_of_char (char_of_sextet s) = Some s.
Proof.
  destruct s as [[[[[b5 b4] b3] b2] b1] b0].
  destruct b5, b4, b3, b2, b1, b0; reflexivity.
Qed.

Lemma char_of_sextet_not_pad (s : sextet) : Ascii.eqb (char_of_sextet s) pad = false.
Proof.
  destruct s as [[[[[b5 b4] b3] b2] b1] b0].
  destruct b5, b4, b3, b2, b1, b0; reflexivity.
Qed.

(** Three bytes are recovered from their four sextets. *)
Lemma bytes3_sextets3 (a b c : Byte.byte) :
  let '(s1, s2, s3, s4) := sextets3 a b c in bytes3 s1 s2 s3 s4 = (a, b, c).
Proof.
  unfold sextets3, bytes3.
  generalize (Byte.of_bits_to_bits a) (Byte.of_bits_to_bits b)
             (Byte.of_bits_to_bits c).
  destruct (Byte.to_bits a) as (a0 & a1 & a2 & a3 & a4 & a5 & a6 & a7).
  destruct (Byte.to_bits b) as (b0 & b1 & b2 & b3 & b4 & b5 & b6 & b7).
  destruct (Byte.to_bits c) as (c0 & c1 & c2 & c3 & c4 & c5 & c6 & c7).
  intros Ha Hb Hc. now rewrite Ha, Hb, Hc.
Qed.

(** A last group of one or two bytes is padded with zero bits; the
    decoder drops them. *)
Lemma bytes3_sextets3_fst (a b c : Byte.byte) :
  let '(s1, s2, _, _) := sextets3 a b c in
  fst (fst (bytes3 s1 s2 zero6 zero6)) = a.
Proof.
  unfold sextets3, bytes3.
  generalize (Byte.of_bits_to_bits a).
  destruct (Byte.to_bits a) as (a0 & a1 & a2 & a3 & a4 & a5 & a6 & a7).
  destruct (Byte.to_bits b) as (b0 & b1 & b2 & b3 & b4 & b5 & b6 & b7).
  destruct (Byte.to_bits c) as (c0 & c1 & c2 & c3 & c4 & c5 & c6 & c7).
  intros Ha. exact Ha.
Qed.

Lemma bytes3_sextets3_two (a b c : Byte.byte) :
  let '(s1, s2, s3, _) := sextets3 a b c in
  fst (bytes3 s1 s2 s3 zero6) = (a, b).
Proof.
  unfold sextets3, bytes3.
  generalize (Byte.of_bits_to_bits a) (Byte.of_bits_to_bits b).
  destruct (Byte.to_bits a) as (a0 & a1 & a2 & a3 & a4 & a5 & a6 & a7).
  destruct (Byte.to_bits b) as (b0 & b1 & b2 & b3 & b4 & b5 & b6 & b7).
  destruct (Byte.to_bits c) as (c0 & c1 & c2 & c3 & c4 & c5 & c6 & c7).
  intros Ha Hb. cbn [fst]. now rewrite Ha, Hb.
Qed.

(** Decoding undoes encoding, by induction on a bound on the number of
    bytes: a step of the encoder takes three of them. *)
Lemma decode_encode_bounded (n : nat) :
  forall data, (List.length data <= n)%nat -> decode (encode data) = Some data.
Proof.
  induction n as [n IH] using lt_wf_ind.
  intros [|a [|b [|c rest]]] Hlen.
  - reflexivity.
  - cbn [encode].
    generalize (bytes3_sextets3_fst a Byte.x00 Byte.x00).
    destruct (sextets3 a Byte.x00 Byte.x00) as [[[s1 s2] s3] s4].
    intros Ha. cbn [decode str4].
    rewrite !sextet_roundtrip.
    change (Ascii.eqb pad pad) with true. cbv iota.
    destruct (bytes3 s1 s2 zero6 zero6) as [[x y] z]. simpl in Ha. now subst.
  - cbn [encode].
    generalize (bytes3_sextets3_two a b Byte.x00).
    destruct (sextets3 a b Byte.x00) as [[[s1 s2] s3] s4].
    intros Hab. cbn [decode str4].
    rewrite !sextet_roundtrip.
    change (Ascii.eqb pad pad) with true. cbv iota.
    rewrite char_of_sextet_not_pad.
    destruct (bytes3 s1 s2 s3 zero6) as [[x y] z]. simpl in Hab.
    now inversion Hab.
  - cbn [encode].
    generalize (bytes3_sextets3 a b c).
    destruct (sextets3 a b c) as [[[s1 s2] s3] s4].
    intros Habc. cbn [decode str4].
    rewrite !sextet_roundtrip, char_of_sextet_not_pad.
    rewrite (IH (List.length rest)); [|simpl in Hlen; lia|lia].
    now rewrite Habc.
Qed.

Lemma decode_encode (data : list Byte.byte) : decode (encode data) = Some data.
Proof. now apply (decode_encode_bounded (List.length data)). Qed.

End Base64Lemmas.

(* ================================================================== *)
(** ** What the handlers make of a response *)
(* ================================================================== *)

Section Responses.

Import Js Server Spec.

(** [v?.length] of a list is truthy exactly when the list is not empty. *)
Lemma length_truthy (l : list value) :
  truthy (opt_get (VArr l) "length") = negb (Nat.eqb (List.length l) 0).
Proof.
  unfold opt_get, get. cbn [String.eqb Ascii.eqb Bool.eqb truthy].
  change (String.eqb "length" "length") with true. cbv iota.
  cbn [truthy]. rewrite of_Z_truthy. destruct l; reflexivity.
Qed.

(** The three shapes of a list field, read by the handlers. *)
Lemma list_field_cases (data : value) (k : string) :
  list_field data k ->
  exists v, get data k = Ok v
    /\ ((nullish v = true /\ items data k = [])
        \/ (exists l, v = VArr l /\ items data k = l /\ Forall is_object l)).
Proof.
  intros (fields & -> & H). cbn [get items].
  destruct H as [H|[H|(l & H & Hl)]]; rewrite H.
  - exists VUndef. split; [reflexivity|left; split; reflexivity].
  - exists VNull. split; [reflexivity|left; split; reflexivity].
  - exists (VArr l). split; [reflexivity|right; exists l; repeat split; assumption].
Qed.

Lemma nullish_length (v : value) :
  nullish v = true -> truthy (opt_get v "length") = false.
Proof. destruct v; try discriminate; reflexivity. Qed.

(** [first_xy] on a list whose first candidate is an object. *)
Lemma first_xy_object (candidate : value) (rest : list value) :
  is_object candidate ->
  first_xy (VArr (candidate :: rest)) = Ok (lon_lat candidate).
Proof. intros (fields & ->). reflexivity. Qed.

(** [resolved] is the spec's geocoding step. *)
Lemma resolved_geocoded (input : string) (data : value) :
  list_field data "addresses" ->
  resolved input data = Ok (geocoded input data).
Proof.
  intros H. destruct (list_field_cases _ _ H) as (v & Hget & Hv).
  unfold resolved, geocoded. rewrite Hget.
  destruct Hv as [[Hn Hi]|(l & -> & Hi & Hl)]; rewrite Hi.
  - now rewrite nullish_length.
  - rewrite length_truthy. destruct l as [|c l]; [reflexivity|].
    cbn [List.length Nat.eqb negb]. apply first_xy_object.
    now inversion Hl.
Qed.

(** [resolved_or_fail] raises where [resolved] keeps the input. *)
Lemma resolved_or_fail_spec (data : value) :
  list_field data "addresses" ->
  resolved_or_fail data
  = match items data "addresses" with
    | candidate :: _ => Ok (lon_lat candidate)
    | [] => Throw (Error "지오코딩 결과가 없습니다.")
    end.
Proof.
  intros H. destruct (list_field_cases _ _ H) as (v & Hget & Hv).
  unfold resolved_or_fail. rewrite Hget.
  destruct Hv as [[Hn Hi]|(l & -> & Hi & Hl)]; rewrite Hi.
  - now rewrite nullish_length.
  - rewrite length_truthy. destruct l as [|c l]; [reflexivity|].
    cbn [List.length Nat.eqb negb]. apply first_xy_object.
    now inversion Hl.
Qed.

(** [naver_geocode] on an answer without candidates. *)
Lemma geocode_result_empty (data : value) :
  list_field data "addresses" -> items data "addresses" = [] ->
  geocode_result data = Ok [Text address_not_found].
Proof.
  intros H Hi. destruct (list_field_cases _ _ H) as (v & Hget & Hv).
  unfold geocode_result. rewrite Hget.
  destruct Hv as [[Hn _]|(l & -> & Hl & _)].
  - now rewrite nullish_length.
  - rewrite length_truthy. rewrite Hi in Hl. now subst l.
Qed.

(** [route.<profile>?.[0]] is the first route of the profile. *)
Lemma route_head_first (route : value) (profile : string) :
  list_field route profile ->
  route_head route profile
  = Ok (match items route profile with r :: _ => r | [] => VUndef end)
  /\ (forall r rest, items route profile = r :: rest -> truthy r = true).
Proof.
  intros H. destruct (list_field_cases _ _ H) as (v & Hget & Hv).
  unfold route_head. rewrite Hget.
  destruct Hv as [[Hn Hi]|(l & -> & Hi & Hl)]; rewrite Hi.
  - split; [|discriminate]. destruct v; try discriminate; reflexivity.
  - split.
    + destruct l; reflexivity.
    + intros r rest ->. inversion Hl as [|? ? (f & ->)]. reflexivity.
Qed.

Lemma or_else_truthy (v : value) (b : result value) :
  truthy v = true -> or_else (Ok v) b = Ok v.
Proof. intros H. unfold or_else. now rewrite H. Qed.

Lemma or_else_undefined (b : result value) : or_else (Ok VUndef) b = b.
Proof. reflexivity. Qed.

(** The chain of [||] is the spec's scan in priority order. *)
Lemma best_route_selected (route : value) :
  Forall (list_field route) profile_priority ->
  best_route route
  = Ok (match selected_route route with Some r => r | None => VUndef end)
  /\ (forall r, selected_route route = Some r -> truthy r = true).
Proof.
  intros H. unfold profile_priority in H.
  inversion H as [|? ? H1 Ha]; subst. inversion Ha as [|? ? H2 Hb]; subst.
  inversion Hb as [|? ? H3 Hc]; subst. inversion Hc as [|? ? H4 _]; subst.
  destruct (route_head_first _ _ H1) as [E1 T1].
  destruct (route_head_first _ _ H2) as [E2 T2].
  destruct (route_head_first _ _ H3) as [E3 T3].
  destruct (route_head_first _ _ H4) as [E4 T4].
  unfold best_route, selected_route, profile_priority.
  rewrite E1, E2, E3, E4. cbn [map first_of_first_nonempty].
  destruct (items route "trafast") as [|r1 ?].
  2:{ rewrite !or_else_truthy by (eapply T1; reflexivity).
      split; [reflexivity|]. intros r Hr. inversion Hr; subst.
      eapply T1; reflexivity. }
  rewrite or_else_undefined.
  destruct (items route "traoptimal") as [|r2 ?].
  2:{ rewrite !or_else_truthy by (eapply T2; reflexivity).
      split; [reflexivity|]. intros r Hr. inversion Hr; subst.
      eapply T2; reflexivity. }
  rewrite or_else_undefined.
  destruct (items route "tracomfort") as [|r3 ?].
  2:{ rewrite !or_else_truthy by (eapply T3; reflexivity).
      split; [reflexivity|]. intros r Hr. inversion Hr; subst.
      eapply T3; reflexivity. }
  rewrite or_else_undefined.
  destruct (items route "trainormal") as [|r4 ?].
  2:{ split; [reflexivity|]. intros r Hr. inversion Hr; subst.
      eapply T4; reflexivity. }
  split; [reflexivity|discriminate].
Qed.

(** On a well-formed response, [naver_directions] formats the route the
    spec's scan selects. *)
Lemma directions_result_selected (data : value) :
  directions_response data ->
  directions_result data
  = match selected_route (field data "route") with
    | Some best => and_then (route_text best) (fun text => Ok [Text text])
    | None => Ok [Text route_not_found]
    end.
Proof.
  intros [(fields & ->) H]. unfold directions_result.
  change (get (VObj fields) "route") with (Ok (field (VObj fields) "route")).
  cbv iota. set (route := field (VObj fields) "route") in *.
  destruct H as [H|H].
  - destruct route; try discriminate; reflexivity.
  - assert (Hobj : is_object route).
    { inversion H as [|? ? (f & E & _) _]. now exists f. }
    destruct Hobj as (f & Ef). rewrite Ef in *. cbn [or truthy].
    destruct (best_route_selected _ H) as [E T]. rewrite E.
    destruct (selected_route (VObj f)) as [best|]; [|reflexivity].
    rewrite (T best eq_refl). cbn [negb and_then].
    destruct (route_text best); reflexivity.
Qed.

(** The conditional on an amount gives the text of the amount. *)
Lemma fare_amount_text (summary : value) (key : string)
      (amount : Datatypes.option Z) :
  is_object summary ->
  fare_amount (field summary key) amount ->
  exists text, fare summary key = Ok text /\ amount_text amount text.
Proof.
  intros (fields & ->) H. unfold fare.
  change (get (VObj fields) key) with (Ok (field (VObj fields) key)).
  cbv iota. destruct amount as [n|]; cbn [fare_amount] in H.
  - destruct H as [-> Hn].
    change (truthy (VNum (Num.of_Z n))) with (Num.truthy (Num.of_Z n)).
    rewrite of_Z_truthy.
    destruct (Z.eqb_spec n 0) as [->|Hz]; cbn [negb].
    + exists "0원". split; [reflexivity|]. exists "0". split; [reflexivity|].
      exists "0", []. repeat split; try (cbn; lia). constructor.
    + exists (Num.toLocaleString (Num.of_Z n) ++ "원"). split; [reflexivity|].
      exists (Num.toLocaleString (Num.of_Z n)). split; [reflexivity|].
      apply toLocaleString_whole. lia.
  - rewrite H. exists "0원". split; reflexivity.
Qed.

(** The text of a route whose summary has the expected fields. *)
Lemma route_text_summary (best summary : value) (metres milliseconds : Num.number)
      (toll fuel : Datatypes.option Z) :
  route_summary best summary metres milliseconds toll fuel ->
  exists tollFare fuelPrice,
    route_text best
    = Ok (route_template
            (ToString (field (field summary "start") "location"))
            (ToString (field (field summary "goal") "location"))
            (Num.toFixed 1 (Num.div metres (Num.of_Z 1000)) ++ "km")
            (Num.toString (Num.Math_round (Num.div milliseconds (Num.of_Z 60000)))
             ++ "분")
            tollFare fuelPrice)
    /\ amount_text toll tollFare
    /\ amount_text fuel fuelPrice.
Proof.
  intros ((bf & ->) & Hs & Hobj & Hd & Ht & Htoll & Hfuel & Hstart & Hgoal & _).
  destruct (fare_amount_text _ _ _ Hobj Htoll) as (tollFare & Etoll & Htt).
  destruct (fare_amount_text _ _ _ Hobj Hfuel) as (fuelPrice & Efuel & Hft).
  exists tollFare, fuelPrice. split; [|split; assumption].
  unfold route_text.
  change (destructure "best" (VObj bf) "summary") with (Ok (field (VObj bf) "summary")).
  rewrite Hs. cbv iota. rewrite Etoll, Efuel.
  destruct Hobj as (sf & ->).
  change (get (VObj sf) "distance") with (Ok (field (VObj sf) "distance")).
  change (get (VObj sf) "duration") with (Ok (field (VObj sf) "duration")).
  change (get (VObj sf) "start") with (Ok (field (VObj sf) "start")).
  change (get (VObj sf) "goal") with (Ok (field (VObj sf) "goal")).
  rewrite Hd, Ht. cbv iota.
  destruct Hstart as (f1 & ->). destruct Hgoal as (f2 & ->).
  reflexivity.
Qed.

(** An amount of 0 and a missing amount both take the default. *)
Lemma fare_zero (fields : list (string * value)) (key : string) (sign : bool) :
  assoc key fields = Some (VNum (S754_zero sign)) ->
  fare (VObj fields) key = Ok "0원".
Proof. intros H. unfold fare. cbn [get]. now rewrite H. Qed.

Lemma fare_missing (fields : list (string * value)) (key : string) :
  assoc key fields = None -> fare (VObj fields) key = Ok "0원".
Proof. intros H. unfold fare. cbn [get]. now rewrite H. Qed.

Lemma fare_same (fields fields' : list (string * value)) (key : string) :
  assoc key fields = assoc key fields' ->
  fare (VObj fields) key = fare (VObj fields') key.
Proof. intros H. unfold fare. cbn [get]. now rewrite H. Qed.

(** The text of a route reads six fields of the summary. *)
Lemma route_text_fields (best best' : value) (fields fields' : list (string * value)) :
  is_object best -> is_object best' ->
  field best "summary" = VObj fields ->
  field best' "summary" = VObj fields' ->
  Forall (fun k => assoc k fields = assoc k fields')
         ["distance"; "duration"; "start"; "goal"] ->
  fare (VObj fields) "tollFare" = fare (VObj fields') "tollFare" ->
  fare (VObj fields) "fuelPrice" = fare (VObj fields') "fuelPrice" ->
  route_text best = route_text best'.
Proof.
  intros (bf & ->) (bf' & ->) Hs Hs' Hk Htoll Hfuel.
  unfold route_text.
  change (destructure "best" (VObj bf) "summary") with (Ok (field (VObj bf) "summary")).
  change (destructure "best" (VObj bf') "summary") with (Ok (field (VObj bf') "summary")).
  rewrite Hs, Hs', Htoll, Hfuel. cbv iota.
  inversion Hk as [|? ? K1 Hk1]; subst. inversion Hk1 as [|? ? K2 Hk2]; subst.
  inversion Hk2 as [|? ? K3 Hk3]; subst. inversion Hk3 as [|? ? K4 _]; subst.
  cbn [get]. now rewrite K1, K2, K3, K4.
Qed.

(** What the gateway makes of an answer. *)
Lemma settle_answered (outcome : result Response) (data : value) :
  answered outcome data -> settle false outcome = Ok data.
Proof.
  intros (response & -> & Hok & Hjson). unfold settle.
  now rewrite Hok, Hjson.
Qed.

Lemma settle_answered_bytes (outcome : result Response) (buffer : list Byte.byte) :
  answered_bytes outcome buffer -> settle true outcome = Ok buffer.
Proof.
  intros (response & -> & Hok & Hbytes). unfold settle.
  now rewrite Hok, Hbytes.
Qed.

Lemma settle_not_ok (expectBinary : bool) (response : Response) :
  ok response = false ->
  settle expectBinary (Ok response) = Throw (Error (api_error response)).
Proof. intros H. unfold settle. now rewrite H. Qed.

(** A geocoding call that is answered resolves as the spec says. *)
Lemma geocoding_step (input : string) (outcome : result Response) (data : value) :
  answered outcome data -> list_field data "addresses" ->
  and_then (settle false outcome) (resolved input) = Ok (geocoded input data).
Proof.
  intros Ha Hl. rewrite (settle_answered _ _ Ha). cbn [and_then].
  now apply resolved_geocoded.
Qed.

End Responses.

(* ================================================================== *)
(** ** How the handlers run *)
(* ================================================================== *)

Section Runs.

Import Js Server Spec.

Variable config : Config.
Variable net : Network.

(** One gateway call is one exchange, and what the call returns is
    determined by the outcome of that exchange. *)
Lemma makeNaverAPIRequest_run endpoint params expectBinary log :
  makeNaverAPIRequest config net endpoint params expectBinary log
  = (settle expectBinary (net log (request config endpoint params)),
     (log ++ [(request config endpoint params,
               net log (request config endpoint params))])%list).
Proof.
  unfold makeNaverAPIRequest, bind, fetch, settle.
  destruct (net log (request config endpoint params)) as [response|e];
    [|reflexivity].
  destruct (negb (ok response)); [reflexivity|].
  destruct expectBinary; reflexivity.
Qed.

(** A gateway call followed by code that makes no request, inside the
    [try] of a handler, is a last call. *)
Lemma try_last_call endpoint params expectBinary
      (finish : payload expectBinary -> result CallToolResult) log :
  try_catch (data <- makeNaverAPIRequest config net endpoint params expectBinary ;;
             lift (finish data)) (report) log
  = last_call net expectBinary (request config endpoint params) finish log.
Proof.
  unfold try_catch, bind, last_call. rewrite makeNaverAPIRequest_run.
  destruct (settle expectBinary (net log (request config endpoint params)))
    as [data|e]; cbn [and_then reported]; [|reflexivity].
  unfold lift. destruct (finish data); reflexivity.
Qed.

(** The four handlers, read as sequences of calls. *)
Lemma naver_geocode_run address log :
  naver_geocode config net address log
  = last_call net false (geocode_request config address) geocode_result log.
Proof. apply try_last_call. Qed.

Lemma naver_reverse_geocode_run lat lng log :
  naver_reverse_geocode config net lat lng log
  = last_call net false (reverse_request config lat lng) (reverse_result lat lng) log.
Proof. apply try_last_call. Qed.

(** A geocoding step followed by the rest of the body. *)
Lemma try_after_geocode input (resolve : value -> result string)
      (rest : string -> M CallToolResult) log :
  try_catch
    (coords <- (if negb (isCoordinate input) then
                  geo <- makeNaverAPIRequest config net geocode_endpoint
                           [("query", VStr input)] false ;;
                  lift (resolve geo)
                else ret input) ;;
     rest coords) report log
  = after_geocode config net input resolve
                  (fun coords => try_catch (rest coords) report) log.
Proof.
  unfold try_catch at 1, bind at 1, after_geocode.
  destruct (isCoordinate input); cbn [negb].
  - reflexivity.
  - unfold bind. rewrite makeNaverAPIRequest_run.
    fold (geocode_request config input).
    destruct (settle false (net log (geocode_request config input)))
      as [geo|e]; cbn [and_then]; [|reflexivity].
    unfold lift. destruct (resolve geo); reflexivity.
Qed.

(** A geocoding step only depends on what its continuation does. *)
Lemma after_geocode_ext input resolve (next1 next2 : string -> M CallToolResult) log :
  (forall coords log', next1 coords log' = next2 coords log') ->
  after_geocode config net input resolve next1 log
  = after_geocode config net input resolve next2 log.
Proof.
  intros H. unfold after_geocode.
  destruct (isCoordinate input); [apply H|].
  destruct (and_then _ _); [apply H|reflexivity].
Qed.

Lemma naver_static_map_run center level w h format log :
  naver_static_map config net center level w h format log
  = after_geocode config net center resolved_or_fail
      (fun centerCoords =>
         last_call net true
           (static_request config centerCoords level w h format)
           (fun buffer => Ok (static_result centerCoords level w h format buffer)))
      log.
Proof.
  unfold naver_static_map. rewrite try_after_geocode.
  apply after_geocode_ext. intros c l.
  apply (try_last_call static_endpoint _ true
           (fun buffer => Ok (static_result c level w h format buffer))).
Qed.

Lemma naver_directions_run start goal option waypoints log :
  naver_directions config net start goal option waypoints log
  = after_geocode config net start (resolved start)
      (fun startCoords =>
         after_geocode config net goal (resolved goal)
           (fun goalCoords =>
              last_call net false
                (directions_request config startCoords goalCoords option waypoints)
                directions_result))
      log.
Proof.
  unfold naver_directions, geocode_if_not_coordinate.
  rewrite try_after_geocode.
  apply after_geocode_ext. intros s l.
  rewrite try_after_geocode.
  apply after_geocode_ext. intros g l'.
  apply try_last_call.
Qed.

(** The two ways a geocoding step ends: the handler reports the
    exception of the step, or goes on with the coordinates. *)
Lemma after_geocode_cases input resolve next log res log' :
  after_geocode config net input resolve next log = (res, log') ->
  (exists e,
      isCoordinate input = false
      /\ and_then (settle false (net log (geocode_request config input))) resolve
         = Throw e
      /\ res = Ok [Text (error_text e)]
      /\ log' = (log ++ geocode_calls config net input log)%list)
  \/ (exists coords,
         (if isCoordinate input then coords = input
          else and_then (settle false (net log (geocode_request config input)))
                        resolve = Ok coords)
         /\ next coords (log ++ geocode_calls config net input log)%list = (res, log')).
Proof.
  unfold after_geocode, geocode_calls.
  destruct (isCoordinate input).
  - intros H. right. exists input. rewrite app_nil_r. now split.
  - destruct (and_then _ _) as [coords|e] eqn:E; intros H.
    + right. exists coords. now split.
    + left. exists e. inversion H. now repeat split.
Qed.

(** A log that ends with an exchange at another endpoint does not end
    with a geocoding call. *)
Lemma not_last_geocode input log before req (outcome : result Response) :
  isCoordinate input = false ->
  (log ++ geocode_calls config net input log)%list
  = (before ++ [(req, outcome)])%list ->
  endpoint req = geocode_endpoint.
Proof.
  unfold geocode_calls. intros ->. intros H.
  apply app_inj_tail in H. destruct H as [_ H]. now inversion H.
Qed.

(** The only exchange of a last call is the last of the log. *)
Lemma last_call_inv expectBinary req finish log res before req' outcome :
  last_call net expectBinary req finish log = (res, (before ++ [(req', outcome)])%list) ->
  before = log /\ req' = req /\ outcome = net log req
  /\ res = Ok (reported (and_then (settle expectBinary outcome) finish)).
Proof.
  unfold last_call. intros H. inversion H as [[Hres Hlog]].
  apply app_inj_tail in Hlog. destruct Hlog as [-> Hlast].
  inversion Hlast; subst. now repeat split.
Qed.

(** When the log of [naver_directions] ends with an exchange at the
    directions endpoint, the result is made from the outcome of that
    exchange. *)
Lemma directions_outcome start goal option waypoints res before req outcome :
  run (naver_directions config net start goal option waypoints)
  = (res, (before ++ [(req, outcome)])%list) ->
  endpoint req = directions_endpoint ->
  res = Ok (reported (and_then (settle false outcome) directions_result)).
Proof.
  unfold run. rewrite naver_directions_run. intros H Hend.
  apply after_geocode_cases in H.
  destruct H as [(e & Hc & _ & _ & Hlog)|(s & _ & H)].
  { symmetry in Hlog. apply not_last_geocode in Hlog; [|exact Hc].
    rewrite Hend in Hlog. discriminate. }
  apply after_geocode_cases in H.
  destruct H as [(e & Hc & _ & _ & Hlog)|(g & _ & H)].
  { symmetry in Hlog. apply not_last_geocode in Hlog; [|exact Hc].
    rewrite Hend in Hlog. discriminate. }
  apply last_call_inv in H. now destruct H as (_ & _ & _ & ->).
Qed.

Lemma directions_answered start goal option waypoints res before req outcome data :
  run (naver_directions config net start goal option waypoints)
  = (res, (before ++ [(req, outcome)])%list) ->
  endpoint req = directions_endpoint ->
  answered outcome data ->
  res = Ok (reported (directions_result data)).
Proof.
  intros H Hend Ha. rewrite (directions_outcome _ _ _ _ _ _ _ _ H Hend).
  now rewrite (settle_answered _ _ Ha).
Qed.

(** When the log of [naver_static_map] ends with an exchange at the
    raster endpoint, the result is made from the outcome of that
    exchange. *)
Lemma static_map_outcome center level w h format res before req outcome :
  run (naver_static_map config net center level w h format)
  = (res, (before ++ [(req, outcome)])%list) ->
  endpoint req = static_endpoint ->
  exists centerCoords,
    res = Ok (reported (and_then (settle true outcome)
                (fun buffer => Ok (static_result centerCoords level w h format buffer)))).
Proof.
  unfold run. rewrite naver_static_map_run. intros H Hend.
  apply after_geocode_cases in H.
  destruct H as [(e & Hc & _ & _ & Hlog)|(c & _ & H)].
  { symmetry in Hlog. apply not_last_geocode in Hlog; [|exact Hc].
    rewrite Hend in Hlog. discriminate. }
  apply last_call_inv in H. destruct H as (_ & _ & _ & ->). now exists c.
Qed.

(** Last calls and geocoding steps report transport errors, and so does
    every tool. *)
Lemma last_call_reports expectBinary endpoint params finish :
  reports_transport_errors config net
    (last_call net expectBinary (request config endpoint params) finish).
Proof.
  intros log res log' H. unfold last_call in H.
  injection H as Hres Hlog. subst res log'.
  eexists. split; [reflexivity|].
  intros before req response after Hnew Hok.
  destruct before as [|x before]; cbn [app] in Hnew.
  - injection Hnew as Hreq Hout Hafter. subst req after.
    rewrite app_nil_r. split; [reflexivity|]. split; [exact Hout|].
    split; [now exists endpoint, params|].
    rewrite Hout, (settle_not_ok _ _ Hok). reflexivity.
  - injection Hnew as Hx Hnil. now destruct before.
Qed.

Lemma after_geocode_reports input resolve next :
  (forall coords, reports_transport_errors config net (next coords)) ->
  reports_transport_errors config net (after_geocode config net input resolve next).
Proof.
  intros Hnext log res log' H.
  apply after_geocode_cases in H.
  destruct H as [(e & Hc & Hthrow & -> & ->)|(coords & Hcoords & H)].
  - eexists. split; [reflexivity|].
    intros before req response after Hnew Hok.
    unfold geocode_calls in Hnew. rewrite Hc in Hnew.
    destruct before as [|x before]; cbn [app] in Hnew.
    + injection Hnew as Hreq Hout Hafter. subst req after.
      rewrite app_nil_r. split; [reflexivity|]. split; [exact Hout|].
      split; [now eexists _, _|].
      rewrite Hout, (settle_not_ok _ _ Hok) in Hthrow.
      cbn [and_then] in Hthrow. now injection Hthrow as ->.
    + injection Hnew as Hx Hnil. now destruct before.
  - destruct (Hnext coords _ _ _ H) as (new & -> & Hnew').
    exists (geocode_calls config net input log ++ new)%list.
    split; [now rewrite app_assoc|].
    intros before req response after Hnew Hok.
    unfold geocode_calls in *. destruct (isCoordinate input) eqn:Hc.
    + cbn [app] in Hnew. rewrite app_nil_r in Hnew'.
      now apply Hnew'.
    + destruct before as [|x before]; cbn [app] in Hnew.
      * injection Hnew as Hreq Hout Hafter.
        rewrite Hout, (settle_not_ok _ _ Hok) in Hcoords. discriminate.
      * injection Hnew as Hx Hrest.
        destruct (Hnew' _ _ _ _ Hrest Hok) as (Ha & Hn & Hr & Hres).
        split; [exact Ha|]. split; [|split; assumption].
        rewrite <- Hn. f_equal. rewrite <- app_assoc. subst x. reflexivity.
Qed.

Lemma call_reports (c : ToolCall) :
  reports_transport_errors config net (call config net c).
Proof.
  destruct c as [start goal option waypoints|address|lat lng|center level w h format];
    intros log res log' H; cbn [call] in H.
  - rewrite naver_directions_run in H. revert log res log' H.
    apply after_geocode_reports. intros s.
    apply after_geocode_reports. intros g.
    apply last_call_reports.
  - rewrite naver_geocode_run in H. revert log res log' H.
    apply last_call_reports.
  - rewrite naver_reverse_geocode_run in H. revert log res log' H.
    apply last_call_reports.
  - rewrite naver_static_map_run in H. revert log res log' H.
    apply after_geocode_reports. intros c.
    apply last_call_reports.
Qed.

End Runs.

(* ================================================================== *)
(** ** The claims *)
(* ================================================================== *)

Section Claims.

Import Js Server Spec.

(** The classifier reads the first two parts of the split and nothing
    else. *)
Lemma isCoordinate_first_two_parts (str a b : string) (rest : list string) :
  Str.split Str.comma str = a :: b :: rest ->
  Server.isCoordinate str
  = Spec.in_range (Num.parseFloat (Str.trim a)) (Num.parseFloat (Str.trim b)).
Proof. intros H. unfold Server.isCoordinate. rewrite H. reflexivity. Qed.

Lemma isCoordinate_one_part (str a : string) :
  Str.split Str.comma str = [a] -> Server.isCoordinate str = false.
Proof.
  intros H. unfold Server.isCoordinate. rewrite H. cbn [map nth].
  change (Js.isNaN Js.VUndef) with true.
  now destruct (negb (Js.isNaN (Js.VNum (Num.parseFloat (Str.trim a))))).
Qed.

(** On a string with at most one comma the classifier is the one the
    spec describes. *)
Lemma isCoordinate_classifier (str : string) :
  (List.length (Str.split Str.comma str) <= 2)%nat ->
  Server.isCoordinate str = Spec.classifier str.
Proof.
  intros H. unfold Spec.classifier.
  destruct (Str.split Str.comma str) as [|a [|b [|c rest]]] eqn:E.
  - now apply split_nonempty in E.
  - now apply isCoordinate_one_part with a.
  - now apply isCoordinate_first_two_parts with [].
  - simpl in H. lia.
Qed.

(** C1. The hardened classifier accepts "1,2,3", a string with two
    commas: it reads the first two parts of the split and ignores the
    others.  The classifier the spec describes rejects the string, and so
    do the earlier revisions of the function, which require exactly two
    parts. *)
Theorem isCoordinate_accepts_more_than_two_parts :
  isCoordinate "1,2,3" = true
  /\ Str.split Str.comma "1,2,3" = ["1"; "2"; "3"]
  /\ classifier "1,2,3" = false
  /\ isCoordinate_unhardened "1,2,3" = false.
Proof. repeat split; vm_compute; reflexivity. Qed.

(** C2. For every directions response, the handler takes its route by
    scanning the four profile lists in the order trafast, traoptimal,
    tracomfort, trainormal and taking the first route of the first list
    that is not empty, whatever [option] the caller asked for: when the
    log of the call ends with the exchange at the directions endpoint and
    that exchange was answered with the well-formed [data], the result is
    the text of the route the scan selects (or the report of the
    exception met while formatting it), and the not-found text when all
    four lists are empty.  [option] does not occur in the result. *)
Theorem route_selected_by_fixed_priority :
  forall config net start goal option waypoints res before req outcome data,
    run (naver_directions config net start goal option waypoints)
    = (res, (before ++ [(req, outcome)])%list) ->
    endpoint req = directions_endpoint ->
    answered outcome data ->
    directions_response data ->
    res = Ok (match selected_route (field data "route") with
              | Some best =>
                  reported (and_then (route_text best) (fun text => Ok [Text text]))
              | None => [Text route_not_found]
              end).
Proof.
  intros config net start goal option waypoints res before req outcome data
         Hrun Hend Ha Hd.
  rewrite (directions_answered _ _ _ _ _ _ _ _ _ _ _ Hrun Hend Ha).
  rewrite (directions_result_selected _ Hd).
  now destruct (selected_route (field data "route")).
Qed.

(** C2 on a response in which only [tracomfort] has a route, asked with
    [option = trafast]: the comfortable route is returned. *)
Lemma route_selected_witness :
  fst (run (naver_directions Examples.config
              (Examples.healthy Examples.one_candidate
                 (Examples.comfort_only Examples.summary_fields))
              "127.0,37.5" "129.0,35.1" trafast None))
  = Ok (reported
          (and_then (route_text (Examples.route_with Examples.summary_fields))
                    (fun text => Ok [Text text]))).
Proof.
  set (net := Examples.healthy Examples.one_candidate
                (Examples.comfort_only Examples.summary_fields)).
  set (req := directions_request Examples.config "127.0,37.5" "129.0,35.1"
                                 trafast None).
  apply (route_selected_by_fixed_priority
           Examples.config net "127.0,37.5" "129.0,35.1" trafast None
           _ [] req (net [] req)
           (Examples.comfort_only Examples.summary_fields)).
  - vm_compute. reflexivity.
  - reflexivity.
  - shape.
  - split; [shape|]. right. shape.
Defined.

(** C3. For every gateway call answered with a status that is not a
    success, the gateway throws an error whose message carries the
    status code and the reason phrase, so its caller receives no value;
    the call is the last one the handler makes, and the handler returns
    (it does not throw) the text that reports this error, which contains
    the status code. *)
Theorem transport_error_is_reported :
  forall config net c res log req response,
    run (call config net c) = (res, log) ->
    In (req, Ok response) log ->
    ok response = false ->
    (exists before endpoint params,
        log = (before ++ [(req, Ok response)])%list
        /\ req = request config endpoint params
        /\ forall expectBinary,
             makeNaverAPIRequest config net endpoint params expectBinary before
             = (Throw (Error ("네이버 API 오류: " ++ Str.of_Z (status response)
                              ++ " " ++ statusText response)), log))
    /\ res = Ok [Text ("오류 발생: " ++ "네이버 API 오류: "
                       ++ Str.of_Z (status response) ++ " " ++ statusText response)]
    /\ Str.contains (Str.of_Z (status response))
                    ("오류 발생: " ++ "네이버 API 오류: "
                     ++ Str.of_Z (status response) ++ " " ++ statusText response)
       = true.
Proof.
  intros config net c res log req response Hrun Hin Hok.
  destruct (call_reports config net c _ _ _ Hrun) as (new & Hlog & Hnew).
  cbn [app] in Hlog. subst new.
  destruct (in_split _ _ Hin) as (before & after & Hsplit).
  destruct (Hnew _ _ _ _ Hsplit Hok) as (-> & Hnet & (endpoint & params & Hreq) & Hres).
  cbn [app] in Hnet.
  split; [|split].
  - exists before, endpoint, params. split; [exact Hsplit|]. split; [exact Hreq|].
    intros expectBinary. rewrite makeNaverAPIRequest_run, <- Hreq, Hnet.
    rewrite (settle_not_ok _ _ Hok), Hsplit. reflexivity.
  - exact Hres.
  - apply (contains_app ("오류 발생: " ++ "네이버 API 오류: ")
                        (Str.of_Z (status response))
                        (" " ++ statusText response)).
Qed.

(** C3 on a provider that answers 403 Forbidden. *)
Lemma transport_error_witness :
  fst (run (call Examples.config Examples.forbidden (Geocode "Seoul")))
  = Ok [Text ("오류 발생: " ++ "네이버 API 오류: " ++ "403" ++ " " ++ "Forbidden")].
Proof.
  set (req := geocode_request Examples.config "Seoul").
  set (response := {| status := 403; statusText := "Forbidden";
                      json := Ok VNull; arrayBuffer := [] |}).
  apply (transport_error_is_reported
           Examples.config Examples.forbidden (Geocode "Seoul")
           _ [(req, Ok response)] req response).
  - vm_compute. reflexivity.
  - left. reflexivity.
  - reflexivity.
Defined.

(** C4. In the directions handler, for [start] and then for [goal]: an
    input the classifier accepts causes no geocoding call and is passed
    to the directions endpoint unchanged; an input it rejects causes
    exactly one geocoding call, and what is passed on is ["<lon>,<lat>"]
    of the first candidate when there is one, the input itself when
    there is none.  So the log of the handler is the geocoding calls of
    [start], those of [goal], and the directions call with the resolved
    values; with two coordinates it is the directions call alone.  The
    geocoding calls are answered with a well-formed response, in which
    the coordinates of the first candidate can be printed (a candidate
    whose [x] or [y] cannot makes the handler report a TypeError). *)
Theorem directions_geocodes_only_non_coordinates :
  forall config net start goal option waypoints data_s data_g,
    (isCoordinate start = false ->
     answered (net [] (geocode_request config start)) data_s
     /\ geocoding_response data_s) ->
    (isCoordinate goal = false ->
     answered (net (geocode_calls config net start [])
                   (geocode_request config goal)) data_g
     /\ geocoding_response data_g) ->
    let calls_s := geocode_calls config net start [] in
    let calls_g := geocode_calls config net goal calls_s in
    let startCoords := if isCoordinate start then start
                       else geocoded start data_s in
    let goalCoords := if isCoordinate goal then goal
                      else geocoded goal data_g in
    let req := directions_request config startCoords goalCoords option waypoints in
    snd (run (naver_directions config net start goal option waypoints))
    = (calls_s ++ calls_g ++ [(req, net (calls_s ++ calls_g) req)])%list
    /\ List.length calls_s = (if isCoordinate start then 0 else 1)%nat
    /\ List.length calls_g = (if isCoordinate goal then 0 else 1)%nat
    /\ firstn 2 (searchParams req)
       = [("start", startCoords); ("goal", goalCoords)].
Proof.
  intros config net start goal option waypoints data_s data_g Hs Hg.
  cbv zeta. split; [|split; [|split]].
  - unfold run. rewrite naver_directions_run.
    unfold after_geocode, last_call, geocode_calls in *.
    destruct (isCoordinate start).
    + destruct (isCoordinate goal); [reflexivity|].
      destruct (Hg eq_refl) as [Ha [Hl _]].
      cbn [app] in *. now rewrite (geocoding_step _ _ _ Ha Hl).
    + destruct (Hs eq_refl) as [Ha [Hl _]].
      cbn [app] in *. rewrite (geocoding_step _ _ _ Ha Hl).
      destruct (isCoordinate goal); [reflexivity|].
      destruct (Hg eq_refl) as [Ha' [Hl' _]].
      cbn [app] in *. now rewrite (geocoding_step _ _ _ Ha' Hl').
  - unfold geocode_calls. now destruct (isCoordinate start).
  - unfold geocode_calls. now destruct (isCoordinate goal).
  - reflexivity.
Qed.

(** C4 on two addresses, each geocoded to one candidate. *)
Lemma directions_geocodes_witness :
  snd (run (naver_directions Examples.config
              (Examples.healthy Examples.one_candidate Examples.no_routes)
              "Seoul" "Busan" trafast None))
  = (let net := Examples.healthy Examples.one_candidate Examples.no_routes in
     let req := directions_request Examples.config "127,37.5" "127,37.5"
                                   trafast None in
     [(geocode_request Examples.config "Seoul",
       net [] (geocode_request Examples.config "Seoul"));
      (geocode_request Examples.config "Busan",
       net [] (geocode_request Examples.config "Busan"));
      (req, net [] req)]).
Proof.
  apply (directions_geocodes_only_non_coordinates
           Examples.config
           (Examples.healthy Examples.one_candidate Examples.no_routes)
           "Seoul" "Busan" trafast None
           Examples.one_candidate Examples.one_candidate).
  - intros _. shape.
  - intros _. shape.
Defined.

(** The spec's end-to-end case of the directions tool: with the two
    coordinates "127.0,37.5" and "129.0,35.1" the only call, whatever the
    provider, is the directions call with these two strings. *)
Example directions_end_to_end :
  forall config net,
    snd (run (naver_directions config net "127.0,37.5" "129.0,35.1" trafast None))
    = [(directions_request config "127.0,37.5" "129.0,35.1" trafast None,
        net [] (directions_request config "127.0,37.5" "129.0,35.1" trafast None))]
    /\ searchParams (directions_request config "127.0,37.5" "129.0,35.1" trafast None)
       = [("start", "127.0,37.5"); ("goal", "129.0,35.1"); ("option", "trafast")].
Proof.
  intros config net. split; [|reflexivity].
  unfold run. rewrite naver_directions_run. unfold after_geocode.
  replace (isCoordinate "127.0,37.5") with true by (vm_compute; reflexivity).
  replace (isCoordinate "129.0,35.1") with true by (vm_compute; reflexivity).
  reflexivity.
Qed.

(** C5 as the claim states it, of every provider call, fails on the
    static-map handler: its geocoding call for the address "Seoul" is
    answered with zero candidates, and the handler returns the report of
    the error it raises there, which is an error message and none of the
    not-found texts. *)
Lemma empty_result_counterexample :
  In (geocode_request Examples.config "Seoul",
      Examples.silent [] (geocode_request Examples.config "Seoul"))
     (snd (run (call Examples.config Examples.silent
                  (StaticMap "Seoul" Examples.six Examples.four_hundred
                             Examples.four_hundred png))))
  /\ answered (Examples.silent [] (geocode_request Examples.config "Seoul"))
              Examples.no_candidates
  /\ empty_answer (geocode_request Examples.config "Seoul") Examples.no_candidates
  /\ fst (run (call Examples.config Examples.silent
                 (StaticMap "Seoul" Examples.six Examples.four_hundred
                            Examples.four_hundred png)))
     = Ok [Text (error_text (Error "지오코딩 결과가 없습니다."))]
  /\ ~ not_found_whenever_empty Examples.config Examples.silent
        (StaticMap "Seoul" Examples.six Examples.four_hundred
                   Examples.four_hundred png).
Proof.
  assert (Hrun : run (call Examples.config Examples.silent
                        (StaticMap "Seoul" Examples.six Examples.four_hundred
                                   Examples.four_hundred png))
                 = (Ok [Text (error_text (Error "지오코딩 결과가 없습니다."))],
                    [(geocode_request Examples.config "Seoul",
                      Examples.silent [] (geocode_request Examples.config "Seoul"))]))
    by (vm_compute; reflexivity).
  assert (Ha : answered (Examples.silent [] (geocode_request Examples.config "Seoul"))
                        Examples.no_candidates) by shape.
  assert (He : empty_answer (geocode_request Examples.config "Seoul")
                            Examples.no_candidates) by (left; shape).
  rewrite Hrun. cbn [fst snd].
  split; [left; reflexivity|]. split; [exact Ha|]. split; [exact He|].
  split; [reflexivity|].
  intros H.
  destruct (H _ _ _ _ _ Hrun (or_introl eq_refl) Ha He) as (text & Htext & Hne).
  injection Htext as <-.
  exact (Hne (Error "지오코딩 결과가 없습니다.") eq_refl).
Qed.

(** C5, as amended. When the provider answers the call of the geocode
    handler with zero candidates, or the directions call of the
    directions handler with zero routes, the handler returns (it does
    not throw) the fixed not-found text of that handler, and that text
    does not have the form of an error message.  (What the handlers do
    when a geocoding call made before the main call has no candidate is
    the matter of C4 and C8.) *)
Theorem empty_result_is_not_found :
  forall config net c res before req outcome data text,
    run (call config net c) = (res, (before ++ [(req, outcome)])%list) ->
    answered outcome data ->
    empty_result c req data text ->
    res = Ok [Text text]
    /\ (text = "주소를 찾을 수 없습니다." \/ text = "경로를 찾을 수 없습니다.")
    /\ forall e, text <> error_text e.
Proof.
  intros config net c res before req outcome data text Hrun Ha He.
  destruct He as [address req data Hl Hi|start goal option waypoints req data Hend Hd Hs].
  - cbn [call] in Hrun. unfold run in Hrun. rewrite naver_geocode_run in Hrun.
    apply last_call_inv in Hrun. destruct Hrun as (_ & _ & _ & ->).
    rewrite (settle_answered _ _ Ha). cbn [and_then].
    rewrite (geocode_result_empty _ Hl Hi).
    split; [reflexivity|]. split; [now left|].
    intros e. unfold error_text, address_not_found. intros H.
    apply (f_equal (fun s => String.get 1 s)) in H. discriminate.
  - cbn [call] in Hrun.
    rewrite (directions_answered _ _ _ _ _ _ _ _ _ _ _ Hrun Hend Ha).
    rewrite (directions_result_selected _ Hd), Hs.
    split; [reflexivity|]. split; [now right|].
    intros e. unfold error_text, route_not_found. intros H.
    apply (f_equal (fun s => String.get 0 s)) in H. discriminate.
Qed.

(** C5, as amended, on a geocoding answer without candidates. *)
Lemma empty_result_witness :
  fst (run (call Examples.config
              (Examples.healthy Examples.no_candidates Examples.no_routes)
              (Geocode "nowhere")))
  = Ok [Text "주소를 찾을 수 없습니다."].
Proof.
  set (net := Examples.healthy Examples.no_candidates Examples.no_routes).
  set (req := geocode_request Examples.config "nowhere").
  apply (empty_result_is_not_found
           Examples.config net (Geocode "nowhere")
           _ [] req (net [] req) Examples.no_candidates address_not_found).
  - vm_compute. reflexivity.
  - shape.
  - apply no_candidate; shape.
Defined.

(** The spec's end-to-end case of the geocode tool: a provider with one
    candidate [{x: 127.0, y: 37.5, roadAddress: "Teheran-ro"}] gives a
    text with the road address and the coordinates, latitude first. *)
Example geocode_end_to_end :
  exists text,
    fst (run (naver_geocode Examples.config
                (Examples.healthy Examples.one_candidate Examples.no_routes)
                "서울특별시 강남구"))
    = Ok [Text text]
    /\ Str.contains "Teheran-ro" text = true
    /\ Str.contains "37.5, 127" text = true.
Proof. eexists. repeat split; vm_compute; reflexivity. Qed.

(** C6. For every [lat] and [lng], the reverse-geocode handler makes one
    request, whose query parameter [coords] is ["<lng>,<lat>"]
    (longitude first, the reverse of the input order); and when the
    answer has a first result whose [text] can be printed, the handler
    returns that text label with the input coordinates in the order
    [lat], [lng]. *)
Theorem reverse_geocode_swaps_coordinates :
  forall config net lat lng res log,
    run (naver_reverse_geocode config net lat lng) = (res, log) ->
    exists req outcome,
      log = [(req, outcome)]
      /\ endpoint req = reverse_endpoint
      /\ searchParams req
         = [("coords", Num.toString lng ++ "," ++ Num.toString lat);
            ("output", "json")]
      /\ forall data first rest,
           answered outcome data ->
           list_field data "results" ->
           items data "results" = first :: rest ->
           printable (field first "text") = true ->
           res = Ok [Text ("🌐 좌표: " ++ Num.toString lat ++ ", " ++ Num.toString lng
                           ++ Str.nl ++ "📍 주소: " ++ ToString (field first "text"))].
Proof.
  intros config net lat lng res log Hrun.
  unfold run in Hrun. rewrite naver_reverse_geocode_run in Hrun.
  exists (reverse_request config lat lng),
         (net [] (reverse_request config lat lng)).
  unfold last_call in Hrun. inversion Hrun as [[Hres Hlog]]. clear Hrun.
  split; [reflexivity|]. split; [reflexivity|]. split; [reflexivity|].
  intros data first rest Ha Hl Hi _.
  rewrite (settle_answered _ _ Ha). cbn [and_then].
  destruct (list_field_cases _ _ Hl) as (v & Hget & Hv).
  unfold reverse_result. rewrite Hget.
  destruct Hv as [[_ Hn]|(l & -> & Hl' & Hobj)]; [congruence|].
  rewrite length_truthy. rewrite Hi in Hl'. subst l.
  inversion Hobj as [|? ? (f & ->) _]. reflexivity.
Qed.

(** C6 on latitude 37.5 and longitude 127, answered with one result. *)
Lemma reverse_geocode_witness :
  exists req outcome,
    run (naver_reverse_geocode Examples.config
           (Examples.healthy Examples.no_candidates Examples.no_routes)
           (Num.parseFloat "37.5") (Num.parseFloat "127"))
    = (Ok [Text ("🌐 좌표: " ++ "37.5" ++ ", " ++ "127" ++ Str.nl
                 ++ "📍 주소: " ++ "Bundang-gu")],
       [(req, outcome)])
    /\ searchParams req = [("coords", "127,37.5"); ("output", "json")].
Proof.
  set (net := Examples.healthy Examples.no_candidates Examples.no_routes).
  destruct (reverse_geocode_swaps_coordinates
              Examples.config net (Num.parseFloat "37.5") (Num.parseFloat "127")
              _ _ (surjective_pairing _))
    as (req & outcome & Hlog & _ & Hparams & Hres).
  exists req, outcome. split; [|exact Hparams].
  assert (Ho : outcome = net [] (reverse_request Examples.config
                                   (Num.parseFloat "37.5") (Num.parseFloat "127"))).
  { unfold run in Hlog. rewrite naver_reverse_geocode_run in Hlog.
    unfold last_call in Hlog. cbn [snd app] in Hlog. now injection Hlog as _ <-. }
  rewrite (surjective_pairing (run _)), Hlog.
  rewrite (Hres Examples.one_result (VObj [("text", VStr "Bundang-gu")]) []).
  - reflexivity.
  - rewrite Ho. shape.
  - shape.
  - reflexivity.
  - reflexivity.
Defined.

(** C7. When the directions handler finds a route whose summary has a
    distance in metres, a duration in milliseconds, the two amounts
    (each a whole number below 2^53, or missing) and the resolved start
    and goal with labels that can be printed, its result is the text
    made of: the distance divided by 1000 with one decimal and the
    suffix "km"; the duration divided by 60000, rounded to the nearest
    integer, with the suffix "분"; each amount as its digits with
    thousands separators and the suffix "원", and "0원" when it is
    missing; and the [location] labels of the summary's start and goal.
    The separators are those of a host whose locale is en-US or ko-KR
    (the code names no locale). *)
Theorem route_fields_derived :
  forall config net start goal option waypoints res before req outcome data
         best summary metres milliseconds toll fuel,
    run (naver_directions config net start goal option waypoints)
    = (res, (before ++ [(req, outcome)])%list) ->
    endpoint req = directions_endpoint ->
    answered outcome data ->
    directions_response data ->
    selected_route (field data "route") = Some best ->
    route_summary best summary metres milliseconds toll fuel ->
    exists tollFare fuelPrice,
      res = Ok [Text (route_template
                        (ToString (field (field summary "start") "location"))
                        (ToString (field (field summary "goal") "location"))
                        (Num.toFixed 1 (Num.div metres (Num.of_Z 1000)) ++ "km")
                        (Num.toString
                           (Num.Math_round (Num.div milliseconds (Num.of_Z 60000)))
                         ++ "분")
                        tollFare fuelPrice)]
      /\ amount_text toll tollFare
      /\ amount_text fuel fuelPrice.
Proof.
  intros config net start goal option waypoints res before req outcome data
         best summary metres milliseconds toll fuel Hrun Hend Ha Hd Hsel Hsum.
  rewrite (directions_answered _ _ _ _ _ _ _ _ _ _ _ Hrun Hend Ha).
  rewrite (directions_result_selected _ Hd), Hsel.
  destruct (route_text_summary _ _ _ _ _ _ Hsum) as (tollFare & fuelPrice & E & Ht & Hf).
  exists tollFare, fuelPrice. rewrite E. split; [reflexivity|]. split; assumption.
Qed.

(** C7 on a route of 12345 m and 1234567 ms with a toll fare of 1200
    and no fuel price. *)
Lemma route_fields_witness :
  exists tollFare fuelPrice,
    fst (run (naver_directions Examples.config
                (Examples.healthy Examples.one_candidate
                   (Examples.comfort_only Examples.summary_fields))
                "127.0,37.5" "129.0,35.1" trafast None))
    = Ok [Text (route_template "127,37.5" "129,35.1"
                               "12.3km" "21분" tollFare fuelPrice)]
    /\ amount_text (Some 1200) tollFare
    /\ amount_text None fuelPrice.
Proof.
  set (net := Examples.healthy Examples.one_candidate
                (Examples.comfort_only Examples.summary_fields)).
  set (req := directions_request Examples.config "127.0,37.5" "129.0,35.1"
                                 trafast None).
  destruct (route_fields_derived
              Examples.config net "127.0,37.5" "129.0,35.1" trafast None
              (fst (run (naver_directions Examples.config net "127.0,37.5"
                           "129.0,35.1" trafast None)))
              [] req (net [] req)
              (Examples.comfort_only Examples.summary_fields)
              (Examples.route_with Examples.summary_fields)
              (VObj Examples.summary_fields)
              (Num.parseFloat "12345") (Num.parseFloat "1234567")
              (Some 1200) None)
    as (tollFare & fuelPrice & Hres & Ht & Hf).
  - vm_compute. reflexivity.
  - reflexivity.
  - shape.
  - split; [shape|]. right. shape.
  - reflexivity.
  - unfold route_summary, fare_amount.
    repeat split; try (eexists; reflexivity); try lia.
  - exists tollFare, fuelPrice. split; [|split; assumption].
    rewrite Hres. vm_compute. reflexivity.
Defined.

(** The texts of the amounts in this case are "1,200원" and "0원". *)
Example route_fields_amounts :
  fst (run (naver_directions Examples.config
              (Examples.healthy Examples.one_candidate
                 (Examples.comfort_only Examples.summary_fields))
              "127.0,37.5" "129.0,35.1" trafast None))
  = Ok [Text (route_template "127,37.5" "129,35.1"
                             "12.3km" "21분" "1,200원" "0원")].
Proof. vm_compute. reflexivity. Qed.

(** C8 as the claim states it fails on an address without candidates:
    the claim has the original [center] passed on to the raster
    endpoint, where the handler makes no raster call and reports an
    error. *)
Lemma static_map_zero_candidates_counterexample :
  isCoordinate "Seoul" = false
  /\ answered (Examples.silent [] (geocode_request Examples.config "Seoul"))
              Examples.no_candidates
  /\ items Examples.no_candidates "addresses" = []
  /\ run (naver_static_map Examples.config Examples.silent "Seoul" Examples.six
            Examples.four_hundred Examples.four_hundred png)
     = (Ok [Text "오류 발생: 지오코딩 결과가 없습니다."],
        [(geocode_request Examples.config "Seoul",
          Examples.silent [] (geocode_request Examples.config "Seoul"))])
  /\ ~ (exists result raster,
          run (naver_static_map Examples.config Examples.silent "Seoul"
                 Examples.six Examples.four_hundred Examples.four_hundred png)
          = (result,
             [(geocode_request Examples.config "Seoul",
               Examples.silent [] (geocode_request Examples.config "Seoul"));
              (static_request Examples.config "Seoul" Examples.six
                 Examples.four_hundred Examples.four_hundred png, raster)])).
Proof.
  split; [vm_compute; reflexivity|].
  split; [shape|]. split; [reflexivity|].
  split; [vm_compute; reflexivity|].
  intros (result & raster & H). vm_compute in H. discriminate.
Qed.

(** C8, as amended. The static-map handler makes no geocoding call when
    the classifier accepts [center]; otherwise it makes one, takes
    ["<lon>,<lat>"] of the first candidate when there is one, and when
    there is none it raises the error "지오코딩 결과가 없습니다.", which it
    reports as an error text without calling the raster endpoint.  With
    the resolved centre it fetches the raster endpoint as bytes and
    returns them base64-encoded in a data URI, followed by a caption
    with the centre, the level and the size.  The geocoding call is
    answered with a well-formed response, in which the coordinates of
    the first candidate can be printed. *)
Theorem static_map_resolves_center_or_fails :
  forall config net center level w h format data,
    (isCoordinate center = false ->
     answered (net [] (geocode_request config center)) data
     /\ geocoding_response data) ->
    run (naver_static_map config net center level w h format)
    = (if isCoordinate center
       then fetch_map config net center level w h format []
       else match items data "addresses" with
            | candidate :: _ =>
                fetch_map config net (lon_lat candidate) level w h format
                          (geocode_calls config net center [])
            | [] =>
                (Ok [Text "오류 발생: 지오코딩 결과가 없습니다."],
                 geocode_calls config net center [])
            end)
    /\ forall centerCoords log buffer,
         answered_bytes
           (net log (static_request config centerCoords level w h format)) buffer ->
         fetch_map config net centerCoords level w h format log
         = (Ok [Image ("data:image/" ++ format_name format ++ ";base64,"
                       ++ Base64.encode buffer);
                Text ("🗺️ 정적 지도 (center: " ++ centerCoords
                      ++ ", level: " ++ Num.toString level
                      ++ ", size: " ++ Num.toString w ++ "x" ++ Num.toString h
                      ++ ")")],
            (log ++ [(static_request config centerCoords level w h format,
                      net log (static_request config centerCoords level w h format))])%list).
Proof.
  intros config net center level w h format data Hc. split.
  - unfold run. rewrite naver_static_map_run.
    unfold after_geocode, geocode_calls, fetch_map.
    destruct (isCoordinate center); [reflexivity|].
    destruct (Hc eq_refl) as [Ha [Hl _]].
    rewrite (settle_answered _ _ Ha). cbn [and_then app].
    rewrite (resolved_or_fail_spec _ Hl).
    now destruct (items data "addresses").
  - intros c log buffer Ha. unfold fetch_map, last_call.
    now rewrite (settle_answered_bytes _ _ Ha).
Qed.

(** C8, as amended, on an address that is geocoded to one candidate. *)
Lemma static_map_witness :
  run (naver_static_map Examples.config
         (Examples.healthy Examples.one_candidate Examples.no_routes)
         "Seoul" Examples.six Examples.four_hundred Examples.four_hundred png)
  = fetch_map Examples.config
      (Examples.healthy Examples.one_candidate Examples.no_routes)
      "127,37.5" Examples.six Examples.four_hundred Examples.four_hundred png
      (geocode_calls Examples.config
         (Examples.healthy Examples.one_candidate Examples.no_routes) "Seoul" []).
Proof.
  refine (proj1 (static_map_resolves_center_or_fails
                   Examples.config
                   (Examples.healthy Examples.one_candidate Examples.no_routes)
                   "Seoul" Examples.six Examples.four_hundred
                   Examples.four_hundred png Examples.one_candidate _)).
  intros _. shape.
Defined.

(** C9. For every byte buffer the static-map endpoint returns, the
    static-map handler's result carries the buffer as base64 in the data
    URI of its image, and decoding that base64 gives back the buffer. *)
Theorem static_map_image_decodes_to_the_bytes :
  forall config net center level w h format res before req outcome buffer,
    run (naver_static_map config net center level w h format)
    = (res, (before ++ [(req, outcome)])%list) ->
    endpoint req = static_endpoint ->
    answered_bytes outcome buffer ->
    exists base64 caption,
      res = Ok [Image ("data:image/" ++ format_name format ++ ";base64," ++ base64);
                Text caption]
      /\ base64 = Base64.encode buffer
      /\ Base64.decode base64 = Some buffer.
Proof.
  intros config net center level w h format res before req outcome buffer
         Hrun Hend Ha.
  destruct (static_map_outcome _ _ _ _ _ _ _ _ _ _ _ Hrun Hend) as (c & ->).
  rewrite (settle_answered_bytes _ _ Ha). cbn [and_then reported static_result].
  eexists _, _. split; [reflexivity|]. split; [reflexivity|].
  apply decode_encode.
Qed.

(** C9 on a buffer of five bytes. *)
Lemma static_map_base64_witness :
  exists base64 caption,
    fst (run (naver_static_map Examples.config
                (Examples.healthy Examples.one_candidate Examples.no_routes)
                "127.0,37.5" Examples.six Examples.four_hundred
                Examples.four_hundred png))
    = Ok [Image ("data:image/" ++ "png" ++ ";base64," ++ base64); Text caption]
    /\ base64 = Base64.encode Examples.image
    /\ Base64.decode base64 = Some Examples.image.
Proof.
  set (net := Examples.healthy Examples.one_candidate Examples.no_routes).
  set (req := static_request Examples.config "127.0,37.5" Examples.six
                Examples.four_hundred Examples.four_hundred png).
  apply (static_map_image_decodes_to_the_bytes
           Examples.config net "127.0,37.5" Examples.six Examples.four_hundred
           Examples.four_hundred png _ [] req (net [] req) Examples.image).
  - vm_compute. reflexivity.
  - reflexivity.
  - shape.
Defined.

(** C10. In the directions handler an amount (toll fare or fuel price)
    that is present with the value 0 is formatted as "0원", the text of a
    missing amount: two responses whose selected routes have summaries
    that differ only in that the amount [key] is 0 in one and missing in
    the other give the same result. *)
Theorem zero_fare_reads_as_missing :
  forall config net net' start goal option waypoints
         res res' before before' req req' outcome outcome' data data'
         best best' fields fields' key sign,
    run (naver_directions config net start goal option waypoints)
    = (res, (before ++ [(req, outcome)])%list) ->
    run (naver_directions config net' start goal option waypoints)
    = (res', (before' ++ [(req', outcome')])%list) ->
    endpoint req = directions_endpoint ->
    endpoint req' = directions_endpoint ->
    answered outcome data -> answered outcome' data' ->
    directions_response data -> directions_response data' ->
    selected_route (field data "route") = Some best ->
    selected_route (field data' "route") = Some best' ->
    is_object best -> is_object best' ->
    field best "summary" = VObj fields ->
    field best' "summary" = VObj fields' ->
    key = "tollFare" \/ key = "fuelPrice" ->
    assoc key fields = Some (VNum (S754_zero sign)) ->
    assoc key fields' = None ->
    (forall k, k <> key -> assoc k fields = assoc k fields') ->
    fare (VObj fields) key = Ok "0원"
    /\ fare (VObj fields') key = Ok "0원"
    /\ res = res'.
Proof.
  intros config net net' start goal option waypoints
         res res' before before' req req' outcome outcome' data data'
         best best' fields fields' key sign
         Hrun Hrun' Hend Hend' Ha Ha' Hd Hd' Hsel Hsel' Hb Hb' Hs Hs'
         Hkey Hzero Hmissing Hrest.
  assert (Hf : fare (VObj fields) key = Ok "0원") by (eapply fare_zero; eassumption).
  assert (Hf' : fare (VObj fields') key = Ok "0원") by (now apply fare_missing).
  split; [exact Hf|]. split; [exact Hf'|].
  rewrite (directions_answered _ _ _ _ _ _ _ _ _ _ _ Hrun Hend Ha).
  rewrite (directions_answered _ _ _ _ _ _ _ _ _ _ _ Hrun' Hend' Ha').
  rewrite (directions_result_selected _ Hd), (directions_result_selected _ Hd').
  rewrite Hsel, Hsel'.
  rewrite (route_text_fields best best' fields fields'); try assumption; try reflexivity.
  - repeat constructor; apply Hrest; destruct Hkey as [->| ->]; discriminate.
  - destruct Hkey as [->| ->]; [congruence|].
    apply fare_same, Hrest. discriminate.
  - destruct Hkey as [->| ->]; [|congruence].
    apply fare_same, Hrest. discriminate.
Qed.

(** C10 on two routes that differ in the toll fare only: 0 in one,
    missing in the other. *)
Lemma zero_fare_witness :
  fst (run (naver_directions Examples.config
              (Examples.healthy Examples.one_candidate
                 (Examples.comfort_only
                    (("tollFare", VNum (S754_zero false))
                     :: Examples.summary_base)))
              "127.0,37.5" "129.0,35.1" trafast None))
  = fst (run (naver_directions Examples.config
                (Examples.healthy Examples.one_candidate
                   (Examples.comfort_only Examples.summary_base))
                "127.0,37.5" "129.0,35.1" trafast None)).
Proof.
  set (zero := ("tollFare", VNum (S754_zero false)) :: Examples.summary_base).
  set (net := Examples.healthy Examples.one_candidate (Examples.comfort_only zero)).
  set (net' := Examples.healthy Examples.one_candidate
                 (Examples.comfort_only Examples.summary_base)).
  set (req := directions_request Examples.config "127.0,37.5" "129.0,35.1"
                                 trafast None).
  apply (zero_fare_reads_as_missing
           Examples.config net net' "127.0,37.5" "129.0,35.1" trafast None
           _ _ [] [] req req (net [] req) (net' [] req)
           (Examples.comfort_only zero)
           (Examples.comfort_only Examples.summary_base)
           (Examples.route_with zero)
           (Examples.route_with Examples.summary_base)
           zero Examples.summary_base "tollFare" false).
  - vm_compute. reflexivity.
  - vm_compute. reflexivity.
  - reflexivity.
  - reflexivity.
  - shape.
  - shape.
  - split; [shape|]. right. shape.
  - split; [shape|]. right. shape.
  - reflexivity.
  - reflexivity.
  - shape.
  - shape.
  - reflexivity.
  - reflexivity.
  - left. reflexivity.
  - reflexivity.
  - reflexivity.
  - intros k Hk. unfold zero. cbn [assoc].
    destruct (assoc k Examples.summary_base); [reflexivity|].
    destruct (String.eqb_spec "tollFare" k); [congruence|reflexivity].
Defined.

End Claims.

(* ================================================================== *)
(** ** Trimming and parsing *)
(* ================================================================== *)

Section TrimLemmas.

(** What [strip_prefix] finds is a prefix. *)
Lemma strip_prefix_some (p s r : string) :
  Str.strip_prefix p s = Some r -> s = p ++ r.
Proof.
  revert s. induction p as [|a p IH]; intros s H; simpl in *.
  - now inversion H.
  - destruct s as [|b s]; [discriminate|].
    destruct (Ascii.eqb_spec a b); [|discriminate].
    subst. now rewrite (IH _ H).
Qed.

Lemma strip_any_some (tokens : list string) (s r : string) :
  Str.strip_any tokens s = Some r -> exists t, In t tokens /\ s = t ++ r.
Proof.
  induction tokens as [|t ts IH]; simpl; [discriminate|].
  destruct (Str.strip_prefix t s) as [r'|] eqn:E.
  - intros H. inversion H; subst. exists t. split; [now left|].
    now apply strip_prefix_some.
  - intros H. destruct (IH H) as (t' & Hin & Hs). exists t'. split; [now right|exact Hs].
Qed.

Lemma strip_any_none (tokens : list string) (s : string) :
  Str.strip_any tokens s = None ->
  forall t, In t tokens -> Str.strip_prefix t s = None.
Proof.
  induction tokens as [|t ts IH]; simpl; [contradiction|].
  destruct (Str.strip_prefix t s) eqn:E; [discriminate|].
  intros H t' [<-|Hin]; [exact E|now apply IH].
Qed.

Lemma strip_any_none_intro (tokens : list string) (s : string) :
  (forall t, In t tokens -> Str.strip_prefix t s = None) ->
  Str.strip_any tokens s = None.
Proof.
  induction tokens as [|t ts IH]; simpl; [reflexivity|].
  intros H. rewrite (H t (or_introl eq_refl)). apply IH.
  intros t' Hin. apply H. now right.
Qed.

(** A prefix of a string with a prefix [p] that is long enough has the
    prefix [p]. *)
Lemma strip_prefix_app_none (t a b : string) :
  Str.strip_prefix t (a ++ b) = None -> Str.strip_prefix t a = None.
Proof.
  revert a. induction t as [|c t IH]; intros a; simpl.
  - discriminate.
  - destruct a as [|d a]; [reflexivity|]. simpl.
    destruct (Ascii.eqb c d); [apply IH|reflexivity].
Qed.

(** Stripping ends on a string that starts with no token, when the fuel
    is the length of the string and no token is empty. *)
Lemma strip_all_done (tokens : list string) :
  Forall (fun t => t <> "") tokens ->
  forall fuel s, (String.length s <= fuel)%nat ->
    Str.strip_any tokens (Str.strip_all tokens fuel s) = None.
Proof.
  intros Hne. induction fuel as [|fuel IH]; intros s Hlen; simpl.
  - destruct s; [|simpl in Hlen; lia].
    apply strip_any_none_intro. intros t Hin.
    rewrite Forall_forall in Hne. specialize (Hne t Hin).
    destruct t; [contradiction|reflexivity].
  - destruct (Str.strip_any tokens s) as [r|] eqn:E; [|exact E].
    apply IH. destruct (strip_any_some _ _ _ E) as (t & Hin & ->).
    rewrite Forall_forall in Hne. specialize (Hne t Hin).
    rewrite length_append in Hlen. destruct t; [contradiction|]. simpl in Hlen. lia.
Qed.

(** What is stripped is empty or starts with the token stripped first...
    and, read from the other end, what is left of a string is the string
    without a tail that is empty or ends with a token. *)
Lemma strip_all_tail (tokens : list string) (fuel : nat) (s : string) :
  exists x, s = x ++ Str.strip_all tokens fuel s
            /\ (x = "" \/ exists y t, In t tokens /\ x = y ++ t).
Proof.
  revert s. induction fuel as [|fuel IH]; intros s; simpl.
  - exists "". split; [reflexivity|now left].
  - destruct (Str.strip_any tokens s) as [r|] eqn:E.
    + destruct (strip_any_some _ _ _ E) as (t & Hin & ->).
      destruct (IH r) as (x & Hr & Hx).
      exists (t ++ x). split.
      * rewrite append_assoc. now rewrite <- Hr.
      * right. destruct Hx as [->|(y & t' & Hin' & ->)].
        -- exists "", t. split; [exact Hin|]. now rewrite append_empty_r.
        -- exists (t ++ y), t'. split; [exact Hin'|]. now rewrite append_assoc.
    + exists "". split; [reflexivity|now left].
Qed.

(** [trimEnd] removes a tail that is empty or starts with a white space
    token. *)
Lemma trimEnd_tail (s : string) :
  exists w, s = Str.trimEnd s ++ w
            /\ (w = "" \/ exists t w', In t Str.white_space /\ w = t ++ w').
Proof.
  unfold Str.trimEnd.
  destruct (strip_all_tail (map Str.rev Str.white_space) (String.length s) (Str.rev s))
    as (x & Hs & Hx).
  exists (Str.rev x). split.
  - rewrite <- rev_app, <- Hs. now rewrite rev_involutive.
  - destruct Hx as [->|(y & t & Hin & ->)]; [now left|right].
    apply in_map_iff in Hin. destruct Hin as (t0 & <- & Hin).
    exists t0, (Str.rev y). split; [exact Hin|].
    now rewrite rev_app, rev_involutive.
Qed.

Lemma white_space_nonempty : Forall (fun t => t <> "") Str.white_space.
Proof. repeat constructor; discriminate. Qed.

(** [trimStart] leaves no white space at the start, and so does [trim]:
    trimming the start again changes nothing. *)
Lemma trimStart_done (s : string) :
  Str.strip_any Str.white_space (Str.trimStart s) = None.
Proof. apply strip_all_done; [apply white_space_nonempty|lia]. Qed.

Lemma trimStart_fixed (s : string) :
  Str.strip_any Str.white_space s = None -> Str.trimStart s = s.
Proof.
  intros H. unfold Str.trimStart.
  destruct (String.length s); cbn [Str.strip_all]; [reflexivity|].
  now rewrite H.
Qed.

Lemma trimStart_trim (s : string) : Str.trimStart (Str.trim s) = Str.trim s.
Proof.
  apply trimStart_fixed. unfold Str.trim.
  destruct (trimEnd_tail (Str.trimStart s)) as (w & Hs & _).
  apply strip_any_none_intro. intros t Hin.
  apply strip_prefix_app_none with w. rewrite <- Hs.
  now apply (strip_any_none _ _ (trimStart_done s)).
Qed.

End TrimLemmas.

Section ScanLemmas.

Import Props.

Variable w : string.
Hypothesis Hw : stops w = true.

Lemma stops_not_digit (c : ascii) (w' : string) :
  stops (String c w') = true -> Num.digit_val c = None.
Proof.
  unfold stops, literal_char. destruct (Num.digit_val c); [discriminate|reflexivity].
Qed.

Lemma stops_not_literal (c : ascii) (w' : string) (a : ascii) :
  stops (String c w') = true ->
  In a (list_ascii_of_string "+-.eEInfity") -> Ascii.eqb a c = false.
Proof.
  unfold stops, literal_char. intros H Hin.
  destruct (Num.digit_val c); [discriminate|].
  apply negb_true_iff in H.
  destruct (Ascii.eqb_spec a c) as [->|]; [|reflexivity].
  rewrite <- H. symmetry. apply existsb_exists.
  exists c. split; [exact Hin|apply Ascii.eqb_refl].
Qed.

Lemma take_digits_stop (u : string) (acc cnt : Z) :
  Num.take_digits (u ++ w) acc cnt
  = let '(v, c, r) := Num.take_digits u acc cnt in (v, c, r ++ w).
Proof.
  revert acc cnt. induction u as [|a u IH]; intros acc cnt; simpl.
  - destruct w as [|c w']; [reflexivity|]. simpl.
    now rewrite (stops_not_digit _ _ Hw).
  - destruct (Num.digit_val a); [apply IH|reflexivity].
Qed.

Lemma scan_sign_eq (s : string) :
  Num.scan_sign s
  = match s with
    | String c r =>
        if Ascii.eqb c "-" then (true, r)
        else if Ascii.eqb c "+" then (false, r) else (false, s)
    | EmptyString => (false, s)
    end.
Proof.
  destruct s as [|c r]; [reflexivity|].
  destruct c as [[] [] [] [] [] [] [] []]; reflexivity.
Qed.

Lemma scan_sign_stop (u : string) :
  Num.scan_sign (u ++ w)
  = let '(neg, r) := Num.scan_sign u in (neg, r ++ w).
Proof.
  rewrite !scan_sign_eq. destruct u as [|a u]; simpl.
  - destruct w as [|c w']; [reflexivity|].
    rewrite (Ascii.eqb_sym c "-"), (Ascii.eqb_sym c "+").
    rewrite !(stops_not_literal _ _ _ Hw) by (simpl; tauto). reflexivity.
  - destruct (Ascii.eqb a "-"); [reflexivity|].
    destruct (Ascii.eqb a "+"); reflexivity.
Qed.

Lemma scan_exponent_stop (r : string) :
  Num.scan_exponent (r ++ w)
  = match Num.scan_exponent r with
    | Some (e, r') => Some (e, r' ++ w)
    | None => None
    end.
Proof.
  unfold Num.scan_exponent. destruct r as [|c rest]; cbn [append].
  - destruct w as [|c w']; [reflexivity|].
    rewrite (Ascii.eqb_sym c "e"), (Ascii.eqb_sym c "E").
    rewrite !(stops_not_literal _ _ _ Hw) by (simpl; tauto). reflexivity.
  - destruct (Ascii.eqb c "e" || Ascii.eqb c "E"); [|reflexivity].
    change (match rest ++ w with
            | String "-" r => (true, r)
            | String "+" r => (false, r)
            | _ => (false, rest ++ w)
            end) with (Num.scan_sign (rest ++ w)).
    change (match rest with
            | String "-" r => (true, r)
            | String "+" r => (false, r)
            | _ => (false, rest)
            end) with (Num.scan_sign rest).
    rewrite scan_sign_stop. destruct (Num.scan_sign rest) as [neg rest'].
    rewrite take_digits_stop.
    destruct (Num.take_digits rest' 0 0) as [[v cnt] r'].
    destruct (cnt =? 0); reflexivity.
Qed.

Lemma strip_prefix_stop (q u : string) :
  Forall (fun a => In a (list_ascii_of_string "+-.eEInfity"))
         (list_ascii_of_string q) ->
  Str.strip_prefix q (u ++ w)
  = match Str.strip_prefix q u with
    | Some r => Some (r ++ w)
    | None => None
    end.
Proof.
  revert u. induction q as [|a q IH]; intros u Hq; simpl.
  - reflexivity.
  - inversion Hq as [|? ? Ha Hq']; subst.
    destruct u as [|b u]; simpl.
    + destruct w as [|c w']; [reflexivity|].
      now rewrite (stops_not_literal _ _ _ Hw Ha).
    + destruct (Ascii.eqb a b); [now apply IH|reflexivity].
Qed.

Lemma Infinity_literal :
  Forall (fun a => In a (list_ascii_of_string "+-.eEInfity"))
         (list_ascii_of_string "Infinity").
Proof.
  repeat (apply Forall_cons; [simpl; tauto|]). apply Forall_nil.
Qed.

Lemma fraction_part_stop (ip ic : Z) (r1 : string) :
  fraction_part ip ic (r1 ++ w)
  = let '(m, fc, r2) := fraction_part ip ic r1 in (m, fc, r2 ++ w).
Proof.
  destruct r1 as [|c r]; cbn [append].
  - destruct w as [|c w']; [reflexivity|].
    assert (Hc := stops_not_literal _ _ "."%char Hw).
    destruct c as [[] [] [] [] [] [] [] []]; try reflexivity.
    discriminate Hc. simpl; tauto.
  - destruct c as [[] [] [] [] [] [] [] []]; try reflexivity.
    cbn [fraction_part]. rewrite take_digits_stop.
    destruct (Num.take_digits r ip 0) as [[m' fc'] r'].
    destruct ((ic =? 0) && (fc' =? 0)); reflexivity.
Qed.

Lemma scan_unsigned_eq (neg : bool) (s : string) :
  Num.scan_unsigned neg s
  = match Str.strip_prefix "Infinity" s with
    | Some r => Some (S754_infinity neg, r)
    | None =>
        let '(ip, ic, r1) := Num.take_digits s 0 0 in
        let '(m, fc, r2) := fraction_part ip ic r1 in
        if (ic =? 0) && (fc =? 0) then None
        else
          match Num.scan_exponent r2 with
          | Some (ex, r3) => Some (Num.of_decimal neg m (ex - fc), r3)
          | None => Some (Num.of_decimal neg m (- fc), r2)
          end
    end.
Proof. reflexivity. Qed.

Lemma scan_unsigned_stop (neg : bool) (u : string) :
  Num.scan_unsigned neg (u ++ w)
  = match Num.scan_unsigned neg u with
    | Some (x, r) => Some (x, r ++ w)
    | None => None
    end.
Proof.
  rewrite !scan_unsigned_eq.
  rewrite strip_prefix_stop by exact Infinity_literal.
  destruct (Str.strip_prefix "Infinity" u); [reflexivity|].
  rewrite take_digits_stop.
  destruct (Num.take_digits u 0 0) as [[ip ic] r1].
  rewrite fraction_part_stop.
  destruct (fraction_part ip ic r1) as [[m fc] r2].
  destruct ((ic =? 0) && (fc =? 0)); [reflexivity|].
  rewrite scan_exponent_stop.
  destruct (Num.scan_exponent r2) as [[ex r3]|]; reflexivity.
Qed.

(** What is read at the head of a string does not depend on a tail that
    starts with a character of no literal. *)
Lemma literal_value_stop (u : string) : literal_value (u ++ w) = literal_value u.
Proof.
  unfold literal_value. rewrite scan_sign_stop.
  destruct (Num.scan_sign u) as [neg u'].
  rewrite scan_unsigned_stop.
  destruct (Num.scan_unsigned neg u') as [[x r]|]; reflexivity.
Qed.

End ScanLemmas.

Section ParseLemmas.

Import Props.

Lemma white_space_stops :
  Forall (fun t => forall w', stops (t ++ w') = true) Str.white_space.
Proof. repeat constructor. Qed.

Lemma parseFloat_literal_value (s : string) :
  Num.parseFloat s = literal_value (Str.trimStart s).
Proof. reflexivity. Qed.

(** [parseFloat] skips white space at the start and ignores what
    follows the number, white space included: trimming its argument
    first changes nothing. *)
Lemma parseFloat_trim (s : string) : Num.parseFloat (Str.trim s) = Num.parseFloat s.
Proof.
  rewrite !parseFloat_literal_value, trimStart_trim. unfold Str.trim.
  destruct (trimEnd_tail (Str.trimStart s)) as (w & Hs & Hw).
  rewrite Hs at 2. symmetry. apply literal_value_stop.
  destruct Hw as [->|(t & w' & Hin & ->)]; [reflexivity|].
  pose proof white_space_stops as H. rewrite Forall_forall in H. now apply H.
Qed.

End ParseLemmas.

(* ================================================================== *)
(** ** Splitting *)
(* ================================================================== *)

Section SplitLemmas.

(** A string without the separator is its only part. *)
Lemma split_without_separator (s : string) :
  Str.contains "," s = false -> Str.split Str.comma s = [s].
Proof.
  induction s as [|c s IH]; [reflexivity|].
  cbn [Str.contains Str.split]. intros H.
  apply orb_false_iff in H. destruct H as [Hc Hs].
  unfold Str.starts_with in Hc. cbn [Str.strip_prefix] in Hc.
  rewrite Ascii.eqb_sym. fold Str.comma in Hc.
  destruct (Ascii.eqb Str.comma c); [discriminate|].
  now rewrite (IH Hs).
Qed.

(** The parts of [a ++ "," ++ b] are the parts of [a], then those of
    [b]. *)
Lemma split_app (a b : string) :
  Str.split Str.comma (a ++ "," ++ b)
  = (Str.split Str.comma a ++ Str.split Str.comma b)%list.
Proof.
  change ("," ++ b) with (String Str.comma b).
  induction a as [|c a IH].
  - cbn [append Str.split app]. now rewrite Ascii.eqb_refl.
  - cbn [append Str.split]. rewrite IH.
    destruct (Ascii.eqb c Str.comma); [reflexivity|].
    pose proof (split_nonempty Str.comma a) as Hne.
    destruct (Str.split Str.comma a); [contradiction|reflexivity].
Qed.

End SplitLemmas.

(* ================================================================== *)
(** ** The classifier *)
(* ================================================================== *)

Section Classifier.

Import Js Server Spec Props.

(** X1. The classifier accepts a string exactly when the string has at
    least two comma-separated parts and [parseFloat] reads, in the first
    one, a number from -180 to 180 and, in the second one, a number
    from -90 to 90 (so neither is [NaN]).  The call of [trim] on the
    parts has no effect on the result: [parseFloat] skips white space at
    the start and ignores whatever follows the number. *)
Theorem isCoordinate_accepts_exactly :
  forall str,
    isCoordinate str = true
    <-> exists a b rest,
          Str.split Str.comma str = a :: b :: rest
          /\ Num.isNaN (Num.parseFloat a) = false
          /\ Num.isNaN (Num.parseFloat b) = false
          /\ Num.leb (Num.of_Z (-180)) (Num.parseFloat a) = true
          /\ Num.leb (Num.parseFloat a) (Num.of_Z 180) = true
          /\ Num.leb (Num.of_Z (-90)) (Num.parseFloat b) = true
          /\ Num.leb (Num.parseFloat b) (Num.of_Z 90) = true.
Proof.
  intros str. split.
  - intros H.
    destruct (Str.split Str.comma str) as [|a [|b rest]] eqn:E.
    + now apply split_nonempty in E.
    + rewrite (isCoordinate_one_part _ _ E) in H. discriminate.
    + rewrite (isCoordinate_first_two_parts _ _ _ _ E) in H.
      rewrite !parseFloat_trim in H. unfold in_range in H.
      repeat (apply andb_true_iff in H; destruct H as [H ?]).
      apply negb_true_iff in H. exists a, b, rest.
      repeat split; try assumption. now apply negb_true_iff.
  - intros (a & b & rest & E & Ha & Hb & H1 & H2 & H3 & H4).
    rewrite (isCoordinate_first_two_parts _ _ _ _ E), !parseFloat_trim.
    unfold in_range. now rewrite Ha, Hb, H1, H2, H3, H4.
Qed.

(** X2. A string without a comma, the empty string included, is never
    a coordinate: the directions handler starts with the geocoding call
    for such a [start], and the static-map handler with the geocoding
    call for such a [center]. *)
Theorem input_without_comma_is_geocoded :
  forall config net input,
    Str.contains "," input = false ->
    isCoordinate input = false
    /\ (forall goal option waypoints,
          exists rest,
            snd (run (naver_directions config net input goal option waypoints))
            = (geocode_request config input,
               net [] (geocode_request config input)) :: rest)
    /\ (forall level w h format,
          exists rest,
            snd (run (naver_static_map config net input level w h format))
            = (geocode_request config input,
               net [] (geocode_request config input)) :: rest).
Proof.
  intros config net input H.
  assert (Hc : isCoordinate input = false)
    by (apply isCoordinate_one_part with input; now apply split_without_separator).
  split; [exact Hc|]. split.
  - intros goal option waypoints. unfold run.
    rewrite naver_directions_run. unfold after_geocode at 1. rewrite Hc.
    cbn [app].
    destruct (and_then _ _) as [coords|e]; [|now eexists].
    match goal with
    | |- context [after_geocode ?c ?n ?i ?r ?k ?l] =>
        destruct (after_geocode c n i r k l) as [res log'] eqn:E
    end.
    apply after_geocode_cases in E.
    destruct E as [(e & _ & _ & _ & ->)|(g & _ & E)].
    + cbn [snd app]. now eexists.
    + unfold last_call in E. injection E as _ <-. cbn [snd app]. now eexists.
  - intros level w h format. unfold run.
    rewrite naver_static_map_run. unfold after_geocode. rewrite Hc.
    cbn [app].
    destruct (and_then _ _) as [coords|e]; [|now eexists].
    unfold last_call. cbn [snd app]. now eexists.
Qed.

(** X2 on the address "Seoul". *)
Lemma input_without_comma_witness :
  isCoordinate "Seoul" = false
  /\ exists rest,
       snd (run (naver_directions Examples.config Examples.silent
                   "Seoul" "129.0,35.1" trafast None))
       = (geocode_request Examples.config "Seoul",
          Examples.silent [] (geocode_request Examples.config "Seoul")) :: rest.
Proof.
  destruct (input_without_comma_is_geocoded
              Examples.config Examples.silent "Seoul" eq_refl)
    as (Hc & Hd & _).
  split; [exact Hc|]. exact (Hd "129.0,35.1" trafast None).
Defined.

(** X3. Once a string has two parts, what follows a further comma is
    not read: appending [","] and any text to a string with at least
    one comma does not change the answer of the classifier. *)
Theorem parts_after_the_second_are_ignored :
  forall str extra,
    (2 <= List.length (Str.split Str.comma str))%nat ->
    isCoordinate (str ++ "," ++ extra) = isCoordinate str.
Proof.
  intros str extra H.
  destruct (Str.split Str.comma str) as [|a [|b rest]] eqn:E;
    try (simpl in H; lia).
  rewrite (isCoordinate_first_two_parts str a b rest E).
  apply isCoordinate_first_two_parts
    with (rest := (rest ++ Str.split Str.comma extra)%list).
  now rewrite split_app, E.
Qed.

(** X3 on "127.0,37.5" followed by ",Seoul". *)
Lemma parts_after_the_second_witness :
  isCoordinate "127.0,37.5,Seoul" = isCoordinate "127.0,37.5".
Proof.
  apply (parts_after_the_second_are_ignored "127.0,37.5" "Seoul").
  vm_compute. lia.
Defined.

(** X4. On a string with exactly one comma, the latest classifier is
    the classifier of the earlier revisions followed by the four range
    checks: the rewrite added the ranges and nothing else. *)
Theorem hardening_added_the_range_checks :
  forall str a b,
    Str.split Str.comma str = [a; b] ->
    isCoordinate str
    = isCoordinate_unhardened str
      && Num.leb (Num.of_Z (-180)) (Num.parseFloat a)
      && Num.leb (Num.parseFloat a) (Num.of_Z 180)
      && Num.leb (Num.of_Z (-90)) (Num.parseFloat b)
      && Num.leb (Num.parseFloat b) (Num.of_Z 90).
Proof.
  intros str a b E.
  rewrite (isCoordinate_first_two_parts _ _ _ _ E), !parseFloat_trim.
  unfold isCoordinate_unhardened, in_range. rewrite E. reflexivity.
Qed.

(** X4 on "999,999", which only the earlier classifier accepts. *)
Lemma hardening_witness :
  isCoordinate "999,999"
  = isCoordinate_unhardened "999,999"
    && Num.leb (Num.of_Z (-180)) (Num.parseFloat "999")
    && Num.leb (Num.parseFloat "999") (Num.of_Z 180)
    && Num.leb (Num.of_Z (-90)) (Num.parseFloat "999")
    && Num.leb (Num.parseFloat "999") (Num.of_Z 90).
Proof.
  apply (hardening_added_the_range_checks "999,999" "999" "999").
  reflexivity.
Defined.

End Classifier.

(* ================================================================== *)
(** ** The shape of every run *)
(* ================================================================== *)

Section RunShapes.

Import Js Server Spec Props.

Variable config : Config.
Variable net : Network.

Lemma last_call_calls_gateway expectBinary endpoint params finish allowed :
  In endpoint allowed ->
  calls_gateway config allowed 1
    (last_call net expectBinary (request config endpoint params) finish).
Proof.
  intros Hin log. unfold last_call.
  eexists _, [_]. split; [reflexivity|]. split; [simpl; lia|].
  constructor; [|constructor]. now exists endpoint, params.
Qed.

Lemma after_geocode_calls_gateway input resolve next allowed hi :
  In geocode_endpoint allowed ->
  (forall coords, calls_gateway config allowed hi (next coords)) ->
  calls_gateway config allowed (S hi)
    (after_geocode config net input resolve next).
Proof.
  intros Hin Hnext log. unfold after_geocode.
  assert (Hg : forall outcome,
             exists endpoint params,
               In endpoint allowed
               /\ fst (geocode_request config input, outcome : result Response)
                  = request config endpoint params)
    by (intros outcome; now exists geocode_endpoint, [("query", VStr input)]).
  destruct (isCoordinate input).
  - destruct (Hnext input log) as (content & new & E & Hlen & Hall).
    exists content, new. rewrite E. split; [reflexivity|]. split; [lia|exact Hall].
  - destruct (and_then _ _) as [coords|e].
    + destruct (Hnext coords
                  (log ++ [(geocode_request config input,
                            net log (geocode_request config input))])%list)
        as (content & new & E & Hlen & Hall).
      exists content, ((geocode_request config input,
                        net log (geocode_request config input)) :: new).
      rewrite E, <- app_assoc. split; [reflexivity|]. split; [simpl; lia|].
      constructor; [apply Hg|exact Hall].
    + eexists _, [_]. split; [reflexivity|]. split; [simpl; lia|].
      constructor; [apply Hg|constructor].
Qed.

Lemma calls_gateway_ext allowed hi (run1 run2 : M CallToolResult) :
  (forall log, run1 log = run2 log) ->
  calls_gateway config allowed hi run2 ->
  calls_gateway config allowed hi run1.
Proof. intros E H log. rewrite E. apply H. Qed.

Lemma call_calls_gateway (c : ToolCall) :
  calls_gateway config (endpoints_of c)
    (match c with
     | Directions _ _ _ _ => 3
     | StaticMap _ _ _ _ _ => 2
     | _ => 1
     end)
    (call config net c).
Proof.
  destruct c as [start goal option waypoints|address|lat lng|center level w h format];
    cbn [call endpoints_of].
  - eapply calls_gateway_ext; [intros log; apply naver_directions_run|].
    apply after_geocode_calls_gateway; [now left|]. intros s.
    apply after_geocode_calls_gateway; [now left|]. intros g.
    apply last_call_calls_gateway. right. now left.
  - eapply calls_gateway_ext; [intros log; apply naver_geocode_run|].
    apply last_call_calls_gateway. now left.
  - eapply calls_gateway_ext; [intros log; apply naver_reverse_geocode_run|].
    apply last_call_calls_gateway. now left.
  - eapply calls_gateway_ext; [intros log; apply naver_static_map_run|].
    apply after_geocode_calls_gateway; [now left|]. intros c.
    apply last_call_calls_gateway. right. now left.
Qed.

(** The flag of a call decides how its outcome is settled. *)
Lemma last_call_reports_failures expectBinary req finish :
  reads_bytes req = expectBinary ->
  reports_failures (last_call net expectBinary req finish).
Proof.
  intros <- log res log' H. unfold last_call in H.
  injection H as Hres Hlog. subst res log'.
  eexists. split; [reflexivity|].
  intros before req' outcome after e Hnew Hfail.
  destruct before as [|x before]; cbn [app] in Hnew.
  - injection Hnew as Hreq Hout Hafter. subst req' after.
    split; [reflexivity|].
    unfold failure in Hfail. rewrite Hout.
    destruct (settle (reads_bytes req) outcome); [discriminate|].
    now injection Hfail as ->.
  - injection Hnew as Hx Hnil. now destruct before.
Qed.

Lemma after_geocode_reports_failures input resolve next :
  (forall coords, reports_failures (next coords)) ->
  reports_failures (after_geocode config net input resolve next).
Proof.
  intros Hnext log res log' H.
  apply after_geocode_cases in H.
  destruct H as [(e' & Hc & Hthrow & -> & ->)|(coords & Hcoords & H)].
  - eexists. split; [reflexivity|].
    intros before req outcome after e Hnew Hfail.
    unfold geocode_calls in Hnew. rewrite Hc in Hnew.
    destruct before as [|x before]; cbn [app] in Hnew.
    + injection Hnew as Hreq Hout Hafter. subst req after.
      split; [reflexivity|].
      unfold failure in Hfail.
      change (reads_bytes (geocode_request config input)) with false in Hfail.
      rewrite Hout in Hthrow.
      destruct (settle false outcome); [discriminate|].
      injection Hfail as ->. cbn [and_then] in Hthrow.
      now injection Hthrow as ->.
    + injection Hnew as Hx Hnil. now destruct before.
  - destruct (Hnext coords _ _ _ H) as (new & -> & Hnew').
    exists (geocode_calls config net input log ++ new)%list.
    split; [now rewrite app_assoc|].
    intros before req outcome after e Hnew Hfail.
    unfold geocode_calls in *. destruct (isCoordinate input) eqn:Hc.
    + cbn [app] in Hnew. now apply (Hnew' before req outcome after e).
    + destruct before as [|x before]; cbn [app] in Hnew.
      * injection Hnew as Hreq Hout Hafter. subst req.
        unfold failure in Hfail.
        change (reads_bytes (geocode_request config input)) with false in Hfail.
        rewrite Hout in Hcoords.
        destruct (settle false outcome); discriminate.
      * injection Hnew as Hx Hrest.
        now apply (Hnew' before req outcome after e).
Qed.

Lemma reports_failures_ext (run1 run2 : M CallToolResult) :
  (forall log, run1 log = run2 log) ->
  reports_failures run2 -> reports_failures run1.
Proof. intros E H log res log' Hrun. rewrite E in Hrun. now apply H. Qed.

Lemma call_reports_failures (c : ToolCall) :
  reports_failures (call config net c).
Proof.
  destruct c as [start goal option waypoints|address|lat lng|center level w h format];
    cbn [call].
  - eapply reports_failures_ext; [intros log; apply naver_directions_run|].
    apply after_geocode_reports_failures. intros s.
    apply after_geocode_reports_failures. intros g.
    now apply last_call_reports_failures.
  - eapply reports_failures_ext; [intros log; apply naver_geocode_run|].
    now apply last_call_reports_failures.
  - eapply reports_failures_ext; [intros log; apply naver_reverse_geocode_run|].
    now apply last_call_reports_failures.
  - eapply reports_failures_ext; [intros log; apply naver_static_map_run|].
    apply after_geocode_reports_failures. intros c.
    now apply last_call_reports_failures.
Qed.

(** A failed exchange anywhere in the log of a call is its last one. *)
Lemma failed_exchange_is_last (c : ToolCall) res log req outcome e :
  run (call config net c) = (res, log) ->
  In (req, outcome) log ->
  failure req outcome = Some e ->
  (exists before, log = (before ++ [(req, outcome)])%list)
  /\ res = Ok [Text (error_text e)].
Proof.
  intros Hrun Hin Hfail.
  destruct (call_reports_failures c _ _ _ Hrun) as (new & Hlog & Hnew).
  cbn [app] in Hlog. subst new.
  destruct (in_split _ _ Hin) as (before & after & Hsplit).
  destruct (Hnew _ _ _ _ _ Hsplit Hfail) as (-> & Hres).
  split; [now exists before|exact Hres].
Qed.

End RunShapes.

Section RunTheorems.

Import Js Server Spec Props.

(** X5. A tool call never throws and never goes on for ever: whatever
    the provider does, the handler returns a result after at least one
    request and at most three (directions), two (static map) or one
    (geocode, reverse geocode); it only adds exchanges to the log. *)
Theorem tool_call_returns :
  forall config net c log,
    exists content new,
      call config net c log = (Ok content, (log ++ new)%list)
      /\ (1 <= List.length new)%nat
      /\ (List.length new <= match c with
                             | Directions _ _ _ _ => 3
                             | StaticMap _ _ _ _ _ => 2
                             | _ => 1
                             end)%nat.
Proof.
  intros config net c log.
  destruct (call_calls_gateway config net c log) as (content & new & E & Hlen & _).
  exists content, new. split; [exact E|]. lia.
Qed.

(** X6. Every request of a tool call is a GET request to the provider's
    host that carries the two keys of the configuration as headers, and
    its endpoint is one of those of the tool: the geocoding and the
    directions endpoint (directions), the geocoding endpoint (geocode),
    the reverse-geocoding endpoint (reverse geocode), the geocoding and
    the raster endpoint (static map). *)
Theorem requests_go_through_the_gateway :
  forall config net c log,
    exists new,
      snd (call config net c log) = (log ++ new)%list
      /\ Forall (fun ex : Exchange =>
                   base (fst ex) = "https://maps.apigw.ntruss.com"
                   /\ method (fst ex) = "GET"
                   /\ headers (fst ex)
                      = [("X-NCP-APIGW-API-KEY-ID", NAVER_CLIENT_ID config);
                         ("X-NCP-APIGW-API-KEY", NAVER_CLIENT_SECRET config)]
                   /\ In (endpoint (fst ex)) (endpoints_of c)) new.
Proof.
  intros config net c log.
  destruct (call_calls_gateway config net c log) as (content & new & E & _ & Hall).
  exists new. rewrite E. split; [reflexivity|].
  eapply Forall_impl; [|exact Hall].
  intros ex (endpoint & params & Hin & ->). now repeat split.
Qed.

(** X7. When [fetch] rejects (the provider cannot be reached), the
    handler makes no further request and returns the text that reports
    the exception [fetch] rejected with. *)
Theorem rejected_fetch_is_reported :
  forall config net c res log req e,
    run (call config net c) = (res, log) ->
    In (req, Throw e) log ->
    (exists before, log = (before ++ [(req, Throw e)])%list)
    /\ res = Ok [Text ("오류 발생: " ++ message e)].
Proof.
  intros config net c res log req e Hrun Hin.
  now apply (failed_exchange_is_last config net c res log req (Throw e) e).
Qed.

(** X7 on a provider that cannot be reached: the directions handler
    stops at the geocoding call for [start]. *)
Lemma rejected_fetch_witness :
  (exists before,
      [(geocode_request Examples.config "Seoul",
        Throw (TypeError "fetch failed") : result Response)]
      = (before ++ [(geocode_request Examples.config "Seoul",
                     Throw (TypeError "fetch failed"))])%list)
  /\ Ok [Text "오류 발생: fetch failed"]
     = Ok [Text ("오류 발생: " ++ message (TypeError "fetch failed"))].
Proof.
  apply (rejected_fetch_is_reported
           Examples.config Samples.offline
           (Directions "Seoul" "Busan" trafast None)).
  - vm_compute. reflexivity.
  - left. reflexivity.
Defined.

(** X8. When an endpoint that is read as JSON (every endpoint but the
    raster one) answers with a success status and a body that is not
    JSON, the handler makes no further request and returns the text that
    reports the exception of [response.json()]. *)
Theorem unreadable_body_is_reported :
  forall config net c res log req response e,
    run (call config net c) = (res, log) ->
    In (req, Ok response) log ->
    ok response = true ->
    json response = Throw e ->
    endpoint req <> static_endpoint ->
    (exists before, log = (before ++ [(req, Ok response)])%list)
    /\ res = Ok [Text ("오류 발생: " ++ message e)].
Proof.
  intros config net c res log req response e Hrun Hin Hok Hjson Hend.
  apply (failed_exchange_is_last config net c res log req (Ok response) e);
    try assumption.
  unfold failure, reads_bytes.
  destruct (String.eqb_spec (endpoint req) static_endpoint) as [|_];
    [contradiction|].
  unfold settle. now rewrite Hok, Hjson.
Qed.

(** X8 on a provider whose bodies are not JSON. *)
Lemma unreadable_body_witness :
  fst (run (call Examples.config Samples.garbled (Geocode "Seoul")))
  = Ok [Text ("오류 발생: "
              ++ message (SyntaxError "Unexpected token < in JSON at position 0"))].
Proof.
  set (req := geocode_request Examples.config "Seoul").
  set (response := {| status := 200; statusText := "OK";
                      json := Throw (SyntaxError
                                       "Unexpected token < in JSON at position 0");
                      arrayBuffer := [] |}).
  apply (unreadable_body_is_reported
           Examples.config Samples.garbled (Geocode "Seoul")
           _ [(req, Ok response)] req response).
  - vm_compute. reflexivity.
  - left. reflexivity.
  - reflexivity.
  - reflexivity.
  - discriminate.
Defined.

End RunTheorems.

(* ================================================================== *)
(** ** More on what the handlers make of a response *)
(* ================================================================== *)

Section MoreResponses.

Import Js Server Spec Props.

(** [naver_geocode] on an answer with a first candidate. *)
Lemma geocode_result_first (data first : value) (rest : list value) :
  list_field data "addresses" ->
  items data "addresses" = first :: rest ->
  geocode_result data
  = Ok [Text ("📍 주소: "
              ++ ToString (or (field first "roadAddress") (field first "jibunAddress"))
              ++ Str.nl ++ "🌐 좌표: " ++ ToString (field first "y") ++ ", "
              ++ ToString (field first "x") ++ " (위도, 경도)")].
Proof.
  intros H Hi. destruct (list_field_cases _ _ H) as (v & Hget & Hv).
  unfold geocode_result. rewrite Hget.
  destruct Hv as [[_ Hn]|(l & -> & Hl & Hobj)]; [congruence|].
  rewrite length_truthy. rewrite Hi in Hl. subst l.
  inversion Hobj as [|? ? (f & ->) _]. reflexivity.
Qed.

(** [naver_reverse_geocode] on an answer without results. *)
Lemma reverse_result_empty (lat lng : Num.number) (data : value) :
  list_field data "results" -> items data "results" = [] ->
  reverse_result lat lng data = Ok [Text coordinate_not_found].
Proof.
  intros H Hi. destruct (list_field_cases _ _ H) as (v & Hget & Hv).
  unfold reverse_result. rewrite Hget.
  destruct Hv as [[Hn _]|(l & -> & Hl & _)].
  - now rewrite nullish_length.
  - rewrite length_truthy. rewrite Hi in Hl. now subst l.
Qed.

(** A distance or a duration that is not a number. *)
Lemma kilometres_NaN (distance : value) :
  Js.isNaN distance = true -> kilometres distance = "NaNkm".
Proof.
  unfold Js.isNaN, kilometres. destruct (ToNumber distance); try discriminate.
  reflexivity.
Qed.

Lemma minutes_NaN (duration : value) :
  Js.isNaN duration = true -> minutes duration = "NaN분".
Proof.
  unfold Js.isNaN, minutes. destruct (ToNumber duration); try discriminate.
  reflexivity.
Qed.

(** The text of a route, whatever its distance and its duration are. *)
Lemma route_text_shape (best summary : value) (toll fuel : Datatypes.option Z) :
  route_shape best summary toll fuel ->
  exists tollFare fuelPrice,
    route_text best
    = Ok (route_template
            (ToString (field (field summary "start") "location"))
            (ToString (field (field summary "goal") "location"))
            (kilometres (field summary "distance"))
            (minutes (field summary "duration"))
            tollFare fuelPrice)
    /\ amount_text toll tollFare
    /\ amount_text fuel fuelPrice.
Proof.
  intros ((bf & ->) & Hs & Hobj & _ & _ & Htoll & Hfuel & Hstart & Hgoal & _).
  destruct (fare_amount_text _ _ _ Hobj Htoll) as (tollFare & Etoll & Htt).
  destruct (fare_amount_text _ _ _ Hobj Hfuel) as (fuelPrice & Efuel & Hft).
  exists tollFare, fuelPrice. split; [|split; assumption].
  unfold route_text.
  change (destructure "best" (VObj bf) "summary") with (Ok (field (VObj bf) "summary")).
  rewrite Hs. cbv iota. rewrite Etoll, Efuel.
  destruct Hobj as (sf & ->).
  change (get (VObj sf) "distance") with (Ok (field (VObj sf) "distance")).
  change (get (VObj sf) "duration") with (Ok (field (VObj sf) "duration")).
  change (get (VObj sf) "start") with (Ok (field (VObj sf) "start")).
  change (get (VObj sf) "goal") with (Ok (field (VObj sf) "goal")).
  cbv iota.
  destruct Hstart as (f1 & ->). destruct Hgoal as (f2 & ->).
  reflexivity.
Qed.

(** The text of a route without a summary. *)
Lemma route_text_without_summary (best : value) :
  is_object best ->
  nullish (field best "summary") = true ->
  route_text best
  = Throw (TypeError ("Cannot read properties of "
                      ++ describe (field best "summary")
                      ++ " (reading 'distance')")).
Proof.
  intros (bf & ->) Hn. unfold route_text.
  change (destructure "best" (VObj bf) "summary") with (Ok (field (VObj bf) "summary")).
  cbv iota. destruct (field (VObj bf) "summary"); try discriminate; reflexivity.
Qed.

Variable config : Config.
Variable net : Network.

(** The last request of [naver_directions], when it is a directions
    request, is made of the resolved start and goal. *)
Lemma directions_last_request start goal option waypoints res before req outcome :
  run (naver_directions config net start goal option waypoints)
  = (res, (before ++ [(req, outcome)])%list) ->
  endpoint req = directions_endpoint ->
  exists startCoords goalCoords,
    req = directions_request config startCoords goalCoords option waypoints.
Proof.
  unfold run. rewrite naver_directions_run. intros H Hend.
  apply after_geocode_cases in H.
  destruct H as [(e & Hc & _ & _ & Hlog)|(s & _ & H)].
  { symmetry in Hlog. apply not_last_geocode in Hlog; [|exact Hc].
    rewrite Hend in Hlog. discriminate. }
  apply after_geocode_cases in H.
  destruct H as [(e & Hc & _ & _ & Hlog)|(g & _ & H)].
  { symmetry in Hlog. apply not_last_geocode in Hlog; [|exact Hc].
    rewrite Hend in Hlog. discriminate. }
  apply last_call_inv in H. destruct H as (_ & -> & _ & _). now exists s, g.
Qed.

End MoreResponses.

Section Texts.

Import Js Server Spec Props.

(** X9. The geocode handler makes one request, whose [query] is the
    address as given (it does not classify it).  When the answer has
    candidates, the text shows the first one and ignores the others: its
    road address, or its land-lot address when the road address is
    missing or empty, then its [y] and its [x], the latitude before the
    longitude.  The three values shown are values that can be
    printed. *)
Theorem geocode_shows_the_first_candidate :
  forall config net address data first rest,
    answered (net [] (geocode_request config address)) data ->
    list_field data "addresses" ->
    items data "addresses" = first :: rest ->
    printable (if truthy (field first "roadAddress")
               then field first "roadAddress"
               else field first "jibunAddress") = true ->
    printable (field first "y") = true ->
    printable (field first "x") = true ->
    run (naver_geocode config net address)
    = (Ok [Text ("📍 주소: "
                 ++ ToString (if truthy (field first "roadAddress")
                              then field first "roadAddress"
                              else field first "jibunAddress")
                 ++ Str.nl ++ "🌐 좌표: " ++ ToString (field first "y") ++ ", "
                 ++ ToString (field first "x") ++ " (위도, 경도)")],
       [(geocode_request config address,
         net [] (geocode_request config address))])
    /\ searchParams (geocode_request config address) = [("query", address)].
Proof.
  intros config net address data first rest Ha Hl Hi _ _ _.
  split; [|reflexivity].
  unfold run. rewrite naver_geocode_run. unfold last_call.
  rewrite (settle_answered _ _ Ha). cbn [and_then app].
  now rewrite (geocode_result_first _ _ _ Hl Hi).
Qed.

(** X9 on a candidate whose road address is empty. *)
Lemma geocode_first_candidate_witness :
  fst (run (naver_geocode Examples.config
              (Samples.healthy Samples.one_jibun Examples.no_routes Samples.no_results)
              "Yeoksam"))
  = Ok [Text ("📍 주소: " ++ "Yeoksam-dong 737" ++ Str.nl
              ++ "🌐 좌표: " ++ "37.5000" ++ ", " ++ "127.0365" ++ " (위도, 경도)")].
Proof.
  set (net := Samples.healthy Samples.one_jibun Examples.no_routes Samples.no_results).
  destruct (geocode_shows_the_first_candidate
              Examples.config net "Yeoksam" Samples.one_jibun Samples.jibun_only [])
    as [H _].
  - shape.
  - shape.
  - reflexivity.
  - reflexivity.
  - reflexivity.
  - reflexivity.
  - rewrite H. reflexivity.
Defined.

(** X10. When the answer to the reverse-geocoding call has no result
    (the list is empty, missing or [null]), the handler returns the
    fixed text of that case, and that text does not have the form of an
    error message. *)
Theorem reverse_geocode_without_result :
  forall config net lat lng data,
    answered (net [] (reverse_request config lat lng)) data ->
    list_field data "results" ->
    items data "results" = [] ->
    run (naver_reverse_geocode config net lat lng)
    = (Ok [Text "해당 좌표의 주소를 찾을 수 없습니다."],
       [(reverse_request config lat lng, net [] (reverse_request config lat lng))])
    /\ forall e, "해당 좌표의 주소를 찾을 수 없습니다." <> error_text e.
Proof.
  intros config net lat lng data Ha Hl Hi. split.
  - unfold run. rewrite naver_reverse_geocode_run. unfold last_call.
    rewrite (settle_answered _ _ Ha). cbn [and_then app].
    now rewrite (reverse_result_empty _ _ _ Hl Hi).
  - intros e H. unfold error_text in H.
    apply (f_equal (fun s => String.get 0 s)) in H. discriminate.
Qed.

(** X10 on an answer with an empty list of results. *)
Lemma reverse_geocode_without_result_witness :
  fst (run (naver_reverse_geocode Examples.config
              (Samples.healthy Examples.no_candidates Examples.no_routes
                 Samples.no_results)
              (Num.of_Z 37) (Num.of_Z 127)))
  = Ok [Text "해당 좌표의 주소를 찾을 수 없습니다."].
Proof.
  set (net := Samples.healthy Examples.no_candidates Examples.no_routes
                Samples.no_results).
  destruct (reverse_geocode_without_result
              Examples.config net (Num.of_Z 37) (Num.of_Z 127) Samples.no_results)
    as [H _].
  - shape.
  - shape.
  - reflexivity.
  - rewrite H. reflexivity.
Defined.

(** X11. The directions request carries, after [start] and [goal], the
    [option] of the caller by its name and then the waypoints, verbatim,
    when there are some; an empty [waypoints] string is dropped, so the
    handler runs as if no waypoints had been given. *)
Theorem waypoints_are_forwarded_unless_empty :
  forall config net start goal option waypoints,
    (forall res before req outcome,
        run (naver_directions config net start goal option waypoints)
        = (res, (before ++ [(req, outcome)])%list) ->
        endpoint req = directions_endpoint ->
        skipn 2 (searchParams req)
        = ("option", option_name option)
          :: match waypoints with
             | Some w => if String.eqb w "" then [] else [("waypoints", w)]
             | None => []
             end)
    /\ (forall log,
          naver_directions config net start goal option (Some "") log
          = naver_directions config net start goal option None log).
Proof.
  intros config net start goal option waypoints. split; [|reflexivity].
  intros res before req outcome Hrun Hend.
  destruct (directions_last_request _ _ _ _ _ _ _ _ _ _ Hrun Hend) as (s & g & ->).
  destruct waypoints as [w|]; [|reflexivity].
  unfold directions_request, request, directions_params. cbn [searchParams truthy].
  destruct (String.eqb w ""); reflexivity.
Qed.

(** X11 on two coordinates and one waypoint. *)
Lemma waypoints_witness :
  skipn 2 (searchParams (directions_request Examples.config "127.0,37.5"
                           "129.0,35.1" traoptimal (Some "128.0,36.0")))
  = [("option", "traoptimal"); ("waypoints", "128.0,36.0")].
Proof.
  set (net := Examples.healthy Examples.one_candidate Examples.no_routes).
  set (req := directions_request Examples.config "127.0,37.5" "129.0,35.1"
                                 traoptimal (Some "128.0,36.0")).
  destruct (waypoints_are_forwarded_unless_empty
              Examples.config net "127.0,37.5" "129.0,35.1" traoptimal
              (Some "128.0,36.0")) as [H _].
  apply (H (fst (run (naver_directions Examples.config net "127.0,37.5"
                        "129.0,35.1" traoptimal (Some "128.0,36.0"))))
           [] req (net [] req)).
  - vm_compute. reflexivity.
  - reflexivity.
Defined.

(** X12. A distance or a duration that is missing from the summary of
    the route, or of which no number can be read, is not an error: the
    text of the route shows it as "NaNkm" or "NaN분".  The distance, the
    duration and the labels are values that can be printed, and the
    amounts are whole numbers below 2^53 or missing. *)
Theorem missing_distance_reads_NaN :
  forall config net start goal option waypoints res before req outcome data
         best summary toll fuel,
    run (naver_directions config net start goal option waypoints)
    = (res, (before ++ [(req, outcome)])%list) ->
    endpoint req = directions_endpoint ->
    answered outcome data ->
    directions_response data ->
    selected_route (field data "route") = Some best ->
    route_shape best summary toll fuel ->
    exists tollFare fuelPrice,
      res = Ok [Text (route_template
                        (ToString (field (field summary "start") "location"))
                        (ToString (field (field summary "goal") "location"))
                        (if Js.isNaN (field summary "distance") then "NaNkm"
                         else kilometres (field summary "distance"))
                        (if Js.isNaN (field summary "duration") then "NaN분"
                         else minutes (field summary "duration"))
                        tollFare fuelPrice)]
      /\ amount_text toll tollFare
      /\ amount_text fuel fuelPrice.
Proof.
  intros config net start goal option waypoints res before req outcome data
         best summary toll fuel Hrun Hend Ha Hd Hsel Hshape.
  rewrite (directions_answered _ _ _ _ _ _ _ _ _ _ _ Hrun Hend Ha).
  rewrite (directions_result_selected _ Hd), Hsel.
  destruct (route_text_shape _ _ _ _ Hshape) as (tollFare & fuelPrice & E & Ht & Hf).
  exists tollFare, fuelPrice. split; [|split; assumption].
  rewrite E. cbn [and_then reported].
  destruct (Js.isNaN (field summary "distance")) eqn:E1;
    [rewrite (kilometres_NaN _ E1)|];
    (destruct (Js.isNaN (field summary "duration")) eqn:E2;
     [rewrite (minutes_NaN _ E2)|]); reflexivity.
Qed.

(** X12 on a route whose summary has neither a distance nor a
    duration, and no amount. *)
Lemma missing_distance_witness :
  fst (run (naver_directions Examples.config
              (Examples.healthy Examples.one_candidate
                 (Examples.comfort_only Samples.bare_summary))
              "127.0,37.5" "129.0,35.1" trafast None))
  = Ok [Text (route_template "127,37.5" "129,35.1" "NaNkm" "NaN분" "0원" "0원")].
Proof.
  set (net := Examples.healthy Examples.one_candidate
                (Examples.comfort_only Samples.bare_summary)).
  set (req := directions_request Examples.config "127.0,37.5" "129.0,35.1"
                                 trafast None).
  destruct (missing_distance_reads_NaN
              Examples.config net "127.0,37.5" "129.0,35.1" trafast None
              (fst (run (naver_directions Examples.config net "127.0,37.5"
                           "129.0,35.1" trafast None)))
              [] req (net [] req)
              (Examples.comfort_only Samples.bare_summary)
              (Examples.route_with Samples.bare_summary)
              (VObj Samples.bare_summary) None None)
    as (tollFare & fuelPrice & Hres & Ht & Hf).
  - vm_compute. reflexivity.
  - reflexivity.
  - shape.
  - split; [shape|]. right. shape.
  - reflexivity.
  - unfold route_shape, fare_amount.
    repeat split; try (eexists; reflexivity).
  - cbn [amount_text] in Ht, Hf. subst tollFare fuelPrice.
    rewrite Hres. vm_compute. reflexivity.
Defined.

(** X13. A selected route without a summary is an error: reading the
    distance of the missing summary throws, and the handler returns the
    report of that exception instead of a route. *)
Theorem route_without_summary_is_reported :
  forall config net start goal option waypoints res before req outcome data best,
    run (naver_directions config net start goal option waypoints)
    = (res, (before ++ [(req, outcome)])%list) ->
    endpoint req = directions_endpoint ->
    answered outcome data ->
    directions_response data ->
    selected_route (field data "route") = Some best ->
    is_object best ->
    nullish (field best "summary") = true ->
    res = Ok [Text ("오류 발생: " ++ "Cannot read properties of "
                    ++ describe (field best "summary")
                    ++ " (reading 'distance')")].
Proof.
  intros config net start goal option waypoints res before req outcome data
         best Hrun Hend Ha Hd Hsel Hobj Hn.
  rewrite (directions_answered _ _ _ _ _ _ _ _ _ _ _ Hrun Hend Ha).
  rewrite (directions_result_selected _ Hd), Hsel.
  now rewrite (route_text_without_summary _ Hobj Hn).
Qed.

(** X13 on a route that is the empty object. *)
Lemma route_without_summary_witness :
  fst (run (naver_directions Examples.config
              (Examples.healthy Examples.one_candidate
                 (VObj [("route", VObj [("trafast", VArr [VObj []])])]))
              "127.0,37.5" "129.0,35.1" trafast None))
  = Ok [Text ("오류 발생: " ++ "Cannot read properties of " ++ "undefined"
              ++ " (reading 'distance')")].
Proof.
  set (data := VObj [("route", VObj [("trafast", VArr [VObj []])])]).
  set (net := Examples.healthy Examples.one_candidate data).
  set (req := directions_request Examples.config "127.0,37.5" "129.0,35.1"
                                 trafast None).
  apply (route_without_summary_is_reported
           Examples.config net "127.0,37.5" "129.0,35.1" trafast None
           _ [] req (net [] req) data (VObj [])).
  - vm_compute. reflexivity.
  - reflexivity.
  - shape.
  - split; [shape|]. right. shape.
  - reflexivity.
  - shape.
  - reflexivity.
Defined.

End Texts.

(* ================================================================== *)
(** ** The image of the static map *)
(* ================================================================== *)

Section Images.

Import Js Server Spec Props.

(** Every character of an encoding is of the alphabet. *)
Lemma char_of_sextet_alphabet (s : Base64.sextet) :
  In (Base64.char_of_sextet s) (list_ascii_of_string Base64.alphabet).
Proof.
  destruct s as [[[[[b5 b4] b3] b2] b1] b0].
  destruct b5, b4, b3, b2, b1, b0; vm_compute; tauto.
Qed.

(** Three bytes make four characters, and so does what is left of one
    or two bytes at the end. *)
Lemma encode_shape_bounded (n : nat) :
  forall data, (List.length data <= n)%nat ->
    String.length (Base64.encode data) = (4 * ((List.length data + 2) / 3))%nat
    /\ Forall (fun c => In c (list_ascii_of_string Base64.alphabet) \/ c = Base64.pad)
              (list_ascii_of_string (Base64.encode data)).
Proof.
  induction n as [n IH] using lt_wf_ind.
  intros [|a [|b [|c rest]]] Hlen.
  - split; [reflexivity|constructor].
  - cbn [Base64.encode].
    destruct (Base64.sextets3 a Byte.x00 Byte.x00) as [[[s1 s2] s3] s4].
    split; [reflexivity|]. cbn [Base64.str4 list_ascii_of_string].
    repeat (apply Forall_cons;
            [first [left; apply char_of_sextet_alphabet|right; reflexivity]|]).
    apply Forall_nil.
  - cbn [Base64.encode].
    destruct (Base64.sextets3 a b Byte.x00) as [[[s1 s2] s3] s4].
    split; [reflexivity|]. cbn [Base64.str4 list_ascii_of_string].
    repeat (apply Forall_cons;
            [first [left; apply char_of_sextet_alphabet|right; reflexivity]|]).
    apply Forall_nil.
  - cbn [Base64.encode].
    destruct (Base64.sextets3 a b c) as [[[s1 s2] s3] s4].
    destruct (IH (List.length rest)) with (data := rest) as [Hl Hc];
      [simpl in Hlen; lia|lia|].
    split.
    + cbn [Base64.str4 String.length List.length]. rewrite Hl.
      replace (S (S (S (List.length rest))) + 2)%nat
        with (List.length rest + 2 + 1 * 3)%nat by lia.
      rewrite Nat.div_add by lia. lia.
    + cbn [Base64.str4 list_ascii_of_string].
      repeat (apply Forall_cons; [left; apply char_of_sextet_alphabet|]).
      exact Hc.
Qed.

Variable config : Config.
Variable net : Network.

(** The last request of [naver_static_map], when it is a raster
    request, and the result made of its outcome. *)
Lemma static_map_last_request center level w h format res before req outcome :
  run (naver_static_map config net center level w h format)
  = (res, (before ++ [(req, outcome)])%list) ->
  endpoint req = static_endpoint ->
  exists centerCoords,
    req = static_request config centerCoords level w h format
    /\ res = Ok (reported (and_then (settle true outcome)
                   (fun buffer => Ok (static_result centerCoords level w h format buffer)))).
Proof.
  unfold run. rewrite naver_static_map_run. intros H Hend.
  apply after_geocode_cases in H.
  destruct H as [(e & Hc & _ & _ & Hlog)|(c & _ & H)].
  { symmetry in Hlog. apply not_last_geocode in Hlog; [|exact Hc].
    rewrite Hend in Hlog. discriminate. }
  apply last_call_inv in H. destruct H as (_ & -> & _ & ->). now exists c.
Qed.

(** The whole numbers the schema of the tool allows for the level and
    the size are written as their decimal numerals. *)
Lemma toString_small_integer (n : Z) :
  1 <= n <= 1280 -> Num.toString (Num.of_Z n) = Str.of_Z n.
Proof.
  intros Hn.
  assert (H : forallb (fun k => String.eqb (Num.toString (Num.of_Z (Z.of_nat k)))
                                           (Str.of_Z (Z.of_nat k)))
                      (seq 1 1280) = true) by (vm_compute; reflexivity).
  rewrite forallb_forall in H.
  specialize (H (Z.to_nat n)). rewrite Z2Nat.id in H by lia.
  apply String.eqb_eq, H, in_seq. lia.
Qed.

End Images.

Section ImageTheorems.

Import Js Server Spec Props.

(** X14. The base64 text in the data URI of the static map has four
    characters for every three bytes of the image, the last group
    filled up; its characters are those of the base64 alphabet and the
    padding sign. *)
Theorem static_map_image_has_four_thirds_the_size :
  forall config net center level w h format res before req outcome buffer,
    run (naver_static_map config net center level w h format)
    = (res, (before ++ [(req, outcome)])%list) ->
    endpoint req = static_endpoint ->
    answered_bytes outcome buffer ->
    exists base64 caption,
      res = Ok [Image ("data:image/" ++ format_name format ++ ";base64," ++ base64);
                Text caption]
      /\ String.length base64 = (4 * ((List.length buffer + 2) / 3))%nat
      /\ Forall (fun c => In c (list_ascii_of_string Base64.alphabet) \/ c = "="%char)
                (list_ascii_of_string base64).
Proof.
  intros config net center level w h format res before req outcome buffer
         Hrun Hend Ha.
  destruct (static_map_last_request _ _ _ _ _ _ _ _ _ _ _ Hrun Hend)
    as (c & _ & ->).
  rewrite (settle_answered_bytes _ _ Ha). cbn [and_then reported static_result].
  eexists _, _. split; [reflexivity|].
  now apply (encode_shape_bounded (List.length buffer)).
Qed.

(** X14 on an image of five bytes: eight characters. *)
Lemma static_map_image_size_witness :
  exists base64 caption,
    fst (run (naver_static_map Examples.config
                (Examples.healthy Examples.one_candidate Examples.no_routes)
                "127.0,37.5" Examples.six Examples.four_hundred
                Examples.four_hundred png))
    = Ok [Image ("data:image/" ++ "png" ++ ";base64," ++ base64); Text caption]
    /\ String.length base64 = 8%nat.
Proof.
  set (net := Examples.healthy Examples.one_candidate Examples.no_routes).
  set (req := static_request Examples.config "127.0,37.5" Examples.six
                Examples.four_hundred Examples.four_hundred png).
  destruct (static_map_image_has_four_thirds_the_size
              Examples.config net "127.0,37.5" Examples.six Examples.four_hundred
              Examples.four_hundred png
              (fst (run (naver_static_map Examples.config net "127.0,37.5"
                           Examples.six Examples.four_hundred
                           Examples.four_hundred png)))
              [] req (net [] req) Examples.image)
    as (base64 & caption & Hres & Hlen & _).
  - vm_compute. reflexivity.
  - reflexivity.
  - shape.
  - exists base64, caption. split; [exact Hres|exact Hlen].
Defined.

(** X15. For a whole level from 1 to 20 and a whole width and height
    from 1 to 1280, the values the schema of the tool allows, the raster
    request carries the three numbers as plain decimal numerals, after
    the resolved centre and before the name of the format, and the
    caption repeats them. *)
Theorem static_map_sends_decimal_numerals :
  forall config net center level w h format res before req outcome buffer,
    1 <= level <= 20 -> 1 <= w <= 1280 -> 1 <= h <= 1280 ->
    run (naver_static_map config net center
           (Num.of_Z level) (Num.of_Z w) (Num.of_Z h) format)
    = (res, (before ++ [(req, outcome)])%list) ->
    endpoint req = static_endpoint ->
    answered_bytes outcome buffer ->
    exists centerCoords,
      searchParams req
      = [("center", centerCoords); ("level", Str.of_Z level);
         ("w", Str.of_Z w); ("h", Str.of_Z h); ("format", format_name format)]
      /\ res = Ok [Image ("data:image/" ++ format_name format ++ ";base64,"
                          ++ Base64.encode buffer);
                   Text ("🗺️ 정적 지도 (center: " ++ centerCoords
                         ++ ", level: " ++ Str.of_Z level
                         ++ ", size: " ++ Str.of_Z w ++ "x" ++ Str.of_Z h ++ ")")].
Proof.
  intros config net center level w h format res before req outcome buffer
         Hlevel Hw Hh Hrun Hend Ha.
  destruct (static_map_last_request _ _ _ _ _ _ _ _ _ _ _ Hrun Hend)
    as (c & -> & ->).
  rewrite (settle_answered_bytes _ _ Ha). cbn [and_then reported static_result].
  exists c. unfold static_request, request, static_result.
  cbn [searchParams append_params flat_map app ToString].
  rewrite !toString_small_integer by lia. split; reflexivity.
Qed.

(** X15 on level 6 and a size of 400 by 400. *)
Lemma static_map_decimal_witness :
  exists centerCoords,
    searchParams (static_request Examples.config "127.0,37.5" (Num.of_Z 6)
                    (Num.of_Z 400) (Num.of_Z 400) png)
    = [("center", centerCoords); ("level", "6"); ("w", "400"); ("h", "400");
       ("format", "png")].
Proof.
  set (net := Examples.healthy Examples.one_candidate Examples.no_routes).
  set (req := static_request Examples.config "127.0,37.5" (Num.of_Z 6)
                (Num.of_Z 400) (Num.of_Z 400) png).
  destruct (static_map_sends_decimal_numerals
              Examples.config net "127.0,37.5" 6 400 400 png
              (fst (run (naver_static_map Examples.config net "127.0,37.5"
                           (Num.of_Z 6) (Num.of_Z 400) (Num.of_Z 400) png)))
              [] req (net [] req) Examples.image)
    as (c & Hparams & _).
  - lia.
  - lia.
  - lia.
  - vm_compute. reflexivity.
  - reflexivity.
  - shape.
  - exists c. exact Hparams.
Defined.

End ImageTheorems.

(* ================================================================== *)
(** ** The earlier revisions *)
(* ================================================================== *)

Section LegacyLemmas.

Import Js Server Spec Props.

(** Rounding keeps the sign. *)
Lemma binary_round_aux_sign (s : bool) (m : Z) (e : Z) (l : location) :
  match binary_round_aux Num.prec Num.emax s m e l with
  | S754_zero s' | S754_infinity s' | S754_finite s' _ _ => s' = s
  | S754_nan => True
  end.
Proof.
  unfold binary_round_aux.
  destruct (shr_fexp Num.prec Num.emax m e l) as [r1 e1].
  destruct (shr_fexp Num.prec Num.emax _ e1 loc_Exact) as [r2 e2].
  destruct (shr_m r2); [reflexivity| |exact I].
  destruct (e2 <=? Num.emax - Num.prec); reflexivity.
Qed.

(** The Number of a positive integer is above zero, and the Number of 0
    is zero. *)
Lemma of_Z_positive (p : positive) :
  SFltb (S754_zero false) (Num.of_Z (Zpos p)) = true
  /\ Legacy.is_zero (VNum (Num.of_Z (Zpos p))) = false.
Proof.
  pose proof (of_Z_truthy (Zpos p)) as Ht. cbn [Z.eqb negb] in Ht.
  unfold Num.of_Z, binary_normalize, binary_round in *.
  destruct (shl_align p 0 (fexp Num.prec Num.emax (Zpos (digits2_pos p) + 0)))
    as [mz ez].
  pose proof (binary_round_aux_sign false (Zpos mz) ez loc_Exact) as Hs.
  destruct (binary_round_aux Num.prec Num.emax false (Zpos mz) ez loc_Exact);
    try discriminate; subst; split; reflexivity.
Qed.

Lemma has_items_list (l : list value) :
  Legacy.has_items (VArr l) = Ok (negb (Nat.eqb (List.length l) 0)).
Proof.
  unfold Legacy.has_items, Legacy.gt_zero. cbn [truthy get ToNumber].
  change (String.eqb "length" "length") with true. cbv iota. cbn [ToNumber].
  destruct l as [|x l]; [reflexivity|].
  cbn [List.length Nat.eqb negb]. rewrite Nat2Z.inj_succ.
  destruct (Z.succ (Z.of_nat (List.length l))) as [|p|p] eqn:E; try lia.
  now rewrite (proj1 (of_Z_positive p)).
Qed.

Lemma no_items_list (l : list value) :
  Legacy.no_items (VArr l) = Ok (Nat.eqb (List.length l) 0).
Proof.
  unfold Legacy.no_items. cbn [truthy negb get].
  change (String.eqb "length" "length") with true. cbv iota.
  destruct l as [|x l]; [reflexivity|].
  cbn [List.length Nat.eqb]. rewrite Nat2Z.inj_succ.
  destruct (Z.succ (Z.of_nat (List.length l))) as [|p|p] eqn:E; try lia.
  now rewrite (proj2 (of_Z_positive p)).
Qed.

Lemma has_items_nullish (v : value) :
  nullish v = true -> Legacy.has_items v = Ok false.
Proof. destruct v; try discriminate; reflexivity. Qed.

Lemma no_items_nullish (v : value) :
  nullish v = true -> Legacy.no_items v = Ok true.
Proof. destruct v; try discriminate; reflexivity. Qed.

(** The geocoding step of the earlier revisions is the spec's. *)
Lemma legacy_resolved_geocoded (input : string) (data : value) :
  list_field data "addresses" ->
  Legacy.resolved input data = Ok (geocoded input data).
Proof.
  intros H. destruct (list_field_cases _ _ H) as (v & Hget & Hv).
  unfold Legacy.resolved, geocoded. rewrite Hget.
  destruct Hv as [[Hn Hi]|(l & -> & Hi & Hl)]; rewrite Hi.
  - now rewrite has_items_nullish.
  - rewrite has_items_list. destruct l as [|c l]; [reflexivity|].
    cbn [List.length Nat.eqb negb].
    inversion Hl as [|? ? (f & ->) _]. reflexivity.
Qed.

Lemma legacy_geocode_result_same (data : value) :
  list_field data "addresses" ->
  Legacy.geocode_result data = geocode_result data.
Proof.
  intros H.
  destruct (items data "addresses") as [|first rest] eqn:Hi;
    destruct (list_field_cases _ _ H) as (v & Hget & Hv).
  - rewrite (geocode_result_empty _ H Hi).
    unfold Legacy.geocode_result. rewrite Hget.
    destruct Hv as [[Hn _]|(l & -> & Hl & _)].
    + now rewrite no_items_nullish.
    + rewrite no_items_list. rewrite Hi in Hl. now subst l.
  - rewrite (geocode_result_first _ _ _ H Hi).
    unfold Legacy.geocode_result. rewrite Hget.
    destruct Hv as [[_ Hn]|(l & -> & Hl & Hobj)]; [congruence|].
    rewrite no_items_list. rewrite Hi in Hl. subst l.
    inversion Hobj as [|? ? (f & Hf) _]. subst first.
    cbn [List.length Nat.eqb].
    change (get0 (VArr (VObj f :: rest))) with (@Ok value (VObj f)). cbv iota.
    unfold or, field, opt_get. cbn [get].
    destruct (truthy _); reflexivity.
Qed.

Lemma legacy_reverse_result_same (lat lng : Num.number) (data : value) :
  list_field data "results" ->
  Legacy.reverse_result lat lng data = reverse_result lat lng data.
Proof.
  intros H. destruct (list_field_cases _ _ H) as (v & Hget & Hv).
  unfold Legacy.reverse_result, reverse_result. rewrite Hget.
  destruct Hv as [[Hn _]|(l & -> & Hl & Hobj)].
  - now rewrite no_items_nullish, nullish_length.
  - rewrite no_items_list, length_truthy.
    destruct l as [|first rest]; [reflexivity|].
    inversion Hobj as [|? ? (f & ->) _]. reflexivity.
Qed.

Lemma truthy_not_nullish (v : value) : truthy v = true -> nullish v = false.
Proof. destruct v; try discriminate; reflexivity. Qed.

Lemma legacy_directions_result_same (data : value) :
  Legacy.directions_result data = directions_result data.
Proof.
  unfold Legacy.directions_result, directions_result.
  destruct (get data "route") as [route|e]; [|reflexivity].
  destruct (best_route _) as [best|e]; [|reflexivity].
  destruct (truthy best) eqn:T; [|reflexivity]. cbn [negb].
  unfold Legacy.route_text, route_text, destructure.
  now rewrite (truthy_not_nullish _ T).
Qed.

Variable config : Config.
Variable net : Network.
Variable hostname : result string.

(** A gateway call of the earlier revisions that is answered. *)
Lemma legacy_gateway_answered endpoint params log data :
  answered (net log (Legacy.request config endpoint params)) data ->
  Legacy.makeNaverAPIRequest config net hostname endpoint params log
  = (Ok data, (log ++ [(Legacy.request config endpoint params,
                        net log (Legacy.request config endpoint params))])%list).
Proof.
  intros (response & Hout & Hok & Hjson).
  unfold Legacy.makeNaverAPIRequest, bind, fetch. rewrite Hout, Hok.
  cbn [negb]. unfold lift. now rewrite Hjson.
Qed.

(** The geocoding step of the earlier revisions, when its call is
    answered. *)
Lemma legacy_geocode_step input data :
  (isCoordinate_unhardened input = false ->
   answered (net [] (Legacy.request config geocode_endpoint [("query", VStr input)]))
            data
   /\ list_field data "addresses") ->
  Legacy.geocode_if_not_coordinate config net hostname input []
  = (Ok (if isCoordinate_unhardened input then input else geocoded input data),
     if isCoordinate_unhardened input then []
     else [(Legacy.request config geocode_endpoint [("query", VStr input)],
            net [] (Legacy.request config geocode_endpoint [("query", VStr input)]))]).
Proof.
  intros H. unfold Legacy.geocode_if_not_coordinate.
  destruct (isCoordinate_unhardened input); [reflexivity|].
  destruct (H eq_refl) as [Ha Hl]. cbn [negb]. unfold bind.
  rewrite (legacy_gateway_answered _ _ _ _ Ha). unfold lift.
  now rewrite (legacy_resolved_geocoded _ _ Hl).
Qed.

End LegacyLemmas.

Section LegacyTheorems.

Import Js Server Spec Props.

(** X16. The gateway of the earlier revisions puts the host name of the
    page after the status in the message of its transport error.  Where
    evaluating [window.location.hostname] throws (there is no [window]
    outside a browser), that exception is thrown in place of the
    transport error, and the report of the handler does not carry the
    status. *)
Theorem earlier_gateway_reads_the_host_name :
  forall config net hostname endpoint params log response,
    net log (Legacy.request config endpoint params) = Ok response ->
    ok response = false ->
    Legacy.makeNaverAPIRequest config net hostname endpoint params log
    = (Throw (match hostname with
              | Ok host =>
                  Error ("네이버 API 오류: " ++ Str.of_Z (status response) ++ " "
                         ++ statusText response ++ " " ++ host)
              | Throw e => e
              end),
       (log ++ [(Legacy.request config endpoint params, Ok response)])%list)
    /\ (forall address,
          endpoint = geocode_endpoint -> params = [("query", VStr address)] ->
          fst (Legacy.naver_geocode config net hostname address log)
          = Ok [Text ("오류 발생: "
                      ++ match hostname with
                         | Ok host =>
                             "네이버 API 오류: " ++ Str.of_Z (status response) ++ " "
                             ++ statusText response ++ " " ++ host
                         | Throw e => message e
                         end)]).
Proof.
  intros config net hostname endpoint params log response Hnet Hok.
  assert (H : Legacy.makeNaverAPIRequest config net hostname endpoint params log
              = (Throw (match hostname with
                        | Ok host =>
                            Error ("네이버 API 오류: " ++ Str.of_Z (status response)
                                   ++ " " ++ statusText response ++ " " ++ host)
                        | Throw e => e
                        end),
                 (log ++ [(Legacy.request config endpoint params, Ok response)])%list)).
  { unfold Legacy.makeNaverAPIRequest, bind, fetch. rewrite Hnet, Hok.
    cbn [negb]. unfold lift, throw. destruct hostname; reflexivity. }
  split; [exact H|].
  intros address -> ->.
  unfold Legacy.naver_geocode, try_catch, bind. rewrite H.
  destruct hostname; reflexivity.
Qed.

(** X16 on a provider that answers 403 Forbidden, where there is no
    [window]. *)
Lemma earlier_gateway_witness :
  fst (Legacy.naver_geocode Examples.config Examples.forbidden Samples.no_window
         "Seoul" [])
  = Ok [Text ("오류 발생: " ++ "window is not defined")].
Proof.
  set (response := {| status := 403; statusText := "Forbidden";
                      json := Ok VNull; arrayBuffer := [] |}).
  destruct (earlier_gateway_reads_the_host_name
              Examples.config Examples.forbidden Samples.no_window
              geocode_endpoint [("query", VStr "Seoul")] [] response)
    as [_ H].
  - reflexivity.
  - reflexivity.
  - exact (H "Seoul" eq_refl eq_refl).
Defined.

(** X17. On the answers the provider is expected to give, the earlier
    revisions, which test a list with [&&] and a comparison of its
    length, compute what the latest revision computes with optional
    chaining: the same result of the directions handler for every
    answer, and the same geocoding step and the same result of the
    geocode and of the reverse-geocode handler for every answer whose
    list is missing, [null] or a list of objects. *)
Theorem rewrite_kept_the_results :
  forall data,
    Legacy.directions_result data = directions_result data
    /\ (list_field data "addresses" ->
        Legacy.geocode_result data = geocode_result data
        /\ forall input, Legacy.resolved input data = resolved input data)
    /\ (list_field data "results" ->
        forall lat lng,
          Legacy.reverse_result lat lng data = reverse_result lat lng data).
Proof.
  intros data. split; [apply legacy_directions_result_same|]. split.
  - intros H. split; [now apply legacy_geocode_result_same|].
    intros input. now rewrite legacy_resolved_geocoded, resolved_geocoded.
  - intros H lat lng. now apply legacy_reverse_result_same.
Qed.

(** X17 on an answer with one candidate. *)
Lemma rewrite_kept_the_results_witness :
  Legacy.geocode_result Samples.one_jibun = geocode_result Samples.one_jibun
  /\ forall input,
       Legacy.resolved input Samples.one_jibun = resolved input Samples.one_jibun.
Proof.
  destruct (rewrite_kept_the_results Samples.one_jibun) as (_ & H & _).
  apply H. shape.
Defined.

(** X18. The static-map tool of the earlier revision that returns the
    image as base64 keeps going when the geocoding of [center] finds
    nothing: it makes the geocoding call for a [center] its classifier
    rejects, and then requests the image, without the gateway, for the
    first candidate or, when there is none, for [center] as given, in
    the format [png]; it returns a caption and the bytes in base64 with
    the type [image/png].  The geocoding call is answered with a
    well-formed response, in which the coordinates of the first
    candidate can be printed. *)
Theorem earlier_static_map_keeps_the_center :
  forall config net hostname center level w h data,
    (isCoordinate_unhardened center = false ->
     answered (net [] (Legacy.request config geocode_endpoint
                         [("query", VStr center)])) data
     /\ geocoding_response data) ->
    let calls :=
      if isCoordinate_unhardened center then []
      else [(Legacy.request config geocode_endpoint [("query", VStr center)],
             net [] (Legacy.request config geocode_endpoint
                       [("query", VStr center)]))] in
    let centerCoords :=
      if isCoordinate_unhardened center then center
      else match items data "addresses" with
           | candidate :: _ => lon_lat candidate
           | [] => center
           end in
    let req := Legacy.raster_request config centerCoords level w h in
    snd (run (Legacy.Inline.naver_static_map config net hostname center level w h))
    = (calls ++ [(req, net calls req)])%list
    /\ searchParams req
       = [("center", centerCoords); ("level", Num.toString level);
          ("w", Num.toString w); ("h", Num.toString h); ("format", "png")]
    /\ forall buffer,
         answered_bytes (net calls req) buffer ->
         fst (run (Legacy.Inline.naver_static_map config net hostname
                     center level w h))
         = Ok [Legacy.Caption
                 ("🗺️ 정적 지도 이미지가 생성되었습니다." ++ Str.nl ++ Str.nl
                  ++ "📍 중심 좌표: " ++ centerCoords ++ Str.nl
                  ++ "📏 크기: " ++ Num.toString w ++ "x" ++ Num.toString h
                  ++ "px" ++ Str.nl
                  ++ "🔍 레벨: " ++ Num.toString level ++ Str.nl ++ Str.nl
                  ++ "이미지가 Base64 형식으로 반환되었습니다.");
               Legacy.Picture (Base64.encode buffer) "image/png"].
Proof.
  intros config net hostname center level w h data H. cbv zeta.
  assert (Hstep := legacy_geocode_step config net hostname center data
                     (fun Hc => conj (proj1 (H Hc)) (proj1 (proj2 (H Hc))))).
  change (match items data "addresses" with
          | candidate :: _ => lon_lat candidate
          | [] => center
          end) with (geocoded center data).
  unfold run, Legacy.Inline.naver_static_map, try_catch, bind.
  rewrite Hstep. unfold fetch.
  set (calls := if isCoordinate_unhardened center then [] else _).
  set (centerCoords := if isCoordinate_unhardened center then center else _).
  split; [|split; [reflexivity|]].
  - destruct (net calls (Legacy.raster_request config centerCoords level w h))
      as [response|e]; [|reflexivity].
    destruct (negb (ok response)); reflexivity.
  - intros buffer (response & Hout & Hok & Hbytes).
    rewrite Hout, Hok. cbn [negb]. now rewrite Hbytes.
Qed.

(** X18 on an address the provider does not know. *)
Lemma earlier_static_map_witness :
  snd (run (Legacy.Inline.naver_static_map Examples.config Examples.silent
              Samples.no_window "Seoul" Examples.six Examples.four_hundred
              Examples.four_hundred))
  = (let greq := Legacy.request Examples.config geocode_endpoint
                   [("query", VStr "Seoul")] in
     let req := Legacy.raster_request Examples.config "Seoul" Examples.six
                  Examples.four_hundred Examples.four_hundred in
     [(greq, Examples.silent [] greq); (req, Examples.silent [] req)]).
Proof.
  apply (earlier_static_map_keeps_the_center
           Examples.config Examples.silent Samples.no_window "Seoul"
           Examples.six Examples.four_hundred Examples.four_hundred
           Examples.no_candidates).
  intros _. shape.
Defined.

End LegacyTheorems.

(* ================================================================== *)
(** ** Query strings: parsing undoes serializing *)
(* ================================================================== *)

Section UrlLemmas.

Import Url.

Lemma cut_app (sep : ascii) (a b : string) :
  Str.free sep a -> cut sep (a ++ String sep b) = (a, b).
Proof.
  unfold Str.free. induction a as [|c a IH]; simpl; intros H.
  - now rewrite Ascii.eqb_refl.
  - inversion H as [|? ? Hc Ha]; subst.
    destruct (Ascii.eqb_spec c sep); [contradiction|].
    now rewrite (IH Ha).
Qed.

(** What the serializer writes for one byte: a character that is not
    [&], [=], [+] or [%] when the byte stands for itself, and two
    hexadecimal digits that name the byte otherwise. *)
Lemma unreserved_plain (c : ascii) :
  unreserved c = true ->
  c <> "&"%char /\ c <> "="%char
  /\ Ascii.eqb c "+" = false /\ Ascii.eqb c "%" = false.
Proof.
  destruct c as [[] [] [] [] [] [] [] []]; vm_compute; intros H;
    try discriminate H; repeat split; discriminate.
Qed.

Lemma percent_digits (c : ascii) :
  let h := hex_digit (nat_of_ascii c / 16) in
  let l := hex_digit (nat_of_ascii c mod 16) in
  h <> "&"%char /\ h <> "="%char /\ l <> "&"%char /\ l <> "="%char
  /\ match hex_val h, hex_val l with
     | Some a, Some b => ascii_of_nat (16 * a + b) = c
     | _, _ => False
     end.
Proof.
  destruct c as [[] [] [] [] [] [] [] []]; vm_compute;
    repeat split; discriminate.
Qed.

Lemma encode_free (s : string) :
  Str.free "&" (encode s) /\ Str.free "=" (encode s).
Proof.
  unfold Str.free. induction s as [|c s [IH1 IH2]]; [split; constructor|].
  cbn [encode]. destruct (unreserved c) eqn:U.
  - destruct (unreserved_plain c U) as (H1 & H2 & _).
    split; constructor; assumption.
  - destruct (Ascii.eqb c " ").
    + split; constructor; try assumption; discriminate.
    + destruct (percent_digits c) as (H1 & H2 & H3 & H4 & _).
      unfold percent.
      split; (constructor; [discriminate|]);
        (constructor; [assumption|]); constructor; assumption.
Qed.

Lemma decode_encode_query (s : string) : decode (encode s) = s.
Proof.
  induction s as [|c s IH]; [reflexivity|].
  cbn [encode]. destruct (unreserved c) eqn:U.
  - destruct (unreserved_plain c U) as (_ & _ & H1 & H2).
    cbn [decode]. now rewrite H1, H2, IH.
  - destruct (Ascii.eqb_spec c " ") as [->|_].
    + cbn [decode]. change (Ascii.eqb "+" "+") with true. cbv iota. now rewrite IH.
    + destruct (percent_digits c) as (_ & _ & _ & _ & H).
      unfold percent. cbn [decode].
      change (Ascii.eqb "%" "+") with false.
      change (Ascii.eqb "%" "%") with true. cbv iota.
      destruct (hex_val (hex_digit (nat_of_ascii c / 16))) as [a|]; [|contradiction].
      destruct (hex_val (hex_digit (nat_of_ascii c mod 16))) as [b|]; [|contradiction].
      now rewrite H, IH.
Qed.

(** Parsing a serialized list of pairs gives the list back. *)
Lemma parse_serialize (params : list (string * string)) :
  parse (serialize params) = params.
Proof.
  unfold parse, serialize.
  destruct params as [|p params]; [reflexivity|].
  rewrite split_join.
  - induction (p :: params) as [|[name v] l IH]; [reflexivity|].
    cbn [map flat_map].
    destruct (encode name ++ "=" ++ encode v) eqn:E.
    { destruct (encode name); discriminate. }
    rewrite <- E.
    change (encode name ++ "=" ++ encode v)
      with (encode name ++ String "=" (encode v)).
    rewrite cut_app by apply encode_free.
    rewrite !decode_encode_query, IH. reflexivity.
  - discriminate.
  - apply Forall_forall. intros piece Hin.
    apply in_map_iff in Hin. destruct Hin as ([name v] & <- & _).
    apply free_app; [apply encode_free|].
    apply (free_app "&" "=" (encode v)); [|apply encode_free].
    repeat constructor. discriminate.
Qed.

End UrlLemmas.

Section LinkTheorems.

Import Js Server Spec Props.

(** X19. The static-map tool of the earlier revision that returns a
    URL never requests the image: its only exchange is the geocoding
    call for a [center] its classifier rejects.  When that call is
    answered, the text carries the URL of the raster endpoint whose
    query, read back with the parser of the URL standard, is the centre
    (the first candidate, or [center] as given when there is none), the
    level, the width, the height and the format [png].  The answer is a
    well-formed response, in which the coordinates of the first
    candidate can be printed. *)
Theorem earlier_static_map_only_writes_the_url :
  forall config net hostname center level w h,
    ((List.length
        (snd (run (Legacy.Link.naver_static_map config net hostname
                     center level w h))) <= 1)%nat
     /\ Forall (fun ex : Exchange => endpoint (fst ex) = geocode_endpoint)
               (snd (run (Legacy.Link.naver_static_map config net hostname
                            center level w h))))
    /\ forall data,
         (isCoordinate_unhardened center = false ->
          answered (net [] (Legacy.request config geocode_endpoint
                              [("query", VStr center)])) data
          /\ geocoding_response data) ->
         let centerCoords :=
           if isCoordinate_unhardened center then center
           else match items data "addresses" with
                | candidate :: _ => lon_lat candidate
                | [] => center
                end in
         exists query,
           fst (run (Legacy.Link.naver_static_map config net hostname
                       center level w h))
           = Ok [Text ("🗺️ 정적 지도 이미지 URL이 생성되었습니다." ++ Str.nl ++ Str.nl
                       ++ "📍 중심 좌표: " ++ centerCoords ++ Str.nl
                       ++ "📏 크기: " ++ Num.toString w ++ "x" ++ Num.toString h
                       ++ "px" ++ Str.nl
                       ++ "🔍 레벨: " ++ Num.toString level ++ Str.nl ++ Str.nl
                       ++ "🔗 이미지 URL:" ++ Str.nl
                       ++ "https://maps.apigw.ntruss.com/map-static/v2/raster?"
                       ++ query ++ Str.nl ++ Str.nl
                       ++ "* 이 URL에 적절한 API 키 헤더를 포함하여 요청하면 지도 이미지를 받을 수 있습니다.")]
           /\ Url.parse query
              = [("center", centerCoords); ("level", Num.toString level);
                 ("w", Num.toString w); ("h", Num.toString h); ("format", "png")].
Proof.
  intros config net hostname center level w h. split.
  - unfold run, Legacy.Link.naver_static_map, try_catch, bind,
      Legacy.geocode_if_not_coordinate.
    destruct (isCoordinate_unhardened center); cbn [negb].
    + split; [simpl; lia|constructor].
    + unfold bind, Legacy.makeNaverAPIRequest, bind, fetch.
      destruct (net [] _) as [response|e].
      * destruct (negb (ok response)).
        -- unfold lift. destruct hostname; split; cbn; try lia;
             repeat constructor.
        -- unfold lift. destruct (json response) as [geo|e].
           ++ destruct (Legacy.resolved center geo);
                split; cbn; try lia; repeat constructor.
           ++ split; cbn; try lia; repeat constructor.
      * split; cbn; try lia; repeat constructor.
  - intros data H. cbv zeta.
    assert (Hstep := legacy_geocode_step config net hostname center data
                       (fun Hc => conj (proj1 (H Hc)) (proj1 (proj2 (H Hc))))).
    change (match items data "addresses" with
            | candidate :: _ => lon_lat candidate
            | [] => center
            end) with (geocoded center data).
    unfold run, Legacy.Link.naver_static_map, try_catch, bind.
    rewrite Hstep.
    set (centerCoords := if isCoordinate_unhardened center then center else _).
    exists (Url.serialize (Legacy.raster_params centerCoords level w h)).
    split; [reflexivity|]. apply parse_serialize.
Qed.

(** X19 on a centre that is a coordinate: no exchange, and the comma in
    the query is escaped. *)
Lemma earlier_static_map_url_witness :
  exists query,
    fst (run (Legacy.Link.naver_static_map Examples.config Examples.silent
                Samples.no_window "127.0,37.5" Examples.six
                Examples.four_hundred Examples.four_hundred))
    = Ok [Text ("🗺️ 정적 지도 이미지 URL이 생성되었습니다." ++ Str.nl ++ Str.nl
                ++ "📍 중심 좌표: " ++ "127.0,37.5" ++ Str.nl
                ++ "📏 크기: " ++ "400" ++ "x" ++ "400" ++ "px" ++ Str.nl
                ++ "🔍 레벨: " ++ "6" ++ Str.nl ++ Str.nl
                ++ "🔗 이미지 URL:" ++ Str.nl
                ++ "https://maps.apigw.ntruss.com/map-static/v2/raster?"
                ++ query ++ Str.nl ++ Str.nl
                ++ "* 이 URL에 적절한 API 키 헤더를 포함하여 요청하면 지도 이미지를 받을 수 있습니다.")]
    /\ Url.parse query
       = [("center", "127.0,37.5"); ("level", "6"); ("w", "400"); ("h", "400");
          ("format", "png")].
Proof.
  destruct (earlier_static_map_only_writes_the_url
              Examples.config Examples.silent Samples.no_window "127.0,37.5"
              Examples.six Examples.four_hundred Examples.four_hundred)
    as [_ H].
  destruct (H Examples.no_candidates) as (query & Hres & Hparse).
  - intros Hc. vm_compute in Hc. discriminate.
  - exists query. split.
    + rewrite Hres. vm_compute. reflexivity.
    + rewrite Hparse. vm_compute. reflexivity.
Defined.

End LinkTheorems.

(* ================================================================== *)
(** ** The other functions of the earlier revisions *)
(* ================================================================== *)

Section BlobTheorems.

Import Js Server Spec Props.

(** The geocoding step of the earlier revisions makes at most one
    exchange, at the geocoding endpoint. *)
Lemma legacy_geocode_step_log config net hostname input :
  snd (Legacy.geocode_if_not_coordinate config net hostname input []) = []
  \/ exists outcome,
       snd (Legacy.geocode_if_not_coordinate config net hostname input [])
       = [(Legacy.request config geocode_endpoint [("query", VStr input)], outcome)].
Proof.
  unfold Legacy.geocode_if_not_coordinate.
  destruct (isCoordinate_unhardened input); cbn [negb]; [now left|right].
  unfold bind, Legacy.makeNaverAPIRequest, bind, fetch.
  destruct (net [] _) as [response|e]; [|now eexists].
  destruct (negb (ok response)); unfold lift.
  - destruct hostname; now eexists.
  - destruct (json response); now eexists.
Qed.

(** X20. The static-map tool of the earlier revision that returns a
    temporary URL makes the same exchanges as the one that returns the
    image as base64.  When the image is answered with a success status,
    it returns the text with the URL the host made for the bytes of the
    answer, or the report of the exception of the host. *)
Theorem earlier_url_tool_requests_the_image :
  forall config net hostname createObjectURL center level w h,
    snd (run (Legacy.Blob.naver_static_map_url config net hostname
                createObjectURL center level w h))
    = snd (run (Legacy.Inline.naver_static_map config net hostname
                  center level w h))
    /\ forall before req response,
         snd (run (Legacy.Blob.naver_static_map_url config net hostname
                     createObjectURL center level w h))
         = (before ++ [(req, Ok response)])%list ->
         endpoint req = static_endpoint ->
         ok response = true ->
         exists centerCoords,
           fst (run (Legacy.Blob.naver_static_map_url config net hostname
                       createObjectURL center level w h))
           = Ok [Text
                   match createObjectURL (arrayBuffer response) with
                   | Ok imageUrl =>
                       "🗺️ 정적 지도 이미지가 생성되었습니다." ++ Str.nl ++ Str.nl
                       ++ "📍 중심 좌표: " ++ centerCoords ++ Str.nl
                       ++ "📏 크기: " ++ Num.toString w ++ "x" ++ Num.toString h
                       ++ "px" ++ Str.nl
                       ++ "🔍 레벨: " ++ Num.toString level ++ Str.nl ++ Str.nl
                       ++ "🔗 임시 이미지 URL:" ++ Str.nl ++ imageUrl
                       ++ Str.nl ++ Str.nl
                       ++ "* 이 URL은 현재 세션에서만 유효합니다."
                   | Throw e => "오류 발생: " ++ message e
                   end].
Proof.
  intros config net hostname createObjectURL center level w h.
  unfold run, Legacy.Blob.naver_static_map_url, Legacy.Inline.naver_static_map,
    try_catch, bind.
  pose proof (legacy_geocode_step_log config net hostname center) as Hlog.
  destruct (Legacy.geocode_if_not_coordinate config net hostname center [])
    as [[centerCoords|e] calls]; cbn [snd] in Hlog.
  - unfold fetch.
    destruct (net calls (Legacy.raster_request config centerCoords level w h))
      as [response|e] eqn:Hnet.
    + destruct (ok response) eqn:Hok; cbn [negb].
      * unfold lift. split.
        -- destruct (createObjectURL (arrayBuffer response)); reflexivity.
        -- intros before req response' Hsplit _ _. exists centerCoords.
           assert (Hsnd : (calls ++ [(Legacy.raster_request config centerCoords
                                        level w h, Ok response)])%list
                          = (before ++ [(req, Ok response')])%list)
             by (destruct (createObjectURL (arrayBuffer response)); exact Hsplit).
           apply app_inj_tail in Hsnd. destruct Hsnd as [_ Hlast].
           injection Hlast as _ <-.
           destruct (createObjectURL (arrayBuffer response)); reflexivity.
      * split; [reflexivity|].
        intros before req response' Hsplit _ Hok'. cbn [snd] in Hsplit.
        apply app_inj_tail in Hsplit. destruct Hsplit as [_ Hlast].
        injection Hlast as _ <-. congruence.
    + split; [reflexivity|].
      intros before req response' Hsplit _ _. cbn [snd] in Hsplit.
      apply app_inj_tail in Hsplit. destruct Hsplit as [_ Hlast]. discriminate.
  - split; [reflexivity|].
    intros before req response Hsplit Hend _. cbn [snd] in Hsplit.
    destruct Hlog as [->|(outcome & ->)].
    + now destruct before.
    + destruct before as [|x before]; [|now destruct before].
      injection Hsplit as <- _. discriminate.
Qed.

(** X20 on a provider that answers with an image of five bytes. *)
Lemma earlier_url_tool_witness :
  exists centerCoords,
    fst (run (Legacy.Blob.naver_static_map_url Examples.config
                (Examples.healthy Examples.one_candidate Examples.no_routes)
                Samples.no_window Samples.minted "127.0,37.5"
                Examples.six Examples.four_hundred Examples.four_hundred))
    = Ok [Text ("🗺️ 정적 지도 이미지가 생성되었습니다." ++ Str.nl ++ Str.nl
                ++ "📍 중심 좌표: " ++ centerCoords ++ Str.nl
                ++ "📏 크기: " ++ "400" ++ "x" ++ "400" ++ "px" ++ Str.nl
                ++ "🔍 레벨: " ++ "6" ++ Str.nl ++ Str.nl
                ++ "🔗 임시 이미지 URL:" ++ Str.nl ++ "blob:nodedata:1"
                ++ Str.nl ++ Str.nl
                ++ "* 이 URL은 현재 세션에서만 유효합니다.")].
Proof.
  set (net := Examples.healthy Examples.one_candidate Examples.no_routes).
  set (req := Legacy.raster_request Examples.config "127.0,37.5" Examples.six
                Examples.four_hundred Examples.four_hundred).
  set (response := {| status := 200; statusText := "OK";
                      json := Ok Examples.one_result;
                      arrayBuffer := Examples.image |}).
  destruct (earlier_url_tool_requests_the_image
              Examples.config net Samples.no_window Samples.minted
              "127.0,37.5" Examples.six Examples.four_hundred Examples.four_hundred)
    as [_ H].
  destruct (H [] req response) as (c & Hc).
  - vm_compute. reflexivity.
  - reflexivity.
  - reflexivity.
  - exists c. rewrite Hc. vm_compute. reflexivity.
Defined.

End BlobTheorems.

Section StandaloneTheorems.

Import Js Server Spec Props.
Import Legacy.Standalone.

(** X21. [getNaverMapImage] never throws and writes no file, whatever
    its arguments are.  Called as [example] calls it, with strings for
    the centre and the two keys and numbers for the level, the width and
    the height, it makes one request: a GET for a [png] at the raster
    endpoint, with the two keys as headers.  When the answer has a
    status that is not a success, it returns the failure whose error is
    "HTTP error! status: " and the status, and says so on the console. *)
Theorem getNaverMapImage_returns_a_record :
  forall net createObjectURL centerCoords level w h apiKeyId apiKey world,
    exists r world',
      getNaverMapImage net createObjectURL centerCoords level w h apiKeyId apiKey
                       world
      = (Ok r, world')
      /\ writes world' = writes world
      /\ forall center id key l wd ht,
           centerCoords = VStr center -> apiKeyId = VStr id -> apiKey = VStr key ->
           level = VNum l -> w = VNum wd -> h = VNum ht ->
           let req :=
             {| base := "https://maps.apigw.ntruss.com";
                endpoint := "/map-static/v2/raster";
                searchParams := [("center", center); ("level", Num.toString l);
                                 ("w", Num.toString wd); ("h", Num.toString ht);
                                 ("format", "png")];
                method := "GET";
                headers := [("x-ncp-apigw-api-key-id", id);
                            ("x-ncp-apigw-api-key", key)] |} in
           exchanges world'
           = (exchanges world ++ [(req, net (exchanges world) req)])%list
           /\ forall response,
                net (exchanges world) req = Ok response ->
                ok response = false ->
                r = ImageError ("HTTP error! status: " ++ Str.of_Z (status response))
                /\ console world'
                   = (console world
                      ++ [Errored "지도 이미지 요청 실패:"
                            (Error ("HTTP error! status: "
                                    ++ Str.of_Z (status response)))])%list.
Proof.
  intros net createObjectURL centerCoords level w h apiKeyId apiKey world.
  unfold getNaverMapImage, wtry, wbind, wlift.
  destruct (raster_request centerCoords level w h apiKeyId apiKey) as [req|e] eqn:Hreq.
  - assert (Hshape : forall center id key l wd ht,
               centerCoords = VStr center -> apiKeyId = VStr id ->
               apiKey = VStr key ->
               level = VNum l -> w = VNum wd -> h = VNum ht ->
               req = {| base := "https://maps.apigw.ntruss.com";
                        endpoint := "/map-static/v2/raster";
                        searchParams := [("center", center);
                                         ("level", Num.toString l);
                                         ("w", Num.toString wd);
                                         ("h", Num.toString ht);
                                         ("format", "png")];
                        method := "GET";
                        headers := [("x-ncp-apigw-api-key-id", id);
                                    ("x-ncp-apigw-api-key", key)] |}).
    { intros center id key l wd ht -> -> -> -> -> ->.
      unfold raster_request, toString_method in Hreq.
      cbn [and_then ToString] in Hreq. now injection Hreq as <-. }
    unfold wfetch. destruct (net (exchanges world) req) as [response|e] eqn:Hnet.
    + destruct (ok response) eqn:Hok; cbn [negb].
      * destruct (createObjectURL (arrayBuffer response)) as [imageUrl|e];
          eexists _, _; (split; [reflexivity|]); (split; [reflexivity|]);
          intros center id key l wd ht Hc Hi Hk Hl Hw Hh; cbv zeta;
          rewrite <- (Hshape _ _ _ _ _ _ Hc Hi Hk Hl Hw Hh), Hnet;
          (split; [reflexivity|]); intros r' Hr' Hok'; injection Hr' as <-;
          congruence.
      * eexists _, _. split; [reflexivity|]. split; [reflexivity|].
        intros center id key l wd ht Hc Hi Hk Hl Hw Hh. cbv zeta.
        rewrite <- (Hshape _ _ _ _ _ _ Hc Hi Hk Hl Hw Hh), Hnet.
        split; [reflexivity|]. intros r' Hr' _. injection Hr' as <-.
        split; reflexivity.
    + eexists _, _. split; [reflexivity|]. split; [reflexivity|].
      intros center id key l wd ht Hc Hi Hk Hl Hw Hh. cbv zeta.
      rewrite <- (Hshape _ _ _ _ _ _ Hc Hi Hk Hl Hw Hh), Hnet.
      split; [reflexivity|]. intros r' Hr'. discriminate.
  - eexists _, _. split; [reflexivity|]. split; [reflexivity|].
    intros center id key l wd ht -> -> -> -> -> ->.
    unfold raster_request, toString_method in Hreq. discriminate.
Qed.

(** X21 on a provider that answers 403 Forbidden. *)
Lemma getNaverMapImage_witness :
  exists world',
    getNaverMapImage Examples.forbidden Samples.minted
      (VStr "127.0,37.5") (Examples.number "16") (Examples.number "300")
      (Examples.number "200") (VStr "id") (VStr "key") Samples.untouched
    = (Ok (ImageError "HTTP error! status: 403"), world')
    /\ writes world' = [].
Proof.
  destruct (getNaverMapImage_returns_a_record
              Examples.forbidden Samples.minted
              (VStr "127.0,37.5") (Examples.number "16") (Examples.number "300")
              (Examples.number "200") (VStr "id") (VStr "key") Samples.untouched)
    as (r & world' & Hrun & Hwrites & H).
  destruct (H "127.0,37.5" "id" "key" _ _ _
              eq_refl eq_refl eq_refl eq_refl eq_refl eq_refl) as (_ & Hfail).
  destruct (Hfail {| status := 403; statusText := "Forbidden";
                     json := Ok VNull; arrayBuffer := [] |})
    as [-> _].
  - vm_compute. reflexivity.
  - reflexivity.
  - exists world'. split; [exact Hrun|exact Hwrites].
Defined.



End StandaloneTheorems.

(* ================================================================== *)
(** ** The numbers of a route *)
(* ================================================================== *)

Section Numerals.

Import Js Server Spec Props.

Lemma all_digits_app (a b : string) :
  all_digits (a ++ b) = all_digits a && all_digits b.
Proof.
  unfold all_digits. induction a as [|c a IH]; [reflexivity|].
  cbn [append list_ascii_of_string forallb]. rewrite IH. apply andb_assoc.
Qed.

Lemma all_digits_take (n : nat) (s : string) :
  all_digits s = true -> all_digits (Str.take n s) = true.
Proof.
  unfold all_digits. revert s.
  induction n as [|n IH]; intros [|c s]; try reflexivity.
  cbn [Str.take list_ascii_of_string forallb]. intros H.
  apply andb_true_iff in H. destruct H as [Hc Hs].
  now rewrite Hc, (IH s Hs).
Qed.

Lemma all_digits_drop (n : nat) (s : string) :
  all_digits s = true -> all_digits (Str.drop n s) = true.
Proof.
  unfold all_digits. revert s.
  induction n as [|n IH]; intros [|c s]; try (intros H; exact H).
  cbn [Str.drop list_ascii_of_string forallb]. intros H.
  apply andb_true_iff in H. destruct H as [_ Hs]. now apply IH.
Qed.

Lemma all_digits_repeat0 (n : nat) : all_digits (Str.repeat0 n) = true.
Proof. induction n as [|n IH]; [reflexivity|exact IH]. Qed.

Lemma all_digits_uint (d : Decimal.uint) :
  all_digits (NilEmpty.string_of_uint d) = true.
Proof. induction d; try reflexivity; exact IHd. Qed.

(** The numeral of an integer that is not negative is made of digits. *)
Lemma all_digits_of_Z (z : Z) : 0 <= z -> all_digits (Str.of_Z z) = true.
Proof.
  intros Hz. destruct z as [|p|p]; try lia; unfold Str.of_Z, Str.of_N.
  - reflexivity.
  - unfold NilZero.string_of_uint.
    destruct (N.to_uint (Z.to_N (Zpos p))) eqn:E;
      try (rewrite <- E; apply all_digits_uint); reflexivity.
Qed.

(** One fraction digit: digits, a point, one digit. *)
Lemma fixed_digits_one_numeral (n : Z) :
  0 <= n ->
  exists ip fp,
    Num.fixed_digits 1 n = ip ++ "." ++ fp
    /\ ip <> "" /\ String.length fp = 1%nat
    /\ all_digits ip = true /\ all_digits fp = true.
Proof.
  intros Hn. unfold Num.fixed_digits.
  set (m := if (String.length (Str.of_Z n) <=? 1)%nat
            then Str.repeat0 (1 + 1 - String.length (Str.of_Z n)) ++ Str.of_Z n
            else Str.of_Z n).
  assert (Hm : (2 <= String.length m)%nat).
  { unfold m. destruct (Nat.leb_spec (String.length (Str.of_Z n)) 1).
    - rewrite length_append, length_repeat0. lia.
    - lia. }
  assert (Hd : all_digits m = true).
  { unfold m. destruct (String.length (Str.of_Z n) <=? 1)%nat.
    - now rewrite all_digits_app, all_digits_repeat0, all_digits_of_Z.
    - now apply all_digits_of_Z. }
  exists (Str.take (String.length m - 1) m), (Str.drop (String.length m - 1) m).
  split; [reflexivity|]. split; [|split; [|split]].
  - intros H. apply (f_equal String.length) in H.
    rewrite length_take in H by lia. simpl in H. lia.
  - rewrite length_drop. lia.
  - now apply all_digits_take.
  - now apply all_digits_drop.
Qed.

End Numerals.

Section RouteNumbers.

Import Js Server Spec Props.

(** X23. The distance of a route is shown with exactly one decimal:
    when the Number the division by 1000 gives is finite and below
    10^21, the text is a sign when it is negative, one digit or more, a
    point, one digit and "km". *)
Theorem distance_has_one_decimal :
  forall distance s m e,
    Num.div (ToNumber distance) (Num.of_Z 1000) = S754_finite s m e ->
    (10 ^ 21 * snd (Num.frac m e) <=? fst (Num.frac m e)) = false ->
    exists ip fp,
      kilometres distance = (if s then "-" else "") ++ ip ++ "." ++ fp ++ "km"
      /\ ip <> "" /\ String.length fp = 1%nat
      /\ all_digits ip = true /\ all_digits fp = true.
Proof.
  intros distance s m e Hdiv Hsmall. unfold kilometres. rewrite Hdiv.
  unfold Num.toFixed.
  destruct (frac_pos m e) as [HN HD].
  destruct (Num.frac m e) as [N D]. cbn [fst snd] in *. rewrite Hsmall.
  destruct (fixed_digits_one_numeral (Num.round_half_up (N * 10 ^ Z.of_nat 1) D))
    as (ip & fp & E & Hip & Hfp & Hdi & Hdf).
  { unfold Num.round_half_up. apply Z.div_pos; [|lia].
    change (10 ^ Z.of_nat 1) with 10. lia. }
  exists ip, fp. rewrite E. split; [|now repeat split].
  now rewrite !append_assoc.
Qed.

(** X23 on 12345 metres: "12.3km". *)
Lemma distance_has_one_decimal_witness :
  exists ip fp,
    kilometres (Examples.number "12345") = "" ++ ip ++ "." ++ fp ++ "km"
    /\ ip <> "" /\ String.length fp = 1%nat
    /\ all_digits ip = true /\ all_digits fp = true.
Proof.
  apply (distance_has_one_decimal
           (Examples.number "12345") false 6949617174986097 (-49)).
  - vm_compute. reflexivity.
  - vm_compute. reflexivity.
Defined.

(** X24. The duration of a route is shown in minutes rounded to the
    nearest whole number, half a minute rounded up: when the Number [q]
    the division by 60000 gives has a fraction, the minutes are the
    integer [r] with [r - 1/2 <= q < r + 1/2]. *)
Theorem duration_is_rounded_half_up :
  forall duration s m e,
    Num.div (ToNumber duration) (Num.of_Z 60000) = S754_finite s m e ->
    e < 0 ->
    exists r : Z,
      minutes duration
      = Num.toString (if r =? 0 then S754_zero s else Num.of_Z r) ++ "분"
      /\ (2 * r - 1) * 2 ^ (- e) <= 2 * (if s then Zneg m else Zpos m)
         < (2 * r + 1) * 2 ^ (- e).
Proof.
  intros duration s m e Hdiv He. unfold minutes. rewrite Hdiv.
  destruct (Math_round_nearest s m e He) as (r & Hr & Hb).
  exists r. now rewrite Hr.
Qed.

(** X24 on 90000 milliseconds, a minute and a half: "2분". *)
Lemma duration_is_rounded_witness :
  exists r : Z,
    minutes (Examples.number "90000")
    = Num.toString (if r =? 0 then S754_zero false else Num.of_Z r) ++ "분"
    /\ (2 * r - 1) * 2 ^ 52 <= 2 * 6755399441055744 < (2 * r + 1) * 2 ^ 52.
Proof.
  apply (duration_is_rounded_half_up
           (Examples.number "90000") false 6755399441055744 (-52)).
  - vm_compute. reflexivity.
  - lia.
Defined.

End RouteNumbers.

(* ================================================================== *)
(** ** Every tool of the earlier revisions returns *)
(* ================================================================== *)

Section LegacyRuns.

Import Js Server Spec Props.

Variable config : Config.
Variable net : Network.
Variable hostname : result string.

(** A gateway call of the earlier revisions is one exchange. *)
Lemma legacy_gateway_one_exchange endpoint params log :
  exists r outcome,
    Legacy.makeNaverAPIRequest config net hostname endpoint params log
    = (r, (log ++ [(Legacy.request config endpoint params, outcome)])%list).
Proof.
  unfold Legacy.makeNaverAPIRequest, bind, fetch.
  destruct (net log _) as [response|e]; [|now eexists _, _].
  destruct (negb (ok response)); unfold lift.
  - destruct hostname; now eexists _, _.
  - destruct (json response); now eexists _, _.
Qed.

(** The geocoding step of the earlier revisions makes no exchange and
    returns its input, or makes one. *)
Lemma legacy_step_cases input log :
  Legacy.geocode_if_not_coordinate config net hostname input log = (Ok input, log)
  \/ exists r x,
       Legacy.geocode_if_not_coordinate config net hostname input log
       = (r, (log ++ [x])%list).
Proof.
  unfold Legacy.geocode_if_not_coordinate.
  destruct (isCoordinate_unhardened input); cbn [negb]; [now left|right].
  unfold bind.
  destruct (legacy_gateway_one_exchange geocode_endpoint [("query", VStr input)] log)
    as (r & outcome & ->).
  destruct r as [geo|e]; unfold lift; now eexists _, _.
Qed.

(** A geocoding step and the rest of a body, inside [try]. *)
Lemma legacy_try_step {A : Type} input (rest : string -> M A) (handler : exn -> M A)
      (lo lo' hi : nat) :
  (forall e, returns_within 0 0 (handler e)) ->
  (forall coords, returns_within lo hi (try_catch (rest coords) handler)) ->
  (lo' <= lo)%nat -> (lo' <= 1)%nat ->
  returns_within lo' (S hi)
    (try_catch (coords <- Legacy.geocode_if_not_coordinate config net hostname input ;;
                rest coords) handler).
Proof.
  intros Hh Hrest Hlo H1 log. unfold try_catch at 1, bind.
  destruct (legacy_step_cases input log) as [->|(r & x & ->)].
  - destruct (Hrest input log) as (content & new & E & Hlen).
    unfold try_catch in E.
    destruct (rest input log) as [[a|e] log'].
    + injection E as <- ->. exists a, new. split; [reflexivity|lia].
    + exists content, new. split; [exact E|lia].
  - destruct r as [coords|e].
    + destruct (Hrest coords (log ++ [x])%list) as (content & new & E & Hlen).
      unfold try_catch in E.
      destruct (rest coords (log ++ [x])%list) as [[a|e] log'].
      * injection E as <- ->. exists a, (x :: new).
        rewrite <- app_assoc. split; [reflexivity|simpl; lia].
      * exists content, (x :: new). rewrite E, <- app_assoc.
        split; [reflexivity|simpl; lia].
    + destruct (Hh e (log ++ [x])%list) as (content & new & E & Hlen).
      destruct new; [|simpl in Hlen; lia]. rewrite app_nil_r in E.
      exists content, [x]. split; [exact E|simpl; lia].
Qed.

(** A body that is one gateway call, inside [try]. *)
Lemma legacy_try_gateway endpoint params (finish : value -> result CallToolResult) :
  returns_within 1 1
    (try_catch (data <- Legacy.makeNaverAPIRequest config net hostname endpoint params ;;
                lift (finish data)) report).
Proof.
  intros log. unfold try_catch, bind.
  destruct (legacy_gateway_one_exchange endpoint params log) as (r & outcome & ->).
  destruct r as [data|e]; unfold lift.
  - destruct (finish data); eexists _, [_]; (split; [reflexivity|simpl; lia]).
  - eexists _, [_]. split; [reflexivity|simpl; lia].
Qed.

Lemma report_returns (e : exn) : returns_within 0 0 (report e).
Proof. intros log. exists [Text ("오류 발생: " ++ message e)], []. now rewrite app_nil_r. Qed.

Lemma report_image_returns (e : exn) : returns_within 0 0 (Legacy.report_image e).
Proof.
  intros log. exists [Legacy.Caption ("오류 발생: " ++ message e)], [].
  now rewrite app_nil_r.
Qed.

End LegacyRuns.

Section LegacyReturns.

Import Js Server Spec Props.

(** X25. No tool of the earlier revisions throws: whatever the provider
    and the host do, each returns a result, after one exchange (geocode,
    reverse geocode), at most one (the static map that writes the URL),
    one or two (the two static maps that request the image) or one to
    three (directions), and it only adds exchanges to the log. *)
Theorem earlier_tools_return :
  forall config net hostname createObjectURL log,
    (forall start goal option waypoints,
        exists content new,
          Legacy.naver_directions config net hostname start goal option waypoints log
          = (Ok content, (log ++ new)%list)
          /\ (1 <= List.length new <= 3)%nat)
    /\ (forall address,
          exists content new,
            Legacy.naver_geocode config net hostname address log
            = (Ok content, (log ++ new)%list)
            /\ (1 <= List.length new <= 1)%nat)
    /\ (forall lat lng,
          exists content new,
            Legacy.naver_reverse_geocode config net hostname lat lng log
            = (Ok content, (log ++ new)%list)
            /\ (1 <= List.length new <= 1)%nat)
    /\ (forall center level w h,
          exists content new,
            Legacy.Link.naver_static_map config net hostname center level w h log
            = (Ok content, (log ++ new)%list)
            /\ (0 <= List.length new <= 1)%nat)
    /\ (forall center level w h,
          exists content new,
            Legacy.Inline.naver_static_map config net hostname center level w h log
            = (Ok content, (log ++ new)%list)
            /\ (1 <= List.length new <= 2)%nat)
    /\ (forall center level w h,
          exists content new,
            Legacy.Blob.naver_static_map_url config net hostname createObjectURL
                                             center level w h log
            = (Ok content, (log ++ new)%list)
            /\ (1 <= List.length new <= 2)%nat).
Proof.
  intros config net hostname createObjectURL log.
  split; [|split; [|split; [|split; [|split]]]].
  - intros start goal option waypoints. revert log.
    apply (legacy_try_step config net hostname start _ report 1 1 2);
      [apply report_returns| |lia|lia].
    intros s.
    apply (legacy_try_step config net hostname goal _ report 1 1 1);
      [apply report_returns| |lia|lia].
    intros g. apply legacy_try_gateway.
  - intros address. revert log. apply legacy_try_gateway.
  - intros lat lng. revert log. apply legacy_try_gateway.
  - intros center level w h. revert log.
    apply (legacy_try_step config net hostname center _ report 0 0 0);
      [apply report_returns| |lia|lia].
    intros c log. eexists _, []. rewrite app_nil_r.
    split; [reflexivity|simpl; lia].
  - intros center level w h. revert log.
    apply (legacy_try_step config net hostname center _ Legacy.report_image 1 1 1);
      [apply report_image_returns| |lia|lia].
    intros c log. unfold try_catch, bind, fetch.
    destruct (net log _) as [response|e].
    + destruct (negb (ok response)); eexists _, [_];
        (split; [reflexivity|simpl; lia]).
    + eexists _, [_]. split; [reflexivity|simpl; lia].
  - intros center level w h. revert log.
    apply (legacy_try_step config net hostname center _ report 1 1 1);
      [apply report_returns| |lia|lia].
    intros c log. unfold try_catch, bind, fetch.
    destruct (net log _) as [response|e].
    + destruct (negb (ok response)).
      * eexists _, [_]. split; [reflexivity|simpl; lia].
      * unfold lift. destruct (createObjectURL (arrayBuffer response));
          eexists _, [_]; (split; [reflexivity|simpl; lia]).
    + eexists _, [_]. split; [reflexivity|simpl; lia].
Qed.

End LegacyReturns.
